(** * AlphaLens: indicator engine, signal detector and strategy backtester

    A shallow embedding of
      - [backend/app/agent/financial_agent.py]
          ([calculate_technical_indicators], [_calculate_rsi_signal_strength],
           [_calculate_ma_cross_strength], [_check_rsi_divergence],
           [detect_trading_signals], [detect_trading_signals_for_backtest]) and
      - [backend/app/agent/strategy_backtest.py]
          ([_calculate_equity_curve], [_calculate_max_drawdown],
           [_calculate_sharpe_ratio], [_calculate_metrics],
           [backtest_signal_based_strategy], [backtest_ma_cross_strategy],
           [backtest_rsi_strategy], [backtest_macd_strategy]).

    Conventions of the embedding.
      - A Python/numpy float is a [pyfloat]: an exact rational, one of the two
        infinities, or NaN.  Rounding is not modelled; the special values and
        the comparison rules of IEEE 754 (every comparison with NaN is false,
        x/0 is an infinity or NaN) are.  Where a statement depends on
        rounding, the arithmetic of the source is evaluated in IEEE binary64
        itself, on Rocq's primitive floats.
      - A calendar date is its day ordinal, an integer; [strftime] and
        [strptime] are inverse bijections between dates and their text, so
        they are the identity of the embedding.
      - A Python [int] is a [Z]; a [str] is a [string]; a list is a [list];
        a [dict] used as a map is a [gmap]. *)

From Stdlib Require Import ZArith QArith Qcanon Lia Lqa Floats.
From stdpp Require Import base numbers list strings gmap sorting.

Local Open Scope Z_scope.

(** ** Floats *)

Module Float.

Inductive pyfloat := Fin (q : Qc) | PInf | NInf | NaN.

(** Decimal literals of the source: [dec 6 10] is [0.6]. *)
Definition dec (n : Z) (d : positive) : Qc := Q2Qc (n # d).
Definition lit (n : Z) (d : positive) : pyfloat := Fin (dec n d).
Definition of_int (z : Z) : pyfloat := Fin (Qc_of_Z z).
Definition of_len {A} (l : list A) : pyfloat := of_int (Z.of_nat (length l)).

Definition Qc_ltb (a b : Qc) : bool := bool_decide (a < b)%Qc.
Definition Qc_leb (a b : Qc) : bool := bool_decide (a ≤ b)%Qc.
Definition Qc_eqb (a b : Qc) : bool := bool_decide (a = b).

Definition notna (x : pyfloat) : bool :=
  match x with NaN => false | _ => true end.
Definition isna (x : pyfloat) : bool := negb (notna x).

Definition fopp (x : pyfloat) : pyfloat :=
  match x with
  | Fin a => Fin (- a)%Qc
  | PInf => NInf
  | NInf => PInf
  | NaN => NaN
  end.

Definition fadd (x y : pyfloat) : pyfloat :=
  match x, y with
  | NaN, _ | _, NaN => NaN
  | Fin a, Fin b => Fin (a + b)%Qc
  | PInf, NInf | NInf, PInf => NaN
  | PInf, _ | _, PInf => PInf
  | NInf, _ | _, NInf => NInf
  end.

Definition fsub (x y : pyfloat) : pyfloat := fadd x (fopp y).

(** Sign of a float, for the product and quotient rules: [None] for NaN. *)
Definition fsign (x : pyfloat) : option comparison :=
  match x with
  | NaN => None
  | PInf => Some Gt
  | NInf => Some Lt
  | Fin a => Some (if Qc_ltb 0 a then Gt else if Qc_ltb a 0 then Lt else Eq)
  end.

Definition inf_of_sign (s t : comparison) : pyfloat :=
  match s, t with
  | Eq, _ | _, Eq => NaN
  | Gt, Gt | Lt, Lt => PInf
  | Gt, Lt | Lt, Gt => NInf
  end.

Definition fmul (x y : pyfloat) : pyfloat :=
  match x, y with
  | Fin a, Fin b => Fin (a * b)%Qc
  | _, _ =>
      match fsign x, fsign y with
      | Some s, Some t => inf_of_sign s t
      | _, _ => NaN
      end
  end.

(** numpy division: a zero divisor yields an infinity (NaN for 0/0) and
    never raises.  Zeros are unsigned in the embedding. *)
Definition fdiv (x y : pyfloat) : pyfloat :=
  match x, y with
  | NaN, _ | _, NaN => NaN
  | Fin a, Fin b =>
      if Qc_eqb b 0 then
        (if Qc_ltb 0 a then PInf else if Qc_ltb a 0 then NInf else NaN)
      else Fin (a / b)%Qc
  | Fin _, _ => Fin 0
  | _, Fin b =>
      match fsign x with
      | Some s => inf_of_sign s (if Qc_ltb b 0 then Lt else Gt)
      | None => NaN
      end
  | _, _ => NaN
  end.

Definition flt (x y : pyfloat) : bool :=
  match x, y with
  | NaN, _ | _, NaN => false
  | Fin a, Fin b => Qc_ltb a b
  | NInf, NInf | PInf, PInf => false
  | NInf, _ | _, PInf => true
  | _, _ => false
  end.

Definition fle (x y : pyfloat) : bool :=
  match x, y with
  | NaN, _ | _, NaN => false
  | Fin a, Fin b => Qc_leb a b
  | NInf, _ | _, PInf => true
  | _, _ => false
  end.

Definition fgt (x y : pyfloat) : bool := flt y x.
Definition fge (x y : pyfloat) : bool := fle y x.

(** IEEE equality, Python's [==] on floats. *)
Definition feqb (x y : pyfloat) : bool :=
  match x, y with
  | Fin a, Fin b => Qc_eqb a b
  | PInf, PInf | NInf, NInf => true
  | _, _ => false
  end.

Definition fabs (x : pyfloat) : pyfloat :=
  match x with
  | Fin a => Fin (if Qc_ltb a 0 then - a else a)%Qc
  | PInf | NInf => PInf
  | NaN => NaN
  end.

(** Python's builtin [min(a, b)]: [b] when [b < a], else [a]. *)
Definition py_min (a b : pyfloat) : pyfloat := if flt b a then b else a.
(** Python's builtin [max(a, b)]: [b] when [b > a], else [a]. *)
Definition py_max (a b : pyfloat) : pyfloat := if fgt b a then b else a.

(** Python's [sum(xs)]: a left fold from the integer 0. *)
Definition py_sum (xs : list pyfloat) : pyfloat := foldl fadd (of_int 0) xs.

Definition is_fin (x : pyfloat) : Prop :=
  match x with Fin _ => True | _ => False end.

(** Zero, a positive rational or plus infinity. *)
Definition is_nonneg (x : pyfloat) : Prop :=
  match x with Fin a => (0 ≤ a)%Qc | PInf => True | _ => False end.

#[global] Instance is_fin_dec x : Decision (is_fin x).
Proof. destruct x; cbn; apply _. Defined.

#[global] Instance pyfloat_eq_dec : EqDecision pyfloat.
Proof. solve_decision. Defined.

#[global] Instance pyfloat_inhabited : Inhabited pyfloat := populate NaN.

End Float.

Export Float.

(** Primitives of the numeric and formatting libraries that the embedding
    leaves abstract: [numpy.sqrt], Python's float power [**] and the format
    specifications [:.1f] and [:.4f]. *)
Class NumLib := {
  np_sqrt : pyfloat → pyfloat;
  py_pow : pyfloat → pyfloat → pyfloat;
  format_1f : pyfloat → string;
  format_4f : pyfloat → string
}.

(** ** pandas Series operations used by the indicator engine *)

Module Series.

(** [s.diff()]: the first entry is NaN. *)
Definition diff (xs : list pyfloat) : list pyfloat :=
  match xs with
  | [] => []
  | _ :: tl => NaN :: zip_with fsub tl xs
  end.

(** [s.where(cond, other)] for a condition computed entry by entry. *)
Definition where_ (cond : pyfloat → bool) (other : pyfloat)
    (xs : list pyfloat) : list pyfloat :=
  (λ x, if cond x then x else other) <$> xs.

Definition neg (xs : list pyfloat) : list pyfloat := fopp <$> xs.

Definition np_sum (xs : list pyfloat) : pyfloat := foldl fadd (Fin 0) xs.

(** The [w] observations ending at index [i]. *)
Definition window_at {A} (w i : nat) (xs : list A) : list A :=
  take w (drop (i + 1 - w) xs).

(** [s.rolling(window=w).mean()]: NaN until [w] observations are there. *)
Definition rolling_mean (w : nat) (xs : list pyfloat) : list pyfloat :=
  imap (λ i _, if (i + 1 <? w)%nat then NaN
               else fdiv (np_sum (window_at w i xs)) (of_int (Z.of_nat w))) xs.

(** [s.rolling(window=w).std()]: the sample standard deviation (ddof = 1). *)
Definition rolling_std `{NumLib} (w : nat) (xs : list pyfloat) : list pyfloat :=
  imap (λ i _, if (i + 1 <? w)%nat then NaN
               else
                 let win := window_at w i xs in
                 let m := fdiv (np_sum win) (of_int (Z.of_nat w)) in
                 let sq := (λ x, fmul (fsub x m) (fsub x m)) <$> win in
                 np_sqrt (fdiv (np_sum sq) (of_int (Z.of_nat w - 1)))) xs.

(** [s.ewm(span=n, adjust=False).mean()]:
    [y_0 = x_0], [y_t = (1 - a) y_(t-1) + a x_t] with [a = 2 / (n + 1)]. *)
Fixpoint ewm_from (a prev : pyfloat) (xs : list pyfloat) : list pyfloat :=
  match xs with
  | [] => []
  | x :: tl =>
      let y := fadd (fmul (fsub (of_int 1) a) prev) (fmul a x) in
      y :: ewm_from a y tl
  end.

Definition ewm_mean (span : Z) (xs : list pyfloat) : list pyfloat :=
  match xs with
  | [] => []
  | x :: tl => x :: ewm_from (fdiv (of_int 2) (of_int (span + 1))) x tl
  end.

(** [s.mean()]: NaN entries are skipped; NaN when nothing is left. *)
Definition mean (xs : list pyfloat) : pyfloat :=
  let ys := filter (λ x, notna x = true) xs in
  match ys with
  | [] => NaN
  | _ => fdiv (np_sum ys) (of_len ys)
  end.

End Series.

(** ** Data frames and the object store

    A [DataFrame] is its date index and its float columns by name.  Frames are
    mutable objects: a variable holds a reference ([loc]) into the store. *)

Record DataFrame := mkDataFrame {
  df_date : list Z;
  df_cols : gmap string (list pyfloat)
}.

Definition set_col (name : string) (v : list pyfloat) (d : DataFrame) : DataFrame :=
  {| df_date := df_date d; df_cols := <[name := v]> (df_cols d) |}.

Abbreviation loc := positive (only parsing).
Abbreviation store := (gmap positive DataFrame) (only parsing).

(** The store monad; [None] is a raised [KeyError]. *)
Definition St (A : Type) : Type := store → option (A * store).

#[global] Instance St_ret : MRet St := λ A a h, Some (a, h).
#[global] Instance St_bind : MBind St := λ A B f m h,
  match m h with
  | Some (a, h') => f a h'
  | None => None
  end.

(** [df.copy()]: a new object with the same content. *)
Definition df_copy (l : loc) : St loc := λ h,
  match h !! l with
  | Some d => let l' := fresh (dom h) in Some (l', <[l' := d]> h)
  | None => None
  end.

(** [df[name]] *)
Definition df_get (l : loc) (name : string) : St (list pyfloat) := λ h,
  match h !! l with
  | Some d => match df_cols d !! name with
              | Some c => Some (c, h)
              | None => None
              end
  | None => None
  end.

(** [df[name] = v]: in-place update of the object behind [l]. *)
Definition df_set (l : loc) (name : string) (v : list pyfloat) : St unit := λ h,
  match h !! l with
  | Some d => Some ((), <[l := set_col name v d]> h)
  | None => None
  end.

(** ** Indicator engine: [FinancialAgent.calculate_technical_indicators] *)

Section IndicatorEngine.
Context `{NumLib}.
Import Series.

(** The locals [gain], [loss] and the expression [100 - (100 / (1 + rs))]
    of the RSI calculation. *)
Definition gain_of_delta (delta : list pyfloat) : list pyfloat :=
  rolling_mean 14 (where_ (λ d, fgt d (of_int 0)) (of_int 0) delta).
Definition loss_of_delta (delta : list pyfloat) : list pyfloat :=
  rolling_mean 14 (neg (where_ (λ d, flt d (of_int 0)) (of_int 0) delta)).
Definition rsi_of_rs (rs : list pyfloat) : list pyfloat :=
  (λ r, fsub (of_int 100) (fdiv (of_int 100) (fadd (of_int 1) r))) <$> rs.

Definition calculate_technical_indicators (df0 : loc) : St loc :=
  df ← df_copy df0;
  (* Moving averages *)
  c ← df_get df "close"; df_set df "ma5" (rolling_mean 5 c);;
  c ← df_get df "close"; df_set df "ma10" (rolling_mean 10 c);;
  c ← df_get df "close"; df_set df "ma20" (rolling_mean 20 c);;
  c ← df_get df "close"; df_set df "ma30" (rolling_mean 30 c);;
  c ← df_get df "close"; df_set df "ma60" (rolling_mean 60 c);;
  (* RSI calculation *)
  c ← df_get df "close";
  let delta := diff c in
  let gain := gain_of_delta delta in
  let loss := loss_of_delta delta in
  let rs := zip_with fdiv gain loss in
  df_set df "rsi" (rsi_of_rs rs);;
  (* MACD calculation *)
  c ← df_get df "close";
  let exp1 := ewm_mean 12 c in
  c ← df_get df "close";
  let exp2 := ewm_mean 26 c in
  df_set df "macd" (zip_with fsub exp1 exp2);;
  m ← df_get df "macd"; df_set df "macd_signal" (ewm_mean 9 m);;
  m ← df_get df "macd"; s ← df_get df "macd_signal";
  df_set df "macd_histogram" (zip_with fsub m s);;
  (* Bollinger Bands *)
  c ← df_get df "close"; df_set df "bollinger_middle" (rolling_mean 20 c);;
  c ← df_get df "close";
  let std := rolling_std 20 c in
  b ← df_get df "bollinger_middle";
  df_set df "bollinger_upper" (zip_with fadd b ((λ x, fmul x (of_int 2)) <$> std));;
  b ← df_get df "bollinger_middle";
  df_set df "bollinger_lower" (zip_with fsub b ((λ x, fmul x (of_int 2)) <$> std));;
  mret df.

End IndicatorEngine.

(** ** Row-wise view of a frame: [df.iloc]

    The signal detector and the backtester read a frame row by row.  A [Row]
    holds the columns they read. *)

Record Row := mkRow {
  date : Z;
  close : pyfloat;
  volume : pyfloat;
  ma5 : pyfloat;
  ma30 : pyfloat;
  rsi : pyfloat;
  macd : pyfloat;
  macd_signal : pyfloat;
  macd_histogram : pyfloat
}.

Definition cell (d : DataFrame) (name : string) (i : nat) : pyfloat :=
  default NaN (df_cols d !! name ≫= (.!! i)).

Definition frame_rows (d : DataFrame) : list Row :=
  imap (λ i dt,
        {| date := dt;
           close := cell d "close" i;
           volume := cell d "volume" i;
           ma5 := cell d "ma5" i;
           ma30 := cell d "ma30" i;
           rsi := cell d "rsi" i;
           macd := cell d "macd" i;
           macd_signal := cell d "macd_signal" i;
           macd_histogram := cell d "macd_histogram" i |}) (df_date d).

Module Iloc.

(** Python's [len] as an [int]. *)
Definition len {A} (l : list A) : Z := Z.of_nat (length l).

(** A slice bound, as Python clamps it. *)
Definition clamp (n i : Z) : Z :=
  if i <? 0 then Z.max (n + i) 0 else Z.min i n.

(** [l[start:stop]]; [None] is an omitted bound. *)
Definition slice {A} (start stop : option Z) (l : list A) : list A :=
  let n := len l in
  let s := from_option (clamp n) 0 start in
  let e := from_option (clamp n) n stop in
  take (Z.to_nat (e - s)) (drop (Z.to_nat s) l).

(** [l[i]]; [None] is an [IndexError]. *)
Definition at_ {A} (l : list A) (i : Z) : option A :=
  let n := len l in
  if i <? 0 then (if - n <=? i then l !! Z.to_nat (n + i) else None)
  else l !! Z.to_nat i.

End Iloc.

(** ** Signal detector *)

Record TradingSignal := mkSignal {
  signal_type : string;
  signal_strength : pyfloat;
  signal_reason : string;
  signal_date : Z;
  indicators_used : list string
}.

(** [sep.join(parts)] *)
Definition join (sep : string) (parts : list string) : string :=
  String.concat sep parts.

Section SignalDetector.
Context `{NumLib}.
Import Iloc.

Definition _calculate_rsi_signal_strength
    (rsi_value : pyfloat) (signal_type : string) : pyfloat :=
  if String.eqb signal_type "buy" then
    if flt rsi_value (of_int 20) then lit 9 10
    else if flt rsi_value (of_int 25) then lit 8 10
    else if flt rsi_value (of_int 30) then
      fadd (lit 6 10)
           (fmul (fdiv (fsub (of_int 30) rsi_value) (of_int 10)) (lit 2 10))
    else lit 5 10
  else if String.eqb signal_type "sell" then
    if fgt rsi_value (of_int 80) then lit 9 10
    else if fgt rsi_value (of_int 75) then lit 8 10
    else if fgt rsi_value (of_int 70) then
      fadd (lit 6 10)
           (fmul (fdiv (fsub rsi_value (of_int 70)) (of_int 10)) (lit 2 10))
    else lit 5 10
  else lit 5 10.

(** The branches that index a frame are guarded by a length test in the
    source; the [None] cases below are the [IndexError]s those guards
    exclude. *)
Definition _calculate_ma_cross_strength (df : list Row) (window : Z) : pyfloat :=
  if len df <? window + 1 then lit 5 10
  else
    match at_ df (-1) with
    | None => NaN
    | Some latest =>
        let recent := slice (Some (- window - 1)) (Some (-1)) df in
        let strength := lit 5 10 in
        (* Volume confirmation *)
        let strength :=
          if notna (volume latest) && (0 <? len recent) then
            let avg_volume := Series.mean (volume <$> recent) in
            if fgt (volume latest) (fmul avg_volume (lit 12 10))
            then fadd strength (lit 15 100)
            else if fgt (volume latest) (fmul avg_volume (lit 11 10))
            then fadd strength (lit 1 10)
            else strength
          else strength in
        (* Trend consistency *)
        let strength :=
          if 3 <=? len recent then
            match at_ (close <$> recent) 0 with
            | None => NaN
            | Some c0 =>
                let price_trend := fdiv (fsub (close latest) c0) c0 in
                if fgt (fabs price_trend) (lit 2 100)
                then fadd strength (lit 1 10) else strength
            end
          else strength in
        (* MA separation *)
        let strength :=
          if notna (ma5 latest) && notna (ma30 latest) then
            let separation :=
              fdiv (fabs (fsub (ma5 latest) (ma30 latest))) (ma30 latest) in
            if fgt separation (lit 5 100) then fadd strength (lit 1 10)
            else if fgt separation (lit 3 100) then fadd strength (lit 5 100)
            else strength
          else strength in
        py_min strength (of_int 1)
    end.

Definition _check_rsi_divergence (df : list Row) (window : Z) : bool * string :=
  if len df <? window + 1 then (false, "")
  else
    let recent := slice (Some (- window - 1)) None df in
    match at_ (close <$> recent) (-1), at_ (close <$> recent) 0,
          at_ (rsi <$> recent) (-1), at_ (rsi <$> recent) 0 with
    | Some c_last, Some c_first, Some r_last, Some r_first =>
        let price_change := fdiv (fsub c_last c_first) c_first in
        let rsi_change := fsub r_last r_first in
        if flt price_change (lit (-2) 100) && fgt rsi_change (of_int 5)
        then (true, "bullish")
        else if fgt price_change (lit 2 100) && flt rsi_change (of_int (-5))
        then (true, "bearish")
        else (false, "")
    | _, _, _, _ => (false, "")
    end.

(** *** [detect_trading_signals]: the latest day only

    The source appends to [signals] rule by rule; each rule is one
    definition here, over the variables [latest], [prev] and
    [recent_window] of the source. *)

(** 1. Golden cross *)
Definition latest_golden_cross (df : list Row) (window : Z)
    (latest prev : Row) (recent_window : list Row) : list TradingSignal :=
  if notna (ma5 latest) && notna (ma30 latest) then
    if fgt (ma5 latest) (ma30 latest) && fle (ma5 prev) (ma30 prev) then
      let base_strength := lit 6 10 in
      let cross_strength := _calculate_ma_cross_strength df window in
      let final_strength := fdiv (fadd base_strength cross_strength) (of_int 2) in
      let reason_parts := ["5日均线上穿30日均线（金叉）"] in
      let reason_parts :=
        if (0 <? len recent_window) && notna (volume latest) then
          let avg_volume :=
            if 1 <? len recent_window
            then Series.mean (slice None (Some (-1)) (volume <$> recent_window))
            else volume latest in
          if fgt (volume latest) (fmul avg_volume (lit 12 10))
          then reason_parts ++ ["成交量放大"] else reason_parts
        else reason_parts in
      [ {| signal_type := "buy";
           signal_strength := final_strength;
           signal_reason := join "，" reason_parts;
           signal_date := date latest;
           indicators_used := ["MA5"; "MA30"] |} ]
    else []
  else [].

(** 2. Death cross *)
Definition latest_death_cross (df : list Row) (window : Z)
    (latest prev : Row) (recent_window : list Row) : list TradingSignal :=
  if notna (ma5 latest) && notna (ma30 latest) then
    if flt (ma5 latest) (ma30 latest) && fge (ma5 prev) (ma30 prev) then
      let base_strength := lit 6 10 in
      let cross_strength := _calculate_ma_cross_strength df window in
      let final_strength := fdiv (fadd base_strength cross_strength) (of_int 2) in
      let reason_parts := ["5日均线下穿30日均线（死叉）"] in
      let reason_parts :=
        if (0 <? len recent_window) && notna (volume latest) then
          let avg_volume :=
            if 1 <? len recent_window
            then Series.mean (slice None (Some (-1)) (volume <$> recent_window))
            else volume latest in
          if fgt (volume latest) (fmul avg_volume (lit 12 10))
          then reason_parts ++ ["成交量放大"] else reason_parts
        else reason_parts in
      [ {| signal_type := "sell";
           signal_strength := final_strength;
           signal_reason := join "，" reason_parts;
           signal_date := date latest;
           indicators_used := ["MA5"; "MA30"] |} ]
    else []
  else [].

(** 3. RSI oversold / overbought *)
Definition latest_rsi (df : list Row) (window : Z) (latest : Row)
    : list TradingSignal :=
  if notna (rsi latest) then
    let '(has_divergence, div_type) := _check_rsi_divergence df window in
    if flt (rsi latest) (of_int 30) then
      let strength := _calculate_rsi_signal_strength (rsi latest) "buy" in
      let strength :=
        if has_divergence && String.eqb div_type "bullish"
        then py_min (fadd strength (lit 15 100)) (of_int 1) else strength in
      let reason := "RSI超卖（" +:+ format_1f (rsi latest) +:+ "）" in
      let reason :=
        if has_divergence then reason +:+ "，出现看涨背离" else reason in
      [ {| signal_type := "buy";
           signal_strength := strength;
           signal_reason := reason;
           signal_date := date latest;
           indicators_used := ["RSI"] |} ]
    else if fgt (rsi latest) (of_int 70) then
      let strength := _calculate_rsi_signal_strength (rsi latest) "sell" in
      let strength :=
        if has_divergence && String.eqb div_type "bearish"
        then py_min (fadd strength (lit 15 100)) (of_int 1) else strength in
      let reason := "RSI超买（" +:+ format_1f (rsi latest) +:+ "）" in
      let reason :=
        if has_divergence then reason +:+ "，出现看跌背离" else reason in
      [ {| signal_type := "sell";
           signal_strength := strength;
           signal_reason := reason;
           signal_date := date latest;
           indicators_used := ["RSI"] |} ]
    else []
  else [].

(** 4. MACD cross with histogram confirmation *)
Definition latest_macd (df : list Row) (latest prev : Row) : list TradingSignal :=
  if notna (macd latest) && notna (macd_signal latest) then
    if fgt (macd latest) (macd_signal latest)
       && fle (macd prev) (macd_signal prev) then
      let strength := lit 6 10 in
      let strength :=
        if notna (macd_histogram latest) then
          let strength :=
            if fgt (macd_histogram latest) (of_int 0)
            then fadd strength (lit 1 10) else strength in
          if (1 <? len df) && notna (macd_histogram prev) then
            if fgt (macd_histogram latest) (macd_histogram prev)
            then fadd strength (lit 1 10) else strength
          else strength
        else strength in
      let reason := "MACD上穿信号线" in
      let reason :=
        if notna (macd_histogram latest) && fgt (macd_histogram latest) (of_int 0)
        then reason +:+ "，柱状图转正" else reason in
      [ {| signal_type := "buy";
           signal_strength := py_min strength (of_int 1);
           signal_reason := reason;
           signal_date := date latest;
           indicators_used := ["MACD"] |} ]
    else if flt (macd latest) (macd_signal latest)
            && fge (macd prev) (macd_signal prev) then
      let strength := lit 6 10 in
      let strength :=
        if notna (macd_histogram latest) then
          let strength :=
            if flt (macd_histogram latest) (of_int 0)
            then fadd strength (lit 1 10) else strength in
          if (1 <? len df) && notna (macd_histogram prev) then
            if flt (macd_histogram latest) (macd_histogram prev)
            then fadd strength (lit 1 10) else strength
          else strength
        else strength in
      let reason := "MACD下穿信号线" in
      let reason :=
        if notna (macd_histogram latest) && flt (macd_histogram latest) (of_int 0)
        then reason +:+ "，柱状图转负" else reason in
      [ {| signal_type := "sell";
           signal_strength := py_min strength (of_int 1);
           signal_reason := reason;
           signal_date := date latest;
           indicators_used := ["MACD"] |} ]
    else []
  else [].

(** 5. The hold signal, added when no rule fired. *)
Definition latest_hold (df : list Row) (latest : Row) : TradingSignal :=
  let hold_strength := lit 5 10 in
  let hold_reason_parts : list string := [] in
  (* MA position and separation *)
  let '(hold_strength, hold_reason_parts) :=
    if notna (ma5 latest) && notna (ma30 latest) then
      let separation :=
        fdiv (fabs (fsub (ma5 latest) (ma30 latest))) (ma30 latest) in
      if flt separation (lit 2 100)
      then (lit 6 10, hold_reason_parts ++ ["均线粘合，方向不明"])
      else if fgt (ma5 latest) (ma30 latest)
      then (hold_strength, hold_reason_parts ++ ["价格位于均线上方"])
      else (hold_strength, hold_reason_parts ++ ["价格位于均线下方"])
    else (hold_strength, hold_reason_parts) in
  (* RSI *)
  let '(hold_strength, hold_reason_parts) :=
    if notna (rsi latest) then
      if fle (of_int 30) (rsi latest) && fle (rsi latest) (of_int 70)
      then (lit 55 100, hold_reason_parts ++ ["RSI处于中性区间"])
      else (hold_strength, hold_reason_parts)
    else (hold_strength, hold_reason_parts) in
  (* Trend consistency *)
  let '(hold_strength, hold_reason_parts) :=
    if 20 <=? len df then
      match at_ (close <$> df) (-1), at_ (close <$> df) (-5),
            at_ (close <$> df) (-20) with
      | Some c1, Some c5, Some c20 =>
          let short_trend := if fgt c1 c5 then "up" else "down" in
          let medium_trend := if fgt c1 c20 then "up" else "down" in
          if negb (String.eqb short_trend medium_trend)
          then (lit 6 10, hold_reason_parts ++ ["短期与中期趋势不一致"])
          else (hold_strength, hold_reason_parts)
      | _, _, _ => (hold_strength, hold_reason_parts)
      end
    else (hold_strength, hold_reason_parts) in
  let hold_reason :=
    match hold_reason_parts with
    | [] => "当前无明确买卖信号，建议持有观望"
    | _ => "当前无明确买卖信号，建议持有观望（"
             +:+ join ", " hold_reason_parts +:+ "）"
    end in
  {| signal_type := "hold";
     signal_strength := hold_strength;
     signal_reason := hold_reason;
     signal_date := date latest;
     indicators_used := ["综合指标"] |}.

Definition detect_trading_signals (df : list Row) (window : Z)
    : list TradingSignal :=
  if len df <? 30 then []
  else
    match at_ df (-1), (if 1 <? len df then at_ df (-2) else at_ df (-1)) with
    | Some latest, Some prev =>
        let recent_window :=
          if window + 1 <=? len df
          then slice (Some (- window - 1)) None df else df in
        let signals :=
          latest_golden_cross df window latest prev recent_window
          ++ latest_death_cross df window latest prev recent_window
          ++ latest_rsi df window latest
          ++ latest_macd df latest prev in
        match signals with
        | [] => signals ++ [latest_hold df latest]
        | _ => signals
        end
    | _, _ => []
    end.

(** *** [detect_trading_signals_for_backtest]: every day from index 30

    One definition per rule of the loop body, over the variables
    [current_row], [prev_row] and [recent_window] of the source; [i] is the
    loop index. *)

(** [range(a, b)] *)
Definition py_range (a b : Z) : list Z := seqZ a (b - a).

(** 1. MA cross signals *)
Definition scan_ma_cross (df : list Row) (window : Z) (i : Z)
    (current_row prev_row : Row) (recent_window : list Row)
    : list TradingSignal :=
  if notna (ma5 current_row) && notna (ma30 current_row) then
    if notna (ma5 prev_row) && notna (ma30 prev_row) then
      (* Golden cross *)
      if fgt (ma5 current_row) (ma30 current_row)
         && fle (ma5 prev_row) (ma30 prev_row) then
        let base_strength := lit 6 10 in
        let cross_strength :=
          _calculate_ma_cross_strength (slice None (Some (i + 1)) df) window in
        let final_strength := fdiv (fadd base_strength cross_strength) (of_int 2) in
        let reason_parts := ["5日均线上穿30日均线（金叉）"] in
        let reason_parts :=
          if notna (volume current_row) && (1 <? len recent_window) then
            let avg_volume :=
              Series.mean (slice None (Some (-1)) (volume <$> recent_window)) in
            if fgt (volume current_row) (fmul avg_volume (lit 12 10))
            then reason_parts ++ ["成交量放大"] else reason_parts
          else reason_parts in
        [ {| signal_type := "buy";
             signal_strength := final_strength;
             signal_reason := join "，" reason_parts;
             signal_date := date current_row;
             indicators_used := ["MA5"; "MA30"] |} ]
      (* Death cross *)
      else if flt (ma5 current_row) (ma30 current_row)
              && fge (ma5 prev_row) (ma30 prev_row) then
        let base_strength := lit 6 10 in
        let cross_strength :=
          _calculate_ma_cross_strength (slice None (Some (i + 1)) df) window in
        let final_strength := fdiv (fadd base_strength cross_strength) (of_int 2) in
        let reason_parts := ["5日均线下穿30日均线（死叉）"] in
        let reason_parts :=
          if notna (volume current_row) && (1 <? len recent_window) then
            let avg_volume :=
              Series.mean (slice None (Some (-1)) (volume <$> recent_window)) in
            if fgt (volume current_row) (fmul avg_volume (lit 12 10))
            then reason_parts ++ ["成交量放大"] else reason_parts
          else reason_parts in
        [ {| signal_type := "sell";
             signal_strength := final_strength;
             signal_reason := join "，" reason_parts;
             signal_date := date current_row;
             indicators_used := ["MA5"; "MA30"] |} ]
      else []
    else []
  else [].

(** 2. RSI signals *)
Definition scan_rsi (df : list Row) (window : Z) (i : Z) (current_row : Row)
    : list TradingSignal :=
  if notna (rsi current_row) then
    let '(has_divergence, div_type) :=
      _check_rsi_divergence (slice None (Some (i + 1)) df) window in
    if flt (rsi current_row) (of_int 30) then
      let strength := _calculate_rsi_signal_strength (rsi current_row) "buy" in
      let strength :=
        if has_divergence && String.eqb div_type "bullish"
        then py_min (fadd strength (lit 15 100)) (of_int 1) else strength in
      let reason := "RSI超卖（" +:+ format_1f (rsi current_row) +:+ "）" in
      let reason :=
        if has_divergence then reason +:+ "，出现看涨背离" else reason in
      [ {| signal_type := "buy";
           signal_strength := strength;
           signal_reason := reason;
           signal_date := date current_row;
           indicators_used := ["RSI"] |} ]
    else if fgt (rsi current_row) (of_int 70) then
      let strength := _calculate_rsi_signal_strength (rsi current_row) "sell" in
      let strength :=
        if has_divergence && String.eqb div_type "bearish"
        then py_min (fadd strength (lit 15 100)) (of_int 1) else strength in
      let reason := "RSI超买（" +:+ format_1f (rsi current_row) +:+ "）" in
      let reason :=
        if has_divergence then reason +:+ "，出现看跌背离" else reason in
      [ {| signal_type := "sell";
           signal_strength := strength;
           signal_reason := reason;
           signal_date := date current_row;
           indicators_used := ["RSI"] |} ]
    else []
  else [].

(** 3. MACD signals *)
Definition scan_macd (current_row prev_row : Row) : list TradingSignal :=
  if notna (macd current_row) && notna (macd_signal current_row) then
    if notna (macd prev_row) && notna (macd_signal prev_row) then
      (* MACD golden cross *)
      if fgt (macd current_row) (macd_signal current_row)
         && fle (macd prev_row) (macd_signal prev_row) then
        let strength := lit 6 10 in
        let strength :=
          if notna (macd_histogram current_row) then
            let strength :=
              if fgt (macd_histogram current_row) (of_int 0)
              then fadd strength (lit 1 10) else strength in
            if notna (macd_histogram prev_row) then
              if fgt (macd_histogram current_row) (macd_histogram prev_row)
              then fadd strength (lit 1 10) else strength
            else strength
          else strength in
        let reason := "MACD上穿信号线" in
        let reason :=
          if notna (macd_histogram current_row)
             && fgt (macd_histogram current_row) (of_int 0)
          then reason +:+ "，柱状图转正" else reason in
        [ {| signal_type := "buy";
             signal_strength := py_min strength (of_int 1);
             signal_reason := reason;
             signal_date := date current_row;
             indicators_used := ["MACD"] |} ]
      (* MACD death cross *)
      else if flt (macd current_row) (macd_signal current_row)
              && fge (macd prev_row) (macd_signal prev_row) then
        let strength := lit 6 10 in
        let strength :=
          if notna (macd_histogram current_row) then
            let strength :=
              if flt (macd_histogram current_row) (of_int 0)
              then fadd strength (lit 1 10) else strength in
            if notna (macd_histogram prev_row) then
              if flt (macd_histogram current_row) (macd_histogram prev_row)
              then fadd strength (lit 1 10) else strength
            else strength
          else strength in
        let reason := "MACD下穿信号线" in
        let reason :=
          if notna (macd_histogram current_row)
             && flt (macd_histogram current_row) (of_int 0)
          then reason +:+ "，柱状图转负" else reason in
        [ {| signal_type := "sell";
             signal_strength := py_min strength (of_int 1);
             signal_reason := reason;
             signal_date := date current_row;
             indicators_used := ["MACD"] |} ]
      else []
    else []
  else [].

(** The body of the loop for index [i]: the day's signals. *)
Definition scan_day (df : list Row) (window : Z) (i : Z) : list TradingSignal :=
  match at_ df i, (if 0 <? i then at_ df (i - 1) else at_ df i) with
  | Some current_row, Some prev_row =>
      let recent_window :=
        slice (Some (Z.max 0 (i - window))) (Some (i + 1)) df in
      let day_signals : list TradingSignal := [] in
      let day_signals :=
        day_signals
        ++ scan_ma_cross df window i current_row prev_row recent_window in
      let day_signals := day_signals ++ scan_rsi df window i current_row in
      let day_signals := day_signals ++ scan_macd current_row prev_row in
      day_signals
  | _, _ => []
  end.

Definition detect_trading_signals_for_backtest (df : list Row) (window : Z)
    : list TradingSignal :=
  if len df <? 30 then []
  else
    foldl (λ all_signals i, all_signals ++ scan_day df window i)
          [] (py_range 30 (len df)).

End SignalDetector.

(** ** Backtest data model ([backend/app/models.py]) *)

Module Trade.
Record t := mk {
  trade_id : Z;
  buy_date : Z;
  buy_price : pyfloat;
  sell_date : Z;
  sell_price : pyfloat;
  shares : Z;
  profit : pyfloat;
  return_rate : pyfloat;
  signal_type : string;
  hold_days : Z
}.
End Trade.

Module Metrics.
Record t := mk {
  initial_capital : pyfloat;
  final_capital : pyfloat;
  total_return : pyfloat;
  total_return_rate : pyfloat;
  annualized_return_rate : option pyfloat;
  total_trades : Z;
  successful_trades : Z;
  failed_trades : Z;
  win_rate : pyfloat;
  average_profit : pyfloat;
  max_profit : pyfloat;
  max_loss : pyfloat;
  max_drawdown : pyfloat;
  sharpe_ratio : option pyfloat;
  profit_factor : option pyfloat
}.
End Metrics.

Module Request.
Record t := mk {
  stock_code : string;
  start_date : Z;
  end_date : Z;
  initial_capital : pyfloat;
  strategy_type : string;
  shares_per_trade : Z;
  hold_days : option Z;
  min_signal_strength : pyfloat;
  signal_types : option (list string)
}.
End Request.

(** One entry of the equity curve: the dict [{'date': ..., 'capital': ...}]. *)
Module EquityPoint.
Record t := mk { date : Z; capital : pyfloat }.
End EquityPoint.

(** [BacktestResult] without [stock_name] (always [None]), the
    [backtest_period] text and the wall-clock [backtest_timestamp]. *)
Module Result.
Record t := mk {
  stock_code : string;
  strategy_type : string;
  metrics : Metrics.t;
  trades : list Trade.t;
  equity_curve : option (list EquityPoint.t)
}.
End Result.

(** The open position of a run: the dict held in the variable [position]. *)
Module Position.
Record t := mk {
  buy_date : Z;
  buy_price : pyfloat;
  shares : Z;
  signal_type : string
}.
End Position.

(** The value one entry of [trades_by_date] holds:
    the dict [{'buy': [...], 'sell': [...]}]. *)
Module DayTrades.
Record t := mk { buy : list Trade.t; sell : list Trade.t }.
End DayTrades.

(** ** Strategy backtester: equity curve and metrics *)

Section Backtester.
Context `{NumLib}.
Import Iloc.

(** The first loop of [_calculate_equity_curve]: group trades by date. *)
Definition group_trade (trades_by_date : gmap Z DayTrades.t) (trade : Trade.t)
    : gmap Z DayTrades.t :=
  let buy_date := Trade.buy_date trade in
  let sell_date := Trade.sell_date trade in
  let trades_by_date :=
    match trades_by_date !! buy_date with
    | None => <[buy_date := DayTrades.mk [] []]> trades_by_date
    | Some _ => trades_by_date
    end in
  let trades_by_date :=
    match trades_by_date !! sell_date with
    | None => <[sell_date := DayTrades.mk [] []]> trades_by_date
    | Some _ => trades_by_date
    end in
  let trades_by_date :=
    alter (λ d, DayTrades.mk (DayTrades.buy d ++ [trade]) (DayTrades.sell d))
          buy_date trades_by_date in
  alter (λ d, DayTrades.mk (DayTrades.buy d) (DayTrades.sell d ++ [trade]))
        sell_date trades_by_date.

(** The body of the second loop: one calendar day. *)
Definition equity_day (trades_by_date : gmap Z DayTrades.t)
    (acc : pyfloat * list EquityPoint.t) (date : Z)
    : pyfloat * list EquityPoint.t :=
  let '(current_capital, equity_curve) := acc in
  let current_capital :=
    match trades_by_date !! date with
    | Some d =>
        (* Apply buy trades *)
        let current_capital :=
          foldl (λ c trade,
                 fsub c (fmul (Trade.buy_price trade)
                              (of_int (Trade.shares trade))))
                current_capital (DayTrades.buy d) in
        (* Apply sell trades *)
        foldl (λ c trade,
               fadd c (fmul (Trade.sell_price trade)
                            (of_int (Trade.shares trade))))
              current_capital (DayTrades.sell d)
    | None => current_capital
    end in
  (current_capital, equity_curve ++ [EquityPoint.mk date current_capital]).

Definition _calculate_equity_curve (trades : list Trade.t)
    (initial_capital : pyfloat) (start_date end_date : Z)
    : list EquityPoint.t :=
  let date_range := seqZ start_date (end_date - start_date + 1) in
  let trades_by_date := foldl group_trade ∅ trades in
  snd (foldl (equity_day trades_by_date) (initial_capital, []) date_range).

Definition _calculate_max_drawdown (equity_curve : list EquityPoint.t) : pyfloat :=
  if len equity_curve <? 2 then of_int 0
  else
    let capitals := EquityPoint.capital <$> equity_curve in
    match capitals with
    | [] => of_int 0
    | c0 :: _ =>
        let '(_, max_dd) :=
          foldl (λ '(peak, max_dd) capital,
                 let peak := if fgt capital peak then capital else peak in
                 let dd := if fgt peak (of_int 0)
                           then fdiv (fsub peak capital) peak else of_int 0 in
                 let max_dd := if fgt dd max_dd then dd else max_dd in
                 (peak, max_dd))
                (c0, of_int 0) capitals in
        fmul max_dd (of_int 100)
    end.

(** [numpy.mean] and [numpy.std] (population standard deviation). *)
Definition np_mean (xs : list pyfloat) : pyfloat :=
  fdiv (Series.np_sum xs) (of_len xs).
Definition np_std (xs : list pyfloat) : pyfloat :=
  let m := np_mean xs in
  np_sqrt (np_mean ((λ x, fmul (fsub x m) (fsub x m)) <$> xs)).

Definition _calculate_sharpe_ratio (trades : list Trade.t)
    (risk_free_rate : pyfloat) : option pyfloat :=
  if len trades <? 2 then None
  else
    let returns := Trade.return_rate <$> trades in
    if len returns <? 2 then None
    else
      let mean_return := np_mean returns in
      let std_return := np_std returns in
      if feqb std_return (of_int 0) then None
      else
        let avg_hold_days := np_mean ((of_int ∘ Trade.hold_days) <$> trades) in
        let trading_days_per_year := of_int 252 in
        let annualized_return :=
          fmul mean_return (fdiv trading_days_per_year avg_hold_days) in
        let annualized_std :=
          fmul std_return (np_sqrt (fdiv trading_days_per_year avg_hold_days)) in
        if feqb annualized_std (of_int 0) then None
        else Some (fdiv (fsub annualized_return risk_free_rate) annualized_std).

(** Python's [max(xs)] and [min(xs)] on a list of floats. *)
Definition py_max_list (xs : list pyfloat) : pyfloat :=
  match xs with [] => NaN | x :: tl => foldl py_max x tl end.
Definition py_min_list (xs : list pyfloat) : pyfloat :=
  match xs with [] => NaN | x :: tl => foldl py_min x tl end.

(** The metrics record every zero-trade path returns. *)
Definition empty_metrics (initial_capital : pyfloat) : Metrics.t :=
  {| Metrics.initial_capital := initial_capital;
     Metrics.final_capital := initial_capital;
     Metrics.total_return := of_int 0;
     Metrics.total_return_rate := of_int 0;
     Metrics.annualized_return_rate := None;
     Metrics.total_trades := 0;
     Metrics.successful_trades := 0;
     Metrics.failed_trades := 0;
     Metrics.win_rate := of_int 0;
     Metrics.average_profit := of_int 0;
     Metrics.max_profit := of_int 0;
     Metrics.max_loss := of_int 0;
     Metrics.max_drawdown := of_int 0;
     Metrics.sharpe_ratio := None;
     Metrics.profit_factor := None |}.

Definition _calculate_metrics (trades : list Trade.t)
    (initial_capital : pyfloat) (equity_curve : list EquityPoint.t)
    (start_date end_date : Z) : Metrics.t :=
  match trades with
  | [] =>
      {| Metrics.initial_capital := initial_capital;
         Metrics.final_capital := initial_capital;
         Metrics.total_return := of_int 0;
         Metrics.total_return_rate := of_int 0;
         Metrics.annualized_return_rate := None;
         Metrics.total_trades := 0;
         Metrics.successful_trades := 0;
         Metrics.failed_trades := 0;
         Metrics.win_rate := of_int 0;
         Metrics.average_profit := of_int 0;
         Metrics.max_profit := of_int 0;
         Metrics.max_loss := of_int 0;
         Metrics.max_drawdown := of_int 0;
         Metrics.sharpe_ratio := None;
         Metrics.profit_factor := None |}
  | _ =>
      (* Calculate final capital *)
      let total_profit := py_sum (Trade.profit <$> trades) in
      let final_capital := fadd initial_capital total_profit in
      (* Basic metrics *)
      let total_return := fsub final_capital initial_capital in
      let total_return_rate :=
        if fgt initial_capital (of_int 0)
        then fmul (fdiv total_return initial_capital) (of_int 100)
        else of_int 0 in
      (* Annualized return *)
      let days := end_date - start_date in
      let years := if 0 <? days then fdiv (of_int days) (lit 36525 100)
                   else of_int 1 in
      let annualized_return_rate :=
        if fgt years (of_int 0) && fgt initial_capital (of_int 0)
        then Some (fmul (fsub (py_pow (fdiv final_capital initial_capital)
                                      (fdiv (of_int 1) years))
                              (of_int 1))
                        (of_int 100))
        else None in
      (* Trade statistics *)
      let total_trades := len trades in
      let successful_trades :=
        len (filter (λ trade, fgt (Trade.profit trade) (of_int 0) = true) trades) in
      let failed_trades := total_trades - successful_trades in
      let win_rate :=
        if 0 <? total_trades
        then fdiv (of_int successful_trades) (of_int total_trades)
        else of_int 0 in
      (* Profit statistics *)
      let profits := Trade.profit <$> trades in
      let average_profit := np_mean profits in
      let max_profit := py_max_list profits in
      let max_loss := py_min_list profits in
      (* Drawdown *)
      let max_drawdown := _calculate_max_drawdown equity_curve in
      (* Sharpe ratio *)
      let sharpe_ratio := _calculate_sharpe_ratio trades (lit 3 100) in
      (* Profit factor *)
      let total_profit_amount :=
        py_sum (filter (λ p, fgt p (of_int 0) = true) profits) in
      let total_loss_amount :=
        fabs (py_sum (filter (λ p, flt p (of_int 0) = true) profits)) in
      let profit_factor :=
        if fgt total_loss_amount (of_int 0)
        then Some (fdiv total_profit_amount total_loss_amount) else None in
      {| Metrics.initial_capital := initial_capital;
         Metrics.final_capital := final_capital;
         Metrics.total_return := total_return;
         Metrics.total_return_rate := total_return_rate;
         Metrics.annualized_return_rate := annualized_return_rate;
         Metrics.total_trades := total_trades;
         Metrics.successful_trades := successful_trades;
         Metrics.failed_trades := failed_trades;
         Metrics.win_rate := win_rate;
         Metrics.average_profit := average_profit;
         Metrics.max_profit := max_profit;
         Metrics.max_loss := max_loss;
         Metrics.max_drawdown := max_drawdown;
         Metrics.sharpe_ratio := sharpe_ratio;
         Metrics.profit_factor := profit_factor |}
  end.

(** *** The simulation state of a run: the local variables [capital],
    [position], [trades] and [trade_id] of the strategy functions. *)

Record Sim := mkSim {
  capital : pyfloat;
  position : option Position.t;
  trades : list Trade.t;
  trade_id : Z
}.

(** [(sell_price - buy_price) / buy_price if buy_price > 0 else 0.0] *)
Definition trade_return_rate (sell_price buy_price : pyfloat) : pyfloat :=
  if fgt buy_price (of_int 0)
  then fdiv (fsub sell_price buy_price) buy_price else of_int 0.

(** Closing the open position [pos] at [sell_price] on [sell_date]: the
    block every strategy repeats for a sell, a hold-days exit and the exit
    at the end of the data; [label] is the trade's [signal_type].  The
    caller decides what happens to [position] and [trade_id]. *)
Definition close_trade (st : Sim) (pos : Position.t)
    (sell_date : Z) (sell_price : pyfloat) (label : string)
    : pyfloat * Trade.t :=
  let profit :=
    fmul (fsub sell_price (Position.buy_price pos))
         (of_int (Position.shares pos)) in
  let capital :=
    fadd (capital st) (fmul sell_price (of_int (Position.shares pos))) in
  let hold_days := sell_date - Position.buy_date pos in
  let return_rate := trade_return_rate sell_price (Position.buy_price pos) in
  (capital,
   {| Trade.trade_id := trade_id st;
      Trade.buy_date := Position.buy_date pos;
      Trade.buy_price := Position.buy_price pos;
      Trade.sell_date := sell_date;
      Trade.sell_price := sell_price;
      Trade.shares := Position.shares pos;
      Trade.profit := profit;
      Trade.return_rate := fmul return_rate (of_int 100);
      Trade.signal_type := label;
      Trade.hold_days := hold_days |}).

(** *** [backtest_signal_based_strategy] *)

(** One iteration of [for signal in day_signals]. *)
Definition process_signal (request : Request.t)
    (current_date : Z) (current_price : pyfloat)
    (st : Sim) (signal : TradingSignal) : Sim :=
  (* Buy signal *)
  if String.eqb (signal_type signal) "buy"
     && bool_decide (position st = None) then
    (* Calculate shares (must be multiple of 100) *)
    let shares := (Request.shares_per_trade request / 100) * 100 in
    let cost := fmul current_price (of_int shares) in
    if fge (capital st) cost then
      {| capital := fsub (capital st) cost;
         position := Some {| Position.buy_date := current_date;
                             Position.buy_price := current_price;
                             Position.shares := shares;
                             Position.signal_type := signal_reason signal |};
         trades := trades st;
         trade_id := trade_id st |}
    else st
  (* Sell signal *)
  else if String.eqb (signal_type signal) "sell" then
    match position st with
    | Some pos =>
        let '(capital', trade) :=
          close_trade st pos current_date current_price
                      (Position.signal_type pos) in
        {| capital := capital';
           position := None;
           trades := trades st ++ [trade];
           trade_id := trade_id st + 1 |}
    | None => st
    end
  else st.

(** The hold-days check that ends a day. *)
Definition check_hold_days (request : Request.t)
    (current_date : Z) (current_price : pyfloat)
    (label : Position.t → string) (st : Sim) : Sim :=
  match position st, Request.hold_days request with
  | Some pos, Some hd =>
      let days_held := current_date - Position.buy_date pos in
      if hd <=? days_held then
        let '(capital', trade) :=
          close_trade st pos current_date current_price (label pos) in
        {| capital := capital';
           position := None;
           trades := trades st ++ [trade];
           trade_id := trade_id st + 1 |}
      else st
  | _, _ => st
  end.

(** The body of [for i in range(len(df))]. *)
Definition signal_based_day (request : Request.t)
    (eligible_signals : list TradingSignal) (st : Sim) (current_row : Row)
    : Sim :=
  let current_date := date current_row in
  let current_price := close current_row in
  let min_strength := Request.min_signal_strength request in
  let day_signals :=
    filter (λ s, signal_date s = current_date
                 ∧ flt (signal_strength s) min_strength = false)
           eligible_signals in
  match day_signals with
  | [] => st
  | _ =>
      let st :=
        foldl (process_signal request current_date current_price)
              st day_signals in
      check_hold_days request current_date current_price
        (λ pos, Position.signal_type pos +:+ " (hold_days)") st
  end.

(** Close any remaining position at the end.  As in the source, the
    variable [position] is not cleared. *)
Definition close_at_end (df : list Row) (label : Position.t → string)
    (st : Sim) : Sim :=
  match position st, at_ df (-1) with
  | Some pos, Some final_row =>
      let '(capital', trade) :=
        close_trade st pos (date final_row) (close final_row) (label pos) in
      {| capital := capital';
         position := position st;
         trades := trades st ++ [trade];
         trade_id := trade_id st |}
  | _, _ => st
  end.

Definition eligible (request : Request.t) (signal_data : list TradingSignal)
    : list TradingSignal :=
  let signal_types_filter :=
    match Request.signal_types request with
    | None | Some [] => ["buy"; "sell"]
    | Some l => l
    end in
  let min_strength := Request.min_signal_strength request in
  filter (λ s, signal_type s ∈ signal_types_filter
               ∧ fge (signal_strength s) min_strength = true)
         signal_data.

(** The state when the loop over the days ends. *)
Definition signal_based_loop (request : Request.t) (df : list Row)
    (signal_data : list TradingSignal) : Sim :=
  let st := {| capital := Request.initial_capital request;
               position := None;
               trades := [];
               trade_id := 1 |} in
  let eligible_signals := eligible request signal_data in
  foldl (signal_based_day request eligible_signals) st df.

(** The simulation of the signal-based strategy: the loop over the days and
    the closing of a remaining position. *)
Definition simulate_signal_based (request : Request.t) (df : list Row)
    (signal_data : list TradingSignal) : Sim :=
  let st := signal_based_loop request df signal_data in
  close_at_end df (λ pos, Position.signal_type pos +:+ " (end)") st.

Definition empty_result (request : Request.t) : Result.t :=
  {| Result.stock_code := Request.stock_code request;
     Result.strategy_type := Request.strategy_type request;
     Result.metrics := empty_metrics (Request.initial_capital request);
     Result.trades := [];
     Result.equity_curve := None |}.

Definition finish (request : Request.t) (st : Sim) : Result.t :=
  let equity_curve :=
    _calculate_equity_curve (trades st) (Request.initial_capital request)
      (Request.start_date request) (Request.end_date request) in
  let metrics :=
    _calculate_metrics (trades st) (Request.initial_capital request)
      equity_curve (Request.start_date request) (Request.end_date request) in
  {| Result.stock_code := Request.stock_code request;
     Result.strategy_type := Request.strategy_type request;
     Result.metrics := metrics;
     Result.trades := trades st;
     Result.equity_curve := Some equity_curve |}.

(** The strategy on the indicator-augmented rows. *)
Definition signal_based_on_rows (request : Request.t) (df : list Row)
    : Result.t :=
  if len df <? 30 then empty_result request
  else
    let signal_data := detect_trading_signals_for_backtest df 5 in
    match signal_data with
    | [] => empty_result request
    | _ => finish request (simulate_signal_based request df signal_data)
    end.

(** *** [backtest_ma_cross_strategy]

    Its position dict has no ['signal_type'] entry; the field is the empty
    string here. *)

(** The body of [for i in range(1, len(df))]. *)
Definition ma_cross_day (request : Request.t) (st : Sim)
    (rows : Row * Row) : Sim :=
  let '(prev_row, current_row) := rows in
  let current_date := date current_row in
  let current_price := close current_row in
  if isna (ma5 current_row) || isna (ma30 current_row) then st
  else if isna (ma5 prev_row) || isna (ma30 prev_row) then st
  else
    let st :=
      (* Golden cross *)
      if fgt (ma5 current_row) (ma30 current_row)
         && fle (ma5 prev_row) (ma30 prev_row)
         && bool_decide (position st = None) then
        let shares := (Request.shares_per_trade request / 100) * 100 in
        let cost := fmul current_price (of_int shares) in
        if fge (capital st) cost then
          {| capital := fsub (capital st) cost;
             position := Some {| Position.buy_date := current_date;
                                 Position.buy_price := current_price;
                                 Position.shares := shares;
                                 Position.signal_type := "" |};
             trades := trades st;
             trade_id := trade_id st |}
        else st
      (* Death cross *)
      else if flt (ma5 current_row) (ma30 current_row)
              && fge (ma5 prev_row) (ma30 prev_row) then
        match position st with
        | Some pos =>
            let '(capital', trade) :=
              close_trade st pos current_date current_price "MA死亡交叉" in
            {| capital := capital';
               position := None;
               trades := trades st ++ [trade];
               trade_id := trade_id st + 1 |}
        | None => st
        end
      else st in
    check_hold_days request current_date current_price
      (λ _, "MA金叉(持有到期)") st.

Definition ma_cross_loop (request : Request.t) (df : list Row) : Sim :=
  let st := {| capital := Request.initial_capital request;
               position := None;
               trades := [];
               trade_id := 1 |} in
  foldl (ma_cross_day request) st (zip df (drop 1 df)).

Definition simulate_ma_cross (request : Request.t) (df : list Row) : Sim :=
  let st := ma_cross_loop request df in
  close_at_end df (λ _, "MA金叉(回测结束)") st.

Definition ma_cross_on_rows (request : Request.t) (df : list Row) : Result.t :=
  if len df <? 30 then empty_result request
  else finish request (simulate_ma_cross request df).

(** *** The entry points, from the fetched frame *)

Inductive exn := ValueError (msg : string) | KeyError.
Inductive outcome (A : Type) := Ok (a : A) | Raise (e : exn).
#[global] Arguments Ok {A} a.
#[global] Arguments Raise {A} e.

(** [fetched] is what [get_stock_data] returned; the frame is the only
    object of the store while its indicators are computed. *)
Definition indicators_of (fetched : DataFrame) : option DataFrame :=
  match calculate_technical_indicators 1%positive {[ 1%positive := fetched ]} with
  | Some (l, h) => h !! l
  | None => None
  end.

Definition with_indicators (request : Request.t) (fetched : DataFrame)
    (strategy : Request.t → list Row → Result.t) : outcome Result.t :=
  if bool_decide (df_date fetched = []) then
    Raise (ValueError ("无法获取股票 " +:+ Request.stock_code request +:+ " 的数据"))
  else
    match indicators_of fetched with
    | Some df => Ok (strategy request (frame_rows df))
    | None => Raise KeyError
    end.

Definition backtest_signal_based_strategy (request : Request.t)
    (fetched : DataFrame) : outcome Result.t :=
  with_indicators request fetched signal_based_on_rows.

Definition backtest_ma_cross_strategy (request : Request.t)
    (fetched : DataFrame) : outcome Result.t :=
  with_indicators request fetched ma_cross_on_rows.

End Backtester.

(** ** [backtest_rsi_strategy] and [backtest_macd_strategy]

    Their position dict has no ['signal_type'] entry and carries the
    indicator value of the day of the purchase (['rsi_value'],
    ['macd_value']) instead: the state of these loops is the simulation state
    and that value, which is read only while a position is open. *)

Section IndicatorStrategies.
Context `{NumLib}.
Import Iloc.

(** The body of [for i in range(len(df))] of the RSI strategy. *)
Definition rsi_day (request : Request.t) (acc : Sim * pyfloat)
    (current_row : Row) : Sim * pyfloat :=
  let '(st, rsi_value) := acc in
  let current_date := date current_row in
  let current_price := close current_row in
  let current_rsi := rsi current_row in
  let oversold_threshold := of_int 30 in
  let overbought_threshold := of_int 70 in
  (* Skip if RSI is not available *)
  if isna current_rsi then acc
  else
    let '(st, rsi_value) :=
      (* Buy signal: RSI < oversold_threshold *)
      if flt current_rsi oversold_threshold
         && bool_decide (position st = None) then
        let shares := (Request.shares_per_trade request / 100) * 100 in
        let cost := fmul current_price (of_int shares) in
        if fge (capital st) cost then
          ({| capital := fsub (capital st) cost;
              position := Some {| Position.buy_date := current_date;
                                  Position.buy_price := current_price;
                                  Position.shares := shares;
                                  Position.signal_type := "" |};
              trades := trades st;
              trade_id := trade_id st |}, current_rsi)
        else (st, rsi_value)
      (* Sell signal: RSI > overbought_threshold *)
      else if fgt current_rsi overbought_threshold then
        match position st with
        | Some pos =>
            let '(capital', trade) :=
              close_trade st pos current_date current_price
                ("RSI超买(" +:+ format_1f current_rsi +:+ ")") in
            ({| capital := capital';
                position := None;
                trades := trades st ++ [trade];
                trade_id := trade_id st + 1 |}, rsi_value)
        | None => (st, rsi_value)
        end
      else (st, rsi_value) in
    (check_hold_days request current_date current_price
       (λ _, "RSI超卖(持有到期, RSI: " +:+ format_1f rsi_value +:+ ")") st,
     rsi_value).

Definition rsi_loop (request : Request.t) (df : list Row) : Sim * pyfloat :=
  let st := {| capital := Request.initial_capital request;
               position := None;
               trades := [];
               trade_id := 1 |} in
  foldl (rsi_day request) (st, NaN) df.

(** The text [rsi_info], [macd_info] of the trade that closes a position at
    the end of the data. *)
Definition final_info (df : list Row) (column : Row → pyfloat)
    (prefix : string) (format : pyfloat → string) : string :=
  match at_ df (-1) with
  | Some final_row =>
      if notna (column final_row) then prefix +:+ format (column final_row)
      else ""
  | None => ""
  end.

Definition simulate_rsi (request : Request.t) (df : list Row) : Sim :=
  let st := fst (rsi_loop request df) in
  let rsi_info := final_info df rsi ", RSI: " format_1f in
  close_at_end df (λ _, "RSI超卖(回测结束" +:+ rsi_info +:+ ")") st.

Definition rsi_on_rows (request : Request.t) (df : list Row) : Result.t :=
  if len df <? 30 then empty_result request
  else finish request (simulate_rsi request df).

(** The body of [for i in range(1, len(df))] of the MACD strategy. *)
Definition macd_day (request : Request.t) (acc : Sim * pyfloat)
    (rows : Row * Row) : Sim * pyfloat :=
  let '(st, macd_value) := acc in
  let '(prev_row, current_row) := rows in
  let current_date := date current_row in
  let current_price := close current_row in
  let current_macd := macd current_row in
  let current_signal := macd_signal current_row in
  let prev_macd := macd prev_row in
  let prev_signal := macd_signal prev_row in
  (* Skip if MACD values are not available *)
  if isna current_macd || isna current_signal then acc
  else if isna prev_macd || isna prev_signal then acc
  else
    let '(st, macd_value) :=
      (* Golden cross: MACD crosses above signal line *)
      if fgt current_macd current_signal
         && fle prev_macd prev_signal
         && bool_decide (position st = None) then
        let shares := (Request.shares_per_trade request / 100) * 100 in
        let cost := fmul current_price (of_int shares) in
        if fge (capital st) cost then
          ({| capital := fsub (capital st) cost;
              position := Some {| Position.buy_date := current_date;
                                  Position.buy_price := current_price;
                                  Position.shares := shares;
                                  Position.signal_type := "" |};
              trades := trades st;
              trade_id := trade_id st |}, current_macd)
        else (st, macd_value)
      (* Death cross: MACD crosses below signal line *)
      else if flt current_macd current_signal
              && fge prev_macd prev_signal then
        match position st with
        | Some pos =>
            let '(capital', trade) :=
              close_trade st pos current_date current_price
                ("MACD死叉(MACD: " +:+ format_4f current_macd +:+ ")") in
            ({| capital := capital';
                position := None;
                trades := trades st ++ [trade];
                trade_id := trade_id st + 1 |}, macd_value)
        | None => (st, macd_value)
        end
      else (st, macd_value) in
    (check_hold_days request current_date current_price
       (λ _, "MACD金叉(持有到期, MACD: " +:+ format_4f macd_value +:+ ")") st,
     macd_value).

Definition macd_loop (request : Request.t) (df : list Row) : Sim * pyfloat :=
  let st := {| capital := Request.initial_capital request;
               position := None;
               trades := [];
               trade_id := 1 |} in
  foldl (macd_day request) (st, NaN) (zip df (drop 1 df)).

Definition simulate_macd (request : Request.t) (df : list Row) : Sim :=
  let st := fst (macd_loop request df) in
  let macd_info := final_info df macd ", MACD: " format_4f in
  close_at_end df (λ _, "MACD金叉(回测结束" +:+ macd_info +:+ ")") st.

Definition macd_on_rows (request : Request.t) (df : list Row) : Result.t :=
  if len df <? 30 then empty_result request
  else finish request (simulate_macd request df).

Definition backtest_rsi_strategy (request : Request.t)
    (fetched : DataFrame) : outcome Result.t :=
  with_indicators request fetched rsi_on_rows.

Definition backtest_macd_strategy (request : Request.t)
    (fetched : DataFrame) : outcome Result.t :=
  with_indicators request fetched macd_on_rows.

End IndicatorStrategies.

(** ** The capital of a run, in any arithmetic

    What the strategy loops do to [capital] for one trade, and what
    [_calculate_metrics] derives from the trade list, written over the
    operations of an arbitrary float arithmetic: the embedding's and IEEE
    binary64 are two instances.  A trade is read as its buy price, its sell
    price and its number of shares. *)

Section CapitalArithmetic.
Context {F : Type} (add sub mul : F → F → F) (of_int : Z → F).

(** [capital -= current_price * shares] at the purchase, then
    [capital += sell_price * position['shares']] at the sale. *)
Definition settle_trade (capital : F) (t : F * F * Z) : F :=
  let '(buy_price, sell_price, shares) := t in
  add (sub capital (mul buy_price (of_int shares)))
      (mul sell_price (of_int shares)).

Definition cash_after_trades (initial_capital : F) (trades : list (F * F * Z))
    : F :=
  foldl settle_trade initial_capital trades.

(** [profit = (sell_price - position['buy_price']) * position['shares']] *)
Definition profit_of (t : F * F * Z) : F :=
  let '(buy_price, sell_price, shares) := t in
  mul (sub sell_price buy_price) (of_int shares).

(** [total_profit = sum(t.profit for t in trades)] and
    [final_capital = initial_capital + total_profit]. *)
Definition capital_from_profits (initial_capital : F)
    (trades : list (F * F * Z)) : F :=
  add initial_capital (foldl add (of_int 0) (profit_of <$> trades)).

End CapitalArithmetic.

Definition trade_key (t : Trade.t) : pyfloat * pyfloat * Z :=
  (Trade.buy_price t, Trade.sell_price t, Trade.shares t).

(** *** IEEE binary64

    Python's [float(n)] of an [int] (it raises [OverflowError] where the
    value here is infinite), and the double nearest to a rational whose
    numerator and denominator are below 2^53: the quotient of the two, which
    IEEE division rounds correctly. *)
Definition b64_of_Z (z : Z) : float :=
  SF2Prim (SpecFloat.binary_normalize prec emax z 0 false).

Definition b64_of_pyfloat (x : pyfloat) : float :=
  match x with
  | Fin q => PrimFloat.div (b64_of_Z (Qnum q)) (b64_of_Z (Zpos (Qden q)))
  | PInf => infinity
  | NInf => neg_infinity
  | NaN => nan
  end.

Definition b64_trade (t : pyfloat * pyfloat * Z) : float * float * Z :=
  let '(buy_price, sell_price, shares) := t in
  (b64_of_pyfloat buy_price, b64_of_pyfloat sell_price, shares).

(** * Reference definitions

    What the specification says, in its own words, to be compared with the
    embedding above; the data of the examples; the invariants of the
    proofs. *)

(** An instance of the abstract primitives for evaluating the embedding on
    concrete data; the examples below do not depend on the values it
    returns. *)
Definition plain_numlib : NumLib :=
  {| np_sqrt := λ x, x;
     py_pow := λ x _, x;
     format_1f := λ _, "";
     format_4f := λ _, "" |}.

Section ReferenceIndicators.
Context `{NumLib}.
Import Series.

(** The content of the frame the indicator engine returns, as a function of
    the content [d] of its argument and of the closing prices [c]. *)
Definition indicator_frame (d : DataFrame) (c : list pyfloat) : DataFrame :=
  let m := zip_with fsub (ewm_mean 12 c) (ewm_mean 26 c) in
  let s := ewm_mean 9 m in
  let b := rolling_mean 20 c in
  let std := rolling_std 20 c in
  let rs := zip_with fdiv (gain_of_delta (diff c)) (loss_of_delta (diff c)) in
  set_col "bollinger_lower" (zip_with fsub b ((λ x, fmul x (of_int 2)) <$> std))
  (set_col "bollinger_upper" (zip_with fadd b ((λ x, fmul x (of_int 2)) <$> std))
  (set_col "bollinger_middle" b
  (set_col "macd_histogram" (zip_with fsub m s)
  (set_col "macd_signal" s
  (set_col "macd" m
  (set_col "rsi" (rsi_of_rs rs)
  (set_col "ma60" (rolling_mean 60 c)
  (set_col "ma30" (rolling_mean 30 c)
  (set_col "ma20" (rolling_mean 20 c)
  (set_col "ma10" (rolling_mean 10 c)
  (set_col "ma5" (rolling_mean 5 c) d))))))))))).

End ReferenceIndicators.

(** A frame as the market-data source delivers it: dates [first_day],
    [first_day + 1], ... with the given closing prices and volumes. *)
Definition fetched_frame (first_day : Z) (closes volumes : list Z) : DataFrame :=
  {| df_date := seqZ first_day (Z.of_nat (length closes));
     df_cols := <["close" := of_int <$> closes]>
                (<["volume" := of_int <$> volumes]> ∅) |}.

(** The equity curve in the words of the specification: a running capital
    that each day first pays for the trades bought that day and then collects
    the proceeds of the trades sold that day. *)
Section ReferenceEquity.

Definition buys_on (trades : list Trade.t) (d : Z) : list Trade.t :=
  filter (λ t, Trade.buy_date t = d) trades.

Definition sells_on (trades : list Trade.t) (d : Z) : list Trade.t :=
  filter (λ t, Trade.sell_date t = d) trades.

Definition pay_buy (c : pyfloat) (t : Trade.t) : pyfloat :=
  fsub c (fmul (Trade.buy_price t) (of_int (Trade.shares t))).

Definition collect_sell (c : pyfloat) (t : Trade.t) : pyfloat :=
  fadd c (fmul (Trade.sell_price t) (of_int (Trade.shares t))).

Definition capital_after_day (trades : list Trade.t) (c : pyfloat) (d : Z)
    : pyfloat :=
  foldl collect_sell (foldl pay_buy c (buys_on trades d)) (sells_on trades d).

(** The running capital before day number [n] of the range, day 0 being
    [start_date]. *)
Fixpoint capital_before (trades : list Trade.t) (initial_capital : pyfloat)
    (start_date : Z) (n : nat) : pyfloat :=
  match n with
  | O => initial_capital
  | S k =>
      capital_after_day trades
        (capital_before trades initial_capital start_date k)
        (start_date + Z.of_nat k)
  end.

(** The running capital at the end of day number [n]. *)
Definition running_capital (trades : list Trade.t) (initial_capital : pyfloat)
    (start_date : Z) (n : nat) : pyfloat :=
  capital_before trades initial_capital start_date (S n).

(** Reading [trades_by_date] at a date, an absent date holding no trades,
    and the two steps [group_trade] is made of. *)
Definition day_view (m : gmap Z DayTrades.t) (d : Z) : DayTrades.t :=
  default (DayTrades.mk [] []) (m !! d).

Definition touch (k : Z) (m : gmap Z DayTrades.t) : gmap Z DayTrades.t :=
  match m !! k with
  | None => <[k := DayTrades.mk [] []]> m
  | Some _ => m
  end.

Definition add_buy (t : Trade.t) (d : DayTrades.t) : DayTrades.t :=
  DayTrades.mk (DayTrades.buy d ++ [t]) (DayTrades.sell d).

Definition add_sell (t : Trade.t) (d : DayTrades.t) : DayTrades.t :=
  DayTrades.mk (DayTrades.buy d) (DayTrades.sell d ++ [t]).

End ReferenceEquity.

(** A trade bought on day 2 at 50 and sold on day 4 at 60, 100 shares. *)
Definition sample_trade : Trade.t :=
  {| Trade.trade_id := 1;
     Trade.buy_date := 2;
     Trade.buy_price := of_int 50;
     Trade.sell_date := 4;
     Trade.sell_price := of_int 60;
     Trade.shares := 100;
     Trade.profit := of_int 1000;
     Trade.return_rate := of_int 20;
     Trade.signal_type := "buy";
     Trade.hold_days := 2 |}.

(** ** Metrics of a run without trades *)

(** The defaults the specification lists for a run without trades. *)
Abbreviation zero_metrics c :=
  {| Metrics.initial_capital := c;
     Metrics.final_capital := c;
     Metrics.total_return := of_int 0;
     Metrics.total_return_rate := of_int 0;
     Metrics.annualized_return_rate := None;
     Metrics.total_trades := 0;
     Metrics.successful_trades := 0;
     Metrics.failed_trades := 0;
     Metrics.win_rate := of_int 0;
     Metrics.average_profit := of_int 0;
     Metrics.max_profit := of_int 0;
     Metrics.max_loss := of_int 0;
     Metrics.max_drawdown := of_int 0;
     Metrics.sharpe_ratio := None;
     Metrics.profit_factor := None |}.

(** ** Sample data for the examples *)

(** Fifteen rising closing prices: at index 13 the average loss is zero and
    the average gain is not. *)
Definition rising_closes : list Z := seqZ 1 15.

(** Thirty-one falling closing prices, 100 down to 70, on the days 0 to 30:
    on the last day the RSI is 0, an oversold buy signal of strength 0.9. *)
Definition falling_closes : list Z := (λ i, 100 - i) <$> seqZ 0 31.
Definition falling_frame : DataFrame :=
  fetched_frame 0 falling_closes (replicate 31 1000).
Definition sample_request : Request.t :=
  {| Request.stock_code := "000001";
     Request.start_date := 0;
     Request.end_date := 30;
     Request.initial_capital := of_int 100000;
     Request.strategy_type := "signal_based";
     Request.shares_per_trade := 100;
     Request.hold_days := None;
     Request.min_signal_strength := lit 5 10;
     Request.signal_types := None |}.

(** The sample request with an order of 50 shares, below the lot size, and
    with an order of -1 shares. *)
Definition small_request : Request.t :=
  {| Request.stock_code := "000001";
     Request.start_date := 0;
     Request.end_date := 30;
     Request.initial_capital := of_int 100000;
     Request.strategy_type := "signal_based";
     Request.shares_per_trade := 50;
     Request.hold_days := None;
     Request.min_signal_strength := lit 5 10;
     Request.signal_types := None |}.

Definition negative_request : Request.t :=
  {| Request.stock_code := "000001";
     Request.start_date := 0;
     Request.end_date := 30;
     Request.initial_capital := of_int 100000;
     Request.strategy_type := "signal_based";
     Request.shares_per_trade := -1;
     Request.hold_days := None;
     Request.min_signal_strength := lit 5 10;
     Request.signal_types := None |}.

(** Thirty-one days at the constant price 50: no rule of the signal detector
    fires on such a series. *)
Definition flat_frame : DataFrame :=
  fetched_frame 0 (replicate 31 50) (replicate 31 1000).

Definition flat_rows : list Row :=
  match @indicators_of plain_numlib flat_frame with
  | Some df => frame_rows df
  | None => []
  end.


(** The rows of the falling series, indicators included. *)
Definition falling_rows : list Row :=
  match @indicators_of plain_numlib falling_frame with
  | Some df => frame_rows df
  | None => []
  end.


(** Thirty-two days of a falling price, 542.07 down by 1 a day to 512.07 on
    day 30 and then 512.04: the RSI is 0 from day 13 on, and the scan finds
    an oversold buy signal on each of the days 30 and 31. *)
Definition sliding_closes : list pyfloat :=
  ((λ i, lit (54207 - 100 * i) 100) <$> seqZ 0 31) ++ [lit 51204 100].
Definition sliding_frame : DataFrame :=
  {| df_date := seqZ 0 32;
     df_cols := <["close" := sliding_closes]>
                (<["volume" := replicate 32 (of_int 1000)]> ∅) |}.
Definition sliding_rows : list Row :=
  match @indicators_of plain_numlib sliding_frame with
  | Some df => frame_rows df
  | None => []
  end.

(** The default request, on the days 0 to 31. *)
Definition sliding_request : Request.t :=
  {| Request.stock_code := "000001";
     Request.start_date := 0;
     Request.end_date := 31;
     Request.initial_capital := of_int 100000;
     Request.strategy_type := "signal_based";
     Request.shares_per_trade := 100;
     Request.hold_days := None;
     Request.min_signal_strength := lit 5 10;
     Request.signal_types := None |}.

(** Forty days of a price that falls from 100 to 62 and rises to 119: the
    RSI strategy and the MACD strategy trade on this series. *)
Definition vee_closes : list Z :=
  ((λ i, 100 - 2 * i) <$> seqZ 0 20) ++ ((λ i, 62 + 3 * i) <$> seqZ 0 20).
Definition vee_frame : DataFrame :=
  fetched_frame 0 vee_closes (replicate 40 1000).

(** An order of 250 shares on these forty days, held until a sell signal
    and held for at most five days. *)
Definition vee_request : Request.t :=
  {| Request.stock_code := "000001";
     Request.start_date := 0;
     Request.end_date := 39;
     Request.initial_capital := of_int 100000;
     Request.strategy_type := "rsi";
     Request.shares_per_trade := 250;
     Request.hold_days := None;
     Request.min_signal_strength := lit 5 10;
     Request.signal_types := None |}.

Definition vee_hold_request : Request.t :=
  {| Request.stock_code := "000001";
     Request.start_date := 0;
     Request.end_date := 39;
     Request.initial_capital := of_int 100000;
     Request.strategy_type := "rsi";
     Request.shares_per_trade := 250;
     Request.hold_days := Some 5;
     Request.min_signal_strength := lit 5 10;
     Request.signal_types := None |}.

(** ** Invariants of the simulation loops *)

(** A trade is sold on or after the day it was bought. *)
Definition ordered_trade (t : Trade.t) : Prop :=
  Trade.buy_date t ≤ Trade.sell_date t.

(** The first trade is over when the second begins. *)
Definition trade_before (t u : Trade.t) : Prop :=
  Trade.sell_date t ≤ Trade.buy_date u.

(** A ledger in which every trade is ordered and no two trades overlap. *)
Definition well_dated (trades : list Trade.t) : Prop :=
  Forall ordered_trade trades ∧ StronglySorted trade_before trades.

(** By the day [d], [D] being the last day of the data: the recorded trades
    are well dated and over, and an open position was bought no later than
    [d] and after every recorded trade was sold. *)
Definition dates_ok (D d : Z) (st : Sim) : Prop :=
  well_dated (trades st)
  ∧ Forall (λ t, Trade.sell_date t ≤ d) (trades st)
  ∧ d ≤ D
  ∧ ∀ p, position st = Some p →
         Position.buy_date p ≤ d
         ∧ Forall (λ t, Trade.sell_date t ≤ Position.buy_date p) (trades st).

(** Between two days, [future] being the dates of the days still to come. *)
Definition dates_between (D : Z) (st : Sim) (future : list Z) : Prop :=
  StronglySorted Z.le future
  ∧ Forall (λ x, x ≤ D) future
  ∧ ∃ d, Forall (λ x, d ≤ x) future ∧ dates_ok D d st.

(** ** The moves of a simulation

    A strategy changes its state by two moves only: it opens a position at
    the closing price of the day when none is open and the capital covers the
    cost, or it closes the open position at the closing price of the day and
    records the trade. *)

(** [(request.shares_per_trade // 100) * 100] *)
Definition lot (request : Request.t) : Z :=
  (Request.shares_per_trade request / 100) * 100.

Definition opened (request : Request.t) (d : Z) (price : pyfloat)
    (label : string) (st : Sim) : Sim :=
  {| capital := fsub (capital st) (fmul price (of_int (lot request)));
     position := Some {| Position.buy_date := d;
                         Position.buy_price := price;
                         Position.shares := lot request;
                         Position.signal_type := label |};
     trades := trades st;
     trade_id := trade_id st |}.

Definition closed (d : Z) (price : pyfloat) (label : string)
    (st : Sim) (pos : Position.t) : Sim :=
  {| capital := fst (close_trade st pos d price label);
     position := None;
     trades := trades st ++ [snd (close_trade st pos d price label)];
     trade_id := trade_id st + 1 |}.

Inductive move (request : Request.t) (d : Z) (price : pyfloat) (st : Sim)
    : Sim → Prop :=
  | move_open label :
      position st = None →
      fge (capital st) (fmul price (of_int (lot request))) = true →
      move request d price st (opened request d price label st)
  | move_close pos label :
      position st = Some pos →
      move request d price st (closed d price label st pos).

(** The state every strategy starts from. *)
Definition initial_sim (request : Request.t) : Sim :=
  {| capital := Request.initial_capital request;
     position := None;
     trades := [];
     trade_id := 1 |}.

(** A property of the state that the moves on the rows [Q] keep. *)
Definition kept (request : Request.t) (Q : Row → Prop) (P : Sim → Prop) : Prop :=
  ∀ r st st', Q r → P st → move request (date r) (close r) st st' → P st'.

(** The cash of a run that started with [i]: every recorded profit is the
    price difference times the shares, and the capital is what the trades
    recorded so far leave of [i], less the cost of the open position. *)
Definition cash_ok (i : pyfloat) (st : Sim) : Prop :=
  Forall (λ t, Trade.profit t = profit_of fsub fmul of_int (trade_key t))
         (trades st)
  ∧ let cash := cash_after_trades fadd fsub fmul of_int i
                  (trade_key <$> trades st) in
    match position st with
    | None => capital st = cash
    | Some p =>
        capital st
        = fsub cash (fmul (Position.buy_price p) (of_int (Position.shares p)))
    end.

Section Simulations.
Context `{NumLib}.

(** The four simulations on the same rows, and the four entry points. *)
Definition simulations (request : Request.t) (df : list Row) : list Sim :=
  [ simulate_signal_based request df (detect_trading_signals_for_backtest df 5);
    simulate_ma_cross request df;
    simulate_rsi request df;
    simulate_macd request df ].

Definition strategies : list (Request.t → DataFrame → outcome Result.t) :=
  [ backtest_signal_based_strategy; backtest_ma_cross_strategy;
    backtest_rsi_strategy; backtest_macd_strategy ].

End Simulations.

(** ** Invariants of the four strategies *)

(** The trades recorded so far are numbered 1, 2, ... and [trade_id] is the
    number of the next one. *)
Definition ids_ok (st : Sim) : Prop :=
  Trade.trade_id <$> trades st = seqZ 1 (Iloc.len (trades st))
  ∧ trade_id st = 1 + Iloc.len (trades st).

(** A trade record whose derived fields are what the strategies compute from
    its dates, prices and shares, the shares being the lot of the request. *)
Definition well_recorded (request : Request.t) (t : Trade.t) : Prop :=
  Trade.shares t = Request.shares_per_trade request / 100 * 100
  ∧ Trade.hold_days t = Trade.sell_date t - Trade.buy_date t
  ∧ Trade.profit t
    = fmul (fsub (Trade.sell_price t) (Trade.buy_price t))
           (of_int (Trade.shares t))
  ∧ Trade.return_rate t
    = fmul (if fgt (Trade.buy_price t) (of_int 0)
            then fdiv (fsub (Trade.sell_price t) (Trade.buy_price t))
                      (Trade.buy_price t)
            else of_int 0)
           (of_int 100).

(** A day and a price that are the date and the closing price of a row. *)
Definition quoted (df : list Row) (d : Z) (price : pyfloat) : Prop :=
  ∃ r, r ∈ df ∧ date r = d ∧ close r = price.

(** ** Equity curves *)

(** A finite, non-negative capital. *)
Definition is_amount (x : pyfloat) : Prop :=
  match x with Fin a => (0 ≤ a)%Qc | _ => False end.

#[global] Instance is_amount_dec x : Decision (is_amount x).
Proof. destruct x; cbn; apply _. Defined.

(** The capital never falls from one point of the curve to a later one. *)
Definition never_falls (curve : list EquityPoint.t) : Prop :=
  StronglySorted (λ a b, fle a b = true) (EquityPoint.capital <$> curve).

(** One iteration of [for capital in capitals] of
    [_calculate_max_drawdown], on the pair of [peak] and [max_dd]. *)
Definition drawdown_step (acc : pyfloat * pyfloat) (capital : pyfloat)
    : pyfloat * pyfloat :=
  let '(peak, max_dd) := acc in
  let peak := if fgt capital peak then capital else peak in
  let dd := if fgt peak (of_int 0)
            then fdiv (fsub peak capital) peak else of_int 0 in
  let max_dd := if fgt dd max_dd then dd else max_dd in
  (peak, max_dd).


(** An equity curve that rises from 100 to 120, falls to 90 and recovers to
    110, and one that only rises. *)
Definition dipping_curve : list EquityPoint.t :=
  (λ '(d, c), EquityPoint.mk d (of_int c))
  <$> [(0, 100); (1, 120); (2, 90); (3, 110)].

Definition rising_curve : list EquityPoint.t :=
  (λ '(d, c), EquityPoint.mk d (of_int c))
  <$> [(0, 100); (1, 100); (2, 120)].

(** ** Trade lists *)

(** Three trades with the profits 500, 0 and -200, and two without a
    loss. *)
Definition trade_with_profit (n : Z) (profit : Z) : Trade.t :=
  {| Trade.trade_id := n;
     Trade.buy_date := 2 * n;
     Trade.buy_price := of_int 50;
     Trade.sell_date := 2 * n + 1;
     Trade.sell_price := fadd (of_int 50) (fdiv (of_int profit) (of_int 100));
     Trade.shares := 100;
     Trade.profit := of_int profit;
     Trade.return_rate := fdiv (of_int profit) (of_int 50);
     Trade.signal_type := "buy";
     Trade.hold_days := 1 |}.

Definition mixed_trades : list Trade.t :=
  [trade_with_profit 1 500; trade_with_profit 2 0; trade_with_profit 3 (-200)].

Definition winning_trades : list Trade.t :=
  [trade_with_profit 1 500; trade_with_profit 2 0].

(** ** Orders below the lot size *)

(** The state of a run whose lots are empty: the capital is the initial
    capital [i0], every trade has no shares and no profit, and an open
    position has no shares and a finite price. *)
Definition zero_lot (i0 : Qc) (st : Sim) : Prop :=
  capital st = Fin i0
  ∧ Forall (λ t, Trade.shares t = 0 ∧ Trade.profit t = of_int 0) (trades st)
  ∧ ∀ p, position st = Some p →
         Position.shares p = 0 ∧ is_fin (Position.buy_price p).

(** ** The two scan modes *)

(** A signal of a rule, not the hold signal of the latest-day detector. *)
Definition not_hold (s : TradingSignal) : Prop := signal_type s ≠ "hold".

(** * Verification *)

(** ** Facts about the float model *)

Section FloatFacts.

Lemma Qc_ltb_true a b : Qc_ltb a b = true ↔ (a < b)%Qc.
Proof. unfold Qc_ltb. apply bool_decide_eq_true. Qed.

Lemma Qc_ltb_false a b : Qc_ltb a b = false ↔ (b ≤ a)%Qc.
Proof.
  unfold Qc_ltb. rewrite bool_decide_eq_false.
  split; [apply Qcnot_lt_le | apply Qcle_not_lt].
Qed.

Lemma Qc_leb_true a b : Qc_leb a b = true ↔ (a ≤ b)%Qc.
Proof. unfold Qc_leb. apply bool_decide_eq_true. Qed.

Lemma Qc_of_Z_0 : Qc_of_Z 0 = 0%Qc.
Proof. by apply Qc_is_canon. Qed.

(** A strict comparison never holds in both directions. *)
Lemma flt_asym x y : flt x y = true → flt y x = false.
Proof.
  destruct x as [a| | |], y as [b| | |]; cbn; try done.
  rewrite Qc_ltb_true, Qc_ltb_false. apply Qclt_le_weak.
Qed.

(** Zero shares cost nothing, and paying or collecting nothing leaves a
    finite capital as it was. *)
Lemma zero_cost pr : fmul (Fin pr) (of_int 0) = of_int 0.
Proof. cbn. unfold of_int. f_equal. rewrite Qc_of_Z_0. ring. Qed.

Lemma fsub_zero c : fsub (Fin c) (of_int 0) = Fin c.
Proof. cbn. f_equal. rewrite Qc_of_Z_0. ring. Qed.

Lemma fadd_zero c : fadd (Fin c) (of_int 0) = Fin c.
Proof. cbn. f_equal. rewrite Qc_of_Z_0. ring. Qed.

Lemma fge_zero c : (0 ≤ c)%Qc → fge (Fin c) (of_int 0) = true.
Proof. intros Hc. cbn. apply Qc_leb_true. by rewrite Qc_of_Z_0. Qed.

End FloatFacts.

(** Turns a goal over [Qc] into one over [Q] that [lra] decides. *)
Ltac qc_to_q :=
  unfold Qclt, Qcle, lit, dec, of_int in *;
  cbn [this Qcplus Qcminus Qcmult Qcdiv Qcopp Qcinv Q2Qc Qc_of_Z] in *;
  repeat rewrite Qred_correct in *;
  unfold Qdiv, inject_Z in *; cbn [Qinv Qnum Qden] in *.

(** ** RSI signal strength *)

Section RsiStrength.

Local Abbreviation strength := _calculate_rsi_signal_strength.

Lemma buy_linear (q : Qc) :
  (Qc_of_Z 25 ≤ q)%Qc → (q < Qc_of_Z 30)%Qc →
  strength (Fin q) "buy"
    = Fin (dec 6 10 + (Qc_of_Z 30 - q) / Qc_of_Z 10 * dec 2 10)
  ∧ (dec 6 10 < dec 6 10 + (Qc_of_Z 30 - q) / Qc_of_Z 10 * dec 2 10)%Qc
  ∧ (dec 6 10 + (Qc_of_Z 30 - q) / Qc_of_Z 10 * dec 2 10 ≤ dec 7 10)%Qc.
Proof.
  intros H25 H30. unfold _calculate_rsi_signal_strength.
  assert (flt (Fin q) (of_int 20) = false) as ->.
  { cbn. apply Qc_ltb_false. qc_to_q. lra. }
  assert (flt (Fin q) (of_int 25) = false) as ->.
  { cbn. by apply Qc_ltb_false. }
  assert (flt (Fin q) (of_int 30) = true) as ->.
  { cbn. by apply Qc_ltb_true. }
  split; [done|]. split; qc_to_q; lra.
Qed.

Lemma sell_linear (q : Qc) :
  (Qc_of_Z 70 < q)%Qc → (q ≤ Qc_of_Z 75)%Qc →
  strength (Fin q) "sell"
    = Fin (dec 6 10 + (q - Qc_of_Z 70) / Qc_of_Z 10 * dec 2 10)
  ∧ (dec 6 10 < dec 6 10 + (q - Qc_of_Z 70) / Qc_of_Z 10 * dec 2 10)%Qc
  ∧ (dec 6 10 + (q - Qc_of_Z 70) / Qc_of_Z 10 * dec 2 10 ≤ dec 7 10)%Qc.
Proof.
  intros H70 H75. unfold _calculate_rsi_signal_strength, fgt.
  assert (flt (of_int 80) (Fin q) = false) as ->.
  { cbn. apply Qc_ltb_false. qc_to_q. lra. }
  assert (flt (of_int 75) (Fin q) = false) as ->.
  { cbn. by apply Qc_ltb_false. }
  assert (flt (of_int 70) (Fin q) = true) as ->.
  { cbn. by apply Qc_ltb_true. }
  split; [done|]. split; qc_to_q; lra.
Qed.

(** C3.  The strength of an RSI signal is stepped by the depth of the
    breach.  Buy: 0.9 below 20, 0.8 from 20 and below 25, and from 25 and
    below 30 the linear value [0.6 + (30 - rsi) / 10 * 0.2], which lies
    between 0.6 and 0.8.  Sell is symmetric at 80, 75 and 70. *)
Theorem rsi_signal_strength_stepped :
  (∀ r, flt r (of_int 20) = true → strength r "buy" = lit 9 10)
  ∧ (∀ r, flt r (of_int 20) = false → flt r (of_int 25) = true →
          strength r "buy" = lit 8 10)
  ∧ (∀ q : Qc, (Qc_of_Z 25 ≤ q)%Qc → (q < Qc_of_Z 30)%Qc →
       ∃ s : Qc,
         s = (dec 6 10 + (Qc_of_Z 30 - q) / Qc_of_Z 10 * dec 2 10)%Qc
         ∧ strength (Fin q) "buy" = Fin s
         ∧ (dec 6 10 ≤ s)%Qc ∧ (s ≤ dec 8 10)%Qc)
  ∧ (∀ r, fgt r (of_int 80) = true → strength r "sell" = lit 9 10)
  ∧ (∀ r, fgt r (of_int 80) = false → fgt r (of_int 75) = true →
          strength r "sell" = lit 8 10)
  ∧ (∀ q : Qc, (Qc_of_Z 70 < q)%Qc → (q ≤ Qc_of_Z 75)%Qc →
       ∃ s : Qc,
         s = (dec 6 10 + (q - Qc_of_Z 70) / Qc_of_Z 10 * dec 2 10)%Qc
         ∧ strength (Fin q) "sell" = Fin s
         ∧ (dec 6 10 ≤ s)%Qc ∧ (s ≤ dec 8 10)%Qc).
Proof.
  repeat split.
  - intros r Hr. unfold _calculate_rsi_signal_strength. cbn [String.eqb Ascii.eqb Bool.eqb].
    by rewrite Hr.
  - intros r H20 H25. unfold _calculate_rsi_signal_strength. cbn [String.eqb Ascii.eqb Bool.eqb].
    by rewrite H20, H25.
  - intros q H25 H30. destruct (buy_linear q H25 H30) as (E & Hlo & Hhi).
    eexists; split; [reflexivity|]. split; [exact E|].
    split; [by apply Qclt_le_weak|].
    eapply Qcle_trans; [exact Hhi|]. by vm_compute.
  - intros r Hr. unfold _calculate_rsi_signal_strength. cbn [String.eqb Ascii.eqb Bool.eqb].
    by rewrite Hr.
  - intros r H80 H75. unfold _calculate_rsi_signal_strength. cbn [String.eqb Ascii.eqb Bool.eqb].
    by rewrite H80, H75.
  - intros q H70 H75. destruct (sell_linear q H70 H75) as (E & Hlo & Hhi).
    eexists; split; [reflexivity|]. split; [exact E|].
    split; [by apply Qclt_le_weak|].
    eapply Qcle_trans; [exact Hhi|]. by vm_compute.
Qed.

Lemma rsi_signal_strength_stepped_witness :
  strength (of_int 10) "buy" = lit 9 10
  ∧ strength (of_int 22) "buy" = lit 8 10
  ∧ (∃ s : Qc, s = (dec 6 10 + (Qc_of_Z 30 - Qc_of_Z 27) / Qc_of_Z 10 * dec 2 10)%Qc
       ∧ strength (Fin (Qc_of_Z 27)) "buy" = Fin s
       ∧ (dec 6 10 ≤ s)%Qc ∧ (s ≤ dec 8 10)%Qc)
  ∧ strength (of_int 85) "sell" = lit 9 10
  ∧ strength (of_int 77) "sell" = lit 8 10
  ∧ (∃ s : Qc, s = (dec 6 10 + (Qc_of_Z 72 - Qc_of_Z 70) / Qc_of_Z 10 * dec 2 10)%Qc
       ∧ strength (Fin (Qc_of_Z 72)) "sell" = Fin s
       ∧ (dec 6 10 ≤ s)%Qc ∧ (s ≤ dec 8 10)%Qc).
Proof.
  destruct rsi_signal_strength_stepped as (B1 & B2 & B3 & S1 & S2 & S3).
  split; [apply B1; reflexivity|].
  split; [apply B2; reflexivity|].
  split; [apply B3; by vm_compute|].
  split; [apply S1; reflexivity|].
  split; [apply S2; reflexivity|].
  apply S3; by vm_compute.
Defined.

End RsiStrength.

(** ** The indicator engine on the store *)

Section EngineOnStore.
Context `{NumLib}.
Import Series.

Lemma length_rolling_mean w xs : length (rolling_mean w xs) = length xs.
Proof. apply length_imap. Qed.

Lemma St_bind_unfold {A B} (m : St A) (f : A → St B) h :
  (m ≫= f) h = match m h with Some (a, h') => f a h' | None => None end.
Proof. reflexivity. Qed.

Lemma df_copy_spec (h : store) l d :
  h !! l = Some d →
  df_copy l h = Some (fresh (dom h), <[fresh (dom h) := d]> h).
Proof. intros E. unfold df_copy. by rewrite E. Qed.

Lemma df_get_insert (h : store) l d name c :
  df_cols d !! name = Some c →
  df_get l name (<[l := d]> h) = Some (c, <[l := d]> h).
Proof. intros E. unfold df_get. by rewrite lookup_insert_eq, E. Qed.

Lemma df_set_insert (h : store) l d name v :
  df_set l name v (<[l := d]> h) = Some ((), <[l := set_col name v d]> h).
Proof. unfold df_set. by rewrite lookup_insert_eq, insert_insert_eq. Qed.

Lemma col_set_eq name v d : df_cols (set_col name v d) !! name = Some v.
Proof. apply lookup_insert_eq. Qed.

Lemma col_set_ne name name' v d :
  name ≠ name' → df_cols (set_col name v d) !! name' = df_cols d !! name'.
Proof. intros. by apply lookup_insert_ne. Qed.

Ltac col_lookup :=
  repeat (rewrite col_set_ne by done); first [apply col_set_eq | eassumption].

(** The engine allocates one new frame, fills it column by column and
    returns it; its content is [indicator_frame]. *)
Lemma calculate_technical_indicators_spec (h : store) l d c :
  h !! l = Some d → df_cols d !! "close" = Some c →
  calculate_technical_indicators l h
  = Some (fresh (dom h), <[fresh (dom h) := indicator_frame d c]> h).
Proof.
  intros Hl Hc. unfold calculate_technical_indicators.
  rewrite St_bind_unfold, (df_copy_spec _ _ _ Hl).
  repeat (rewrite St_bind_unfold;
          first [ erewrite df_get_insert by col_lookup
                | rewrite df_set_insert ]).
  reflexivity.
Qed.

Lemma fresh_loc_ne (h : store) l d : h !! l = Some d → fresh (dom h) ≠ l.
Proof.
  intros E Heq. apply (is_fresh (dom h)). rewrite Heq.
  apply elem_of_dom. by exists d.
Qed.

Lemma indicators_of_spec d c :
  df_cols d !! "close" = Some c →
  indicators_of d = Some (indicator_frame d c).
Proof.
  intros Hc. unfold indicators_of.
  erewrite calculate_technical_indicators_spec;
    [|apply lookup_singleton_eq|exact Hc].
  apply lookup_insert_eq.
Qed.

(** C8.  The indicator engine is a pure function of its input series: a
    call leaves the input frame, and every other frame of the store,
    unchanged and returns a new frame; a second call on the same input
    returns a frame with identical content, and so does a call on any frame
    with the same content anywhere in any store. *)
Theorem indicator_engine_pure (h : store) (l : loc) (d : DataFrame) :
  h !! l = Some d → is_Some (df_cols d !! "close") →
  ∃ l1 h1 out,
    calculate_technical_indicators l h = Some (l1, h1)
    ∧ h1 !! l1 = Some out
    ∧ h1 !! l = Some d
    ∧ (∀ k, k ≠ l1 → h1 !! k = h !! k)
    ∧ (∃ l2 h2,
         calculate_technical_indicators l h1 = Some (l2, h2)
         ∧ h2 !! l2 = Some out
         ∧ h2 !! l1 = Some out
         ∧ h2 !! l = Some d)
    ∧ (∀ (h' : store) l', h' !! l' = Some d →
         ∃ l3 h3,
           calculate_technical_indicators l' h' = Some (l3, h3)
           ∧ h3 !! l3 = Some out).
Proof.
  intros Hl [c Hc].
  pose proof (fresh_loc_ne _ _ _ Hl) as Hne.
  exists (fresh (dom h)), (<[fresh (dom h) := indicator_frame d c]> h),
         (indicator_frame d c).
  split; [by apply calculate_technical_indicators_spec|].
  split; [apply lookup_insert_eq|].
  split; [by rewrite lookup_insert_ne|].
  split; [intros k Hk; by rewrite lookup_insert_ne|].
  split.
  - set (h1 := <[fresh (dom h) := indicator_frame d c]> h).
    assert (Hl1 : h1 !! l = Some d) by (unfold h1; by rewrite lookup_insert_ne).
    pose proof (fresh_loc_ne _ _ _ Hl1) as Hne1.
    assert (Hne2 : fresh (dom h1) ≠ fresh (dom h)).
    { apply (fresh_loc_ne h1 _ (indicator_frame d c)).
      unfold h1. apply lookup_insert_eq. }
    exists (fresh (dom h1)), (<[fresh (dom h1) := indicator_frame d c]> h1).
    split; [by apply calculate_technical_indicators_spec|].
    split; [apply lookup_insert_eq|].
    split; [rewrite lookup_insert_ne by done; unfold h1; apply lookup_insert_eq|].
    by rewrite lookup_insert_ne.
  - intros h' l' Hl'.
    exists (fresh (dom h')), (<[fresh (dom h') := indicator_frame d c]> h').
    split; [by apply calculate_technical_indicators_spec|].
    apply lookup_insert_eq.
Qed.

End EngineOnStore.

Lemma indicator_engine_pure_witness :
  let d := fetched_frame 0 [10; 11; 12] [500; 500; 500] in
  ∃ l1 h1 out,
    @calculate_technical_indicators plain_numlib 1%positive {[ 1%positive := d ]}
      = Some (l1, h1)
    ∧ h1 !! l1 = Some out
    ∧ h1 !! 1%positive = Some d
    ∧ (∀ k, k ≠ l1 → h1 !! k = ({[ 1%positive := d ]} : store) !! k)
    ∧ (∃ l2 h2,
         @calculate_technical_indicators plain_numlib 1%positive h1 = Some (l2, h2)
         ∧ h2 !! l2 = Some out
         ∧ h2 !! l1 = Some out
         ∧ h2 !! 1%positive = Some d)
    ∧ (∀ (h' : store) l', h' !! l' = Some d →
         ∃ l3 h3,
           @calculate_technical_indicators plain_numlib l' h' = Some (l3, h3)
           ∧ h3 !! l3 = Some out).
Proof.
  intros d.
  apply (@indicator_engine_pure plain_numlib {[ 1%positive := d ]} 1%positive d).
  - apply lookup_singleton_eq.
  - eexists. unfold d, fetched_frame. cbn [df_cols]. apply lookup_insert_eq.
Defined.

(** ** RSI when the average loss is zero *)

Section RsiZeroLoss.
Context `{NumLib}.
Import Series.

Lemma is_nonneg_fadd x y : is_nonneg x → is_nonneg y → is_nonneg (fadd x y).
Proof.
  destruct x as [a| | |], y as [b| | |]; cbn; try done.
  intros Ha Hb. qc_to_q. lra.
Qed.

Lemma is_nonneg_np_sum xs : Forall is_nonneg xs → is_nonneg (np_sum xs).
Proof.
  unfold np_sum. assert (Hz : is_nonneg (Fin 0)) by (cbn; apply Qcle_refl).
  revert Hz. generalize (Fin 0).
  induction xs as [|x tl IH]; intros acc Hacc Hxs; cbn; [done|].
  inversion Hxs; subst. apply IH; [by apply is_nonneg_fadd|done].
Qed.

Lemma is_nonneg_gains delta :
  Forall is_nonneg (where_ (λ d, fgt d (of_int 0)) (of_int 0) delta).
Proof.
  unfold where_. apply Forall_fmap, Forall_forall. intros d _.
  unfold compose. destruct (fgt d (of_int 0)) eqn:E.
  - destruct d as [a| | |]; cbn in E |- *; try done.
    apply Qc_ltb_true in E. apply Qclt_le_weak. by rewrite Qc_of_Z_0 in E.
  - cbn. by rewrite Qc_of_Z_0.
Qed.

Lemma is_nonneg_div_14 x :
  is_nonneg x → is_nonneg (fdiv x (of_int (Z.of_nat 14))).
Proof.
  destruct x as [a| | |]; cbn; try done.
  intros Ha. change (Z.of_nat 14) with 14.
  assert (Qc_eqb (Qc_of_Z 14) 0 = false) as -> by by vm_compute.
  cbn. qc_to_q. lra.
Qed.

(** Past the warm-up, the average gain is zero, positive or infinite. *)
Lemma gain_nonneg delta i g :
  (13 ≤ i)%nat → gain_of_delta delta !! i = Some g → is_nonneg g.
Proof.
  intros Hi. unfold gain_of_delta, rolling_mean.
  rewrite list_lookup_imap_Some. intros (x & _ & ->).
  destruct (i + 1 <? 14)%nat eqn:E; [apply Nat.ltb_lt in E; lia|].
  apply is_nonneg_div_14, is_nonneg_np_sum.
  unfold window_at. apply Forall_take, Forall_drop, is_nonneg_gains.
Qed.

Lemma loss_defined_index delta i z :
  loss_of_delta delta !! i = Some (Fin z) → (13 ≤ i)%nat.
Proof.
  unfold loss_of_delta, rolling_mean.
  rewrite list_lookup_imap_Some. intros (x & _ & E').
  destruct (i + 1 <? 14)%nat eqn:E; [done|].
  apply Nat.ltb_ge in E. lia.
Qed.

Lemma length_gain_loss delta :
  length (gain_of_delta delta) = length (loss_of_delta delta).
Proof.
  unfold gain_of_delta, loss_of_delta, neg, where_.
  by rewrite !length_rolling_mean, !length_fmap.
Qed.

Lemma rsi_value_zero_loss g :
  is_nonneg g →
  fsub (of_int 100) (fdiv (of_int 100) (fadd (of_int 1) (fdiv g (Fin 0))))
  = if fgt g (of_int 0) then of_int 100 else NaN.
Proof.
  destruct g as [a| | |]; cbn; try done.
  - intros Ha. assert (Qc_eqb 0 0 = true) as -> by by vm_compute.
    rewrite Qc_of_Z_0.
    destruct (Qc_ltb 0 a) eqn:E; cbn.
    + unfold fsub, of_int. cbn. f_equal. ring.
    + destruct (Qc_ltb a 0) eqn:E'; [|done].
      apply Qc_ltb_true in E'. by apply Qcle_not_lt in Ha.
  - intros _. unfold fsub, of_int. cbn. f_equal. ring.
Qed.

(** C4, as the code has it.  Where the 14-period average loss is zero the
    engine raises no error and the RSI is 100 when the average gain is
    positive, and undefined (NaN) when the average gain is zero too; the
    average gain is one or the other. *)
Theorem rsi_at_zero_average_loss (h : store) l d c (i : nat) :
  h !! l = Some d → df_cols d !! "close" = Some c →
  loss_of_delta (diff c) !! i = Some (Fin 0) →
  ∃ l' h' out g,
    calculate_technical_indicators l h = Some (l', h')
    ∧ h' !! l' = Some out
    ∧ gain_of_delta (diff c) !! i = Some g
    ∧ ((fgt g (of_int 0) = true ∧ cell out "rsi" i = of_int 100)
       ∨ (g = Fin 0 ∧ cell out "rsi" i = NaN)).
Proof.
  intros Hl Hc Hloss.
  pose proof (loss_defined_index _ _ _ Hloss) as Hi.
  destruct (gain_of_delta (diff c) !! i) as [g|] eqn:Hg.
  2:{ apply lookup_ge_None in Hg. rewrite length_gain_loss in Hg.
      apply lookup_ge_None in Hg. congruence. }
  pose proof (gain_nonneg _ _ _ Hi Hg) as Hnn.
  exists (fresh (dom h)), (<[fresh (dom h) := indicator_frame d c]> h),
         (indicator_frame d c), g.
  split; [by apply calculate_technical_indicators_spec|].
  split; [apply lookup_insert_eq|]. split; [done|].
  assert (Hcell : cell (indicator_frame d c) "rsi" i
                  = if fgt g (of_int 0) then of_int 100 else NaN).
  { unfold cell, indicator_frame.
    repeat (rewrite col_set_ne by done). rewrite col_set_eq. cbn [mbind option_bind].
    unfold rsi_of_rs. rewrite list_lookup_fmap, lookup_zip_with, Hg, Hloss.
    cbn. by apply rsi_value_zero_loss. }
  rewrite Hcell. destruct (fgt g (of_int 0)) eqn:E; [by left|right].
  split; [|done].
  destruct g as [a| | |]; cbn in *; try done.
  f_equal. apply Qcle_antisym; [|done].
  apply Qc_ltb_false in E. by rewrite Qc_of_Z_0 in E.
Qed.

End RsiZeroLoss.


(** C4, as the claim states it, fails: on [rising_closes] the average loss at
    index 13 is zero and the RSI there is defined, with value 100. *)
Lemma rsi_defined_at_zero_loss :
  let c := of_int <$> rising_closes in
  ((λ z, feqb z (of_int 0)) <$> loss_of_delta (Series.diff c) !! 13%nat) = Some true
  ∧ ∃ out, @indicators_of plain_numlib
             (fetched_frame 0 rising_closes (replicate 15 1000)) = Some out
           ∧ notna (cell out "rsi" 13) = true
           ∧ feqb (cell out "rsi" 13) (of_int 100) = true.
Proof.
  split; [by vm_compute|].
  eexists. split; [apply indicators_of_spec; apply lookup_insert_eq|].
  split; by vm_compute.
Qed.

Lemma rsi_at_zero_average_loss_witness :
  let d := fetched_frame 0 rising_closes (replicate 15 1000) in
  let c := of_int <$> rising_closes in
  ∃ l' h' out g,
    @calculate_technical_indicators plain_numlib 1%positive {[ 1%positive := d ]}
      = Some (l', h')
    ∧ h' !! l' = Some out
    ∧ gain_of_delta (Series.diff c) !! 13%nat = Some g
    ∧ ((fgt g (of_int 0) = true ∧ cell out "rsi" 13 = of_int 100)
       ∨ (g = Fin 0 ∧ cell out "rsi" 13 = NaN)).
Proof.
  intros d c.
  apply (@rsi_at_zero_average_loss plain_numlib {[ 1%positive := d ]} 1%positive d c 13).
  - apply lookup_singleton_eq.
  - apply lookup_insert_eq.
  - vm_compute. do 2 f_equal. by apply Qc_is_canon.
Defined.

(** ** Metrics of a run without trades *)

Section ZeroTrades.
Context `{NumLib}.






End ZeroTrades.


(** ** The equity curve *)

Section EquityCurve.
Context `{NumLib}.

Lemma group_trade_steps m t :
  group_trade m t
  = alter (add_sell t) (Trade.sell_date t)
      (alter (add_buy t) (Trade.buy_date t)
         (touch (Trade.sell_date t) (touch (Trade.buy_date t) m))).
Proof. reflexivity. Qed.

Lemma day_view_touch k m d : day_view (touch k m) d = day_view m d.
Proof.
  unfold touch, day_view. destruct (m !! k) eqn:E; [done|].
  destruct (decide (k = d)) as [->|Hne].
  - by rewrite lookup_insert_eq, E.
  - by rewrite lookup_insert_ne.
Qed.

Lemma touch_is_Some k m : is_Some (touch k m !! k).
Proof.
  unfold touch. destruct (m !! k) eqn:E; [by rewrite E|].
  rewrite lookup_insert_eq. eauto.
Qed.

Lemma touch_mono k k' m : is_Some (m !! k') → is_Some (touch k m !! k').
Proof.
  unfold touch. destruct (m !! k) eqn:E; [done|].
  intros Hk'. destruct (decide (k = k')) as [->|Hne].
  - rewrite lookup_insert_eq. eauto.
  - by rewrite lookup_insert_ne.
Qed.

Lemma day_view_alter f k m d :
  is_Some (m !! k) →
  day_view (alter f k m) d
  = if decide (k = d) then f (day_view m d) else day_view m d.
Proof.
  intros [x Hx]. unfold day_view. case_decide as E.
  - subst. by rewrite lookup_alter_eq, Hx.
  - by rewrite lookup_alter_ne.
Qed.

Lemma day_view_group_trade m t d :
  day_view (group_trade m t) d
  = DayTrades.mk
      (DayTrades.buy (day_view m d)
       ++ if decide (Trade.buy_date t = d) then [t] else [])
      (DayTrades.sell (day_view m d)
       ++ if decide (Trade.sell_date t = d) then [t] else []).
Proof.
  rewrite group_trade_steps.
  rewrite day_view_alter.
  2:{ rewrite lookup_alter_is_Some. apply touch_is_Some. }
  rewrite day_view_alter by (apply touch_mono, touch_is_Some).
  rewrite !day_view_touch.
  destruct (day_view m d) as [b s].
  repeat case_decide; cbn; by rewrite ?app_nil_r.
Qed.

Lemma day_view_grouped trades d :
  day_view (foldl group_trade ∅ trades) d
  = DayTrades.mk (buys_on trades d) (sells_on trades d).
Proof.
  induction trades as [|t trades IH] using rev_ind.
  - unfold day_view. cbn [foldl]. by rewrite lookup_empty.
  - rewrite foldl_snoc, day_view_group_trade, IH. cbn.
    unfold buys_on, sells_on. rewrite !filter_app, !filter_cons, !filter_nil.
    by repeat case_decide.
Qed.

Lemma equity_day_spec trades c curve d :
  equity_day (foldl group_trade ∅ trades) (c, curve) d
  = (capital_after_day trades c d,
     curve ++ [EquityPoint.mk d (capital_after_day trades c d)]).
Proof.
  unfold equity_day, capital_after_day.
  pose proof (day_view_grouped trades d) as Hv. unfold day_view in Hv.
  destruct (foldl group_trade ∅ trades !! d) as [v|]; cbn in Hv.
  - by subst v.
  - injection Hv as <- <-. done.
Qed.

Lemma equity_loop_spec trades init s (n : nat) :
  foldl (equity_day (foldl group_trade ∅ trades)) (init, [])
        (seqZ s (Z.of_nat n))
  = (capital_before trades init s n,
     (λ k, EquityPoint.mk (s + Z.of_nat k) (running_capital trades init s k))
       <$> seq 0 n).
Proof.
  induction n as [|n IH].
  - done.
  - rewrite seqZ_S, foldl_snoc, IH, equity_day_spec.
    rewrite seq_S, fmap_app. done.
Qed.

(** C7.  The equity curve has one point for every calendar day from
    [start_date] to [end_date]; the capital of day [k] is the running
    capital, which starts at [initial_capital], pays [buy_price * shares]
    for each trade bought that day, then collects [sell_price * shares] for
    each trade sold that day, and is unchanged on a day on which no trade
    is entered or left. *)
Theorem equity_curve_running_capital
    (trades : list Trade.t) (initial_capital : pyfloat) (start_date end_date : Z) :
  let curve :=
    _calculate_equity_curve trades initial_capital start_date end_date in
  length curve = Z.to_nat (end_date - start_date + 1)
  ∧ (∀ k : nat, Z.of_nat k < end_date - start_date + 1 →
       curve !! k
       = Some (EquityPoint.mk (start_date + Z.of_nat k)
                 (running_capital trades initial_capital start_date k)))
  ∧ (∀ k : nat,
       running_capital trades initial_capital start_date k
       = capital_after_day trades
           (match k with
            | O => initial_capital
            | S j => running_capital trades initial_capital start_date j
            end)
           (start_date + Z.of_nat k))
  ∧ (∀ c d,
       (∀ t, t ∈ trades → Trade.buy_date t ≠ d ∧ Trade.sell_date t ≠ d) →
       capital_after_day trades c d = c).
Proof.
  cbn zeta. unfold _calculate_equity_curve.
  set (n := Z.to_nat (end_date - start_date + 1)).
  assert (Hn : seqZ start_date (end_date - start_date + 1)
               = seqZ start_date (Z.of_nat n)).
  { unfold n. destruct (decide (0 ≤ end_date - start_date + 1)).
    - by rewrite Z2Nat.id.
    - rewrite Z2Nat.nonpos by lia. unfold seqZ.
      by rewrite Z2Nat.nonpos by lia. }
  rewrite Hn, equity_loop_spec. cbn [snd].
  split; [by rewrite length_fmap, length_seq|].
  split.
  - intros k Hk. rewrite list_lookup_fmap, lookup_seq_lt by lia. done.
  - split; [by intros [|k]|].
    intros c d Hno. unfold capital_after_day, buys_on, sells_on.
    assert (filter (λ t, Trade.buy_date t = d) trades = []) as ->.
    { apply elem_of_nil_inv. intros t [Ht Hin]%list_elem_of_filter.
      by destruct (Hno t Hin). }
    assert (filter (λ t, Trade.sell_date t = d) trades = []) as ->.
    { apply elem_of_nil_inv. intros t [Ht Hin]%list_elem_of_filter.
      by destruct (Hno t Hin). }
    done.
Qed.

End EquityCurve.

Lemma equity_curve_running_capital_witness :
  let curve := @_calculate_equity_curve [sample_trade] (of_int 100000) 1 5 in
  curve !! 1%nat
  = Some (EquityPoint.mk (1 + Z.of_nat 1)
            (running_capital [sample_trade] (of_int 100000) 1 1))
  ∧ capital_after_day [sample_trade] (of_int 7) 3 = of_int 7.
Proof.
  destruct (equity_curve_running_capital [sample_trade] (of_int 100000) 1 5)
    as (_ & Hk & _ & Hno).
  split; [apply Hk; lia|].
  apply Hno. intros t Ht. apply list_elem_of_singleton in Ht. subst t.
  cbn. lia.
Defined.

(** ** Invariants of the simulation loops *)

Section LoopInvariants.
Context `{NumLib}.
Import Iloc.

Lemma foldl_invariant {A B} (P : A → Prop) (f : A → B → A) l a :
  (∀ a b, P a → P (f a b)) → P a → P (foldl f a l).
Proof.
  intros Hstep. revert a. induction l as [|b l IH]; intros a Ha; cbn; [done|].
  by apply IH, Hstep.
Qed.

Lemma at_last {A} (l : list A) : at_ l (-1) = last l.
Proof.
  unfold at_, len. rewrite last_lookup.
  destruct l as [|x l]; [done|].
  cbn [length]. rewrite (proj2 (Z.ltb_lt (-1) 0)) by lia.
  rewrite (proj2 (Z.leb_le _ _)) by lia.
  f_equal. lia.
Qed.

Lemma sorted_le_last (l : list Z) x :
  StronglySorted Z.le l → last l = Some x → Forall (λ y, y ≤ x) l.
Proof.
  induction l as [|a l IH]; intros Hs Hl; [constructor|].
  apply StronglySorted_inv in Hs as [Hs Ha].
  destruct l as [|b l].
  - cbn in Hl. injection Hl as <-. by repeat constructor.
  - specialize (IH Hs Hl). constructor; [|done].
    inversion Ha; subst. inversion IH; subst. lia.
Qed.

Lemma sorted_drop (l : list Z) n :
  StronglySorted Z.le l → StronglySorted Z.le (drop n l).
Proof.
  intros Hs. rewrite <- (take_drop n l) in Hs.
  by apply StronglySorted_app_1_r in Hs.
Qed.

(** *** Trade dates *)

Lemma dates_ok_mono D d d' st :
  d ≤ d' → d' ≤ D → dates_ok D d st → dates_ok D d' st.
Proof.
  intros Hd Hd' (Hw & Hsold & _ & Hpos).
  split; [done|]. split; [|split; [done|]].
  - eapply Forall_impl; [exact Hsold|]. cbn. lia.
  - intros p Hp. destruct (Hpos p Hp) as [? ?]. split; [lia|done].
Qed.

(** Closing the position [pos] on the day [d] keeps the dates in order. *)
Lemma dates_ok_close D d price label st pos :
  dates_ok D d st → position st = Some pos →
  dates_ok D d
    {| capital := fst (close_trade st pos d price label);
       position := None;
       trades := trades st ++ [snd (close_trade st pos d price label)];
       trade_id := trade_id st + 1 |}.
Proof.
  intros ([Hord Hsort] & Hsold & HdD & Hpos) Epos.
  destruct (Hpos pos Epos) as [Hbuy Hafter].
  split; [split|split; [|split; [done|done]]]; cbn.
  - apply Forall_app. split; [done|]. by repeat constructor.
  - apply StronglySorted_app_2; [|done|by repeat constructor].
    intros t u Ht ->%list_elem_of_singleton. unfold trade_before. cbn.
    by eapply Forall_forall in Hafter.
  - apply Forall_app. split; [done|]. repeat constructor. cbn. lia.
Qed.

(** Opening a position on the day [d] keeps the dates in order. *)
Lemma dates_ok_open D d c price shares label st :
  dates_ok D d st →
  dates_ok D d
    {| capital := c;
       position := Some {| Position.buy_date := d;
                           Position.buy_price := price;
                           Position.shares := shares;
                           Position.signal_type := label |};
       trades := trades st;
       trade_id := trade_id st |}.
Proof.
  intros (Hw & Hsold & HdD & Hpos).
  split; [done|]. split; [done|]. split; [done|].
  cbn. intros p [= <-]. cbn. split; [lia|done].
Qed.

Lemma dates_ok_process_signal request D d price st signal :
  dates_ok D d st → dates_ok D d (process_signal request d price st signal).
Proof.
  intros Hok. unfold process_signal.
  destruct (String.eqb (signal_type signal) "buy"
            && bool_decide (position st = None)).
  - destruct (fge _ _); [|done]. by apply dates_ok_open.
  - destruct (String.eqb (signal_type signal) "sell"); [|done].
    destruct (position st) as [pos|] eqn:Epos; [|done].
    by apply (dates_ok_close D d price (Position.signal_type pos) st pos).
Qed.

Lemma dates_ok_check_hold_days request D d price label st :
  dates_ok D d st → dates_ok D d (check_hold_days request d price label st).
Proof.
  intros Hok. unfold check_hold_days.
  destruct (position st) as [pos|] eqn:Epos; [|done].
  destruct (Request.hold_days request) as [hd|]; [|done].
  destruct (hd <=? _); [|done].
  by apply (dates_ok_close D d price (label pos) st pos).
Qed.

Lemma dates_ok_signal_based_day request D eligible_signals st b :
  dates_ok D (date b) st →
  dates_ok D (date b) (signal_based_day request eligible_signals st b).
Proof.
  intros Hok. unfold signal_based_day.
  destruct (filter _ eligible_signals) as [|s0 ss]; [done|].
  apply dates_ok_check_hold_days.
  apply (foldl_invariant (dates_ok D (date b))); [|done].
  intros a s Ha. by apply dates_ok_process_signal.
Qed.

Lemma dates_ok_ma_cross_day request D st rows :
  dates_ok D (date (snd rows)) st →
  dates_ok D (date (snd rows)) (ma_cross_day request st rows).
Proof.
  intros Hok. destruct rows as [prev_row current_row]. unfold ma_cross_day.
  cbn [snd] in *.
  destruct (isna _ || isna _); [done|].
  destruct (isna _ || isna _); [done|].
  apply dates_ok_check_hold_days.
  destruct (fgt _ _ && fle _ _ && bool_decide (position st = None)).
  - destruct (fge _ _); [|done]. by apply dates_ok_open.
  - destruct (flt _ _ && fge _ _); [|done].
    destruct (position st) as [pos|] eqn:Epos; [|done].
    by apply (dates_ok_close D _ _ "MA死亡交叉" st pos).
Qed.

(** A loop over the days, each step keeping the dates in order on its day. *)
Lemma dates_loop {B} (dt : B → Z) (f : Sim → B → Sim) D :
  (∀ st b, dates_ok D (dt b) st → dates_ok D (dt b) (f st b)) →
  ∀ l st, dates_between D st (dt <$> l) →
          ∃ d, dates_ok D d (foldl f st l).
Proof.
  intros Hstep l. induction l as [|b l IH]; intros st (Hs & HD & d & Hd & Hok).
  - by exists d.
  - cbn [foldl]. apply IH. rewrite fmap_cons in Hs, HD, Hd.
    apply StronglySorted_inv in Hs as [Hs Hb].
    inversion HD; subst. inversion Hd; subst.
    split; [done|]. split; [done|]. exists (dt b). split; [done|].
    apply Hstep. by apply (dates_ok_mono D d).
Qed.

Lemma dates_between_initial request D future :
  StronglySorted Z.le future → Forall (λ x, x ≤ D) future →
  dates_between D
    {| capital := Request.initial_capital request;
       position := None; trades := []; trade_id := 1 |} future.
Proof.
  intros Hs HD. split; [done|]. split; [done|].
  destruct future as [|x future].
  - exists D. split; [constructor|].
    split; [split; constructor|]. split; [constructor|]. split; [lia|done].
  - exists x. apply StronglySorted_inv in Hs as [_ Hx]. inversion HD; subst.
    split; [constructor; [lia|done]|].
    split; [split; constructor|]. split; [constructor|]. split; [lia|done].
Qed.

Lemma well_dated_close_at_end D d df label st final :
  last df = Some final → date final = D →
  dates_ok D d st →
  well_dated (trades (close_at_end df label st)).
Proof.
  intros Hlast HD Hok. unfold close_at_end. rewrite at_last, Hlast.
  destruct (position st) as [pos|] eqn:Epos; [|by destruct Hok].
  assert (HdD : d ≤ D) by (by destruct Hok as (_ & _ & ? & _)).
  apply (dates_ok_mono D d D) in Hok; [|lia..].
  apply (dates_ok_close D D (close final) (label pos) st pos) in Hok; [|done].
  destruct Hok as [Hw _]. cbn in Hw. by rewrite HD.
Qed.

Lemma simulate_signal_based_well_dated request df signal_data :
  StronglySorted Z.le (date <$> df) →
  well_dated (trades (simulate_signal_based request df signal_data)).
Proof.
  intros Hs. unfold simulate_signal_based.
  destruct (last df) as [final|] eqn:Hlast.
  - set (D := date final).
    assert (HD : Forall (λ x, x ≤ D) (date <$> df)).
    { apply sorted_le_last; [done|]. by rewrite fmap_last, Hlast. }
    destruct (dates_loop date
                (signal_based_day request (eligible request signal_data)) D
                (dates_ok_signal_based_day request D _) df _
                (dates_between_initial request D _ Hs HD)) as [d Hok].
    by apply (well_dated_close_at_end D d _ _ _ final).
  - apply last_None in Hlast. subst df. split; constructor.
Qed.

Lemma simulate_ma_cross_well_dated request df :
  StronglySorted Z.le (date <$> df) →
  well_dated (trades (simulate_ma_cross request df)).
Proof.
  intros Hs. unfold simulate_ma_cross.
  destruct (last df) as [final|] eqn:Hlast.
  - set (D := date final).
    assert (HD : Forall (λ x, x ≤ D) (date <$> df)).
    { apply sorted_le_last; [done|]. by rewrite fmap_last, Hlast. }
    assert (Hdt : (date ∘ snd) <$> zip df (drop 1 df) = drop 1 (date <$> df)).
    { rewrite list_fmap_compose, snd_zip, fmap_drop; [done|].
      rewrite length_drop. lia. }
    destruct (dates_loop (date ∘ snd) (ma_cross_day request) D
                (dates_ok_ma_cross_day request D) (zip df (drop 1 df))
                {| capital := Request.initial_capital request;
                   position := None; trades := []; trade_id := 1 |})
      as [d Hok].
    { rewrite Hdt. apply dates_between_initial;
        [by apply sorted_drop|by apply Forall_drop]. }
    by apply (well_dated_close_at_end D d _ _ _ final).
  - apply last_None in Hlast. subst df. split; constructor.
Qed.

Lemma frame_rows_dates d : date <$> frame_rows d = df_date d.
Proof.
  unfold frame_rows. apply list_eq. intros i.
  rewrite list_lookup_fmap, list_lookup_imap.
  by destruct (df_date d !! i).
Qed.

Lemma indicators_of_inv fetched df :
  indicators_of fetched = Some df →
  ∃ c, df_cols fetched !! "close" = Some c ∧ df = indicator_frame fetched c.
Proof.
  destruct (df_cols fetched !! "close") as [c|] eqn:Hc.
  - rewrite (indicators_of_spec _ _ Hc). intros [= <-]. eauto.
  - unfold indicators_of, calculate_technical_indicators.
    rewrite St_bind_unfold, (df_copy_spec _ _ fetched) by apply lookup_singleton_eq.
    rewrite St_bind_unfold. unfold df_get at 1.
    by rewrite lookup_insert_eq, Hc.
Qed.

Lemma with_indicators_rows request fetched strategy r :
  with_indicators request fetched strategy = Ok r →
  ∃ df, r = strategy request df ∧ date <$> df = df_date fetched.
Proof.
  unfold with_indicators. case_bool_decide; [done|].
  destruct (indicators_of fetched) as [df|] eqn:E; [|done].
  intros [= <-]. exists (frame_rows df). split; [done|].
  apply indicators_of_inv in E as (c & _ & ->).
  by rewrite frame_rows_dates.
Qed.

Lemma signal_based_on_rows_well_dated request df :
  StronglySorted Z.le (date <$> df) →
  well_dated (Result.trades (signal_based_on_rows request df)).
Proof.
  intros Hs. unfold signal_based_on_rows.
  destruct (len df <? 30); [split; constructor|].
  destruct (detect_trading_signals_for_backtest df 5); [split; constructor|].
  cbn. by apply simulate_signal_based_well_dated.
Qed.

Lemma ma_cross_on_rows_well_dated request df :
  StronglySorted Z.le (date <$> df) →
  well_dated (Result.trades (ma_cross_on_rows request df)).
Proof.
  intros Hs. unfold ma_cross_on_rows.
  destruct (len df <? 30); [split; constructor|].
  cbn. by apply simulate_ma_cross_well_dated.
Qed.

(** C2, as the code has it.  When the fetched series is in ascending date
    order, every trade of a signal-based backtest is sold on or after the day
    it was bought. *)
Theorem trade_sold_on_or_after_buy request fetched r :
  StronglySorted Z.le (df_date fetched) →
  backtest_signal_based_strategy request fetched = Ok r →
  Forall (λ t, Trade.buy_date t ≤ Trade.sell_date t) (Result.trades r).
Proof.
  intros Hs Hrun. apply with_indicators_rows in Hrun as (df & -> & Hd).
  rewrite <- Hd in Hs. by apply signal_based_on_rows_well_dated.
Qed.

End LoopInvariants.

(** C2, as the claim states it, fails: on the falling series the only trade is
    bought on the last day and closed at the end of the data, on the same
    day. *)
Lemma trade_sold_on_its_buy_date :
  ∃ r, @backtest_signal_based_strategy plain_numlib sample_request falling_frame
       = Ok r
       ∧ (λ t, (Trade.buy_date t, Trade.sell_date t)) <$> Result.trades r
         = [(30, 30)]
       ∧ ¬ Forall (λ t, Trade.buy_date t < Trade.sell_date t) (Result.trades r).
Proof.
  eexists. split; [by vm_compute|]. split; [done|].
  intros Hall. apply Forall_cons_1 in Hall as [Hlt _]. cbn in Hlt. lia.
Qed.

Lemma trade_sold_on_or_after_buy_witness :
  ∃ r, @backtest_signal_based_strategy plain_numlib sample_request falling_frame
       = Ok r
       ∧ Forall (λ t, Trade.buy_date t ≤ Trade.sell_date t) (Result.trades r).
Proof.
  eexists. split; [by vm_compute|].
  eapply (@trade_sold_on_or_after_buy plain_numlib sample_request falling_frame).
  - apply (bool_decide_unpack _). by vm_compute.
  - by vm_compute.
Defined.

(** ** The moves of the strategies *)

Section Moves.
Context `{NumLib}.
Import Iloc.

Lemma check_hold_days_moves request d price label st :
  rtc (move request d price) st (check_hold_days request d price label st).
Proof.
  unfold check_hold_days.
  destruct (position st) as [pos|] eqn:Epos; [|done].
  destruct (Request.hold_days request) as [hd|]; [|done].
  destruct (hd <=? _); [|done].
  apply rtc_once. by apply (move_close request d price st pos (label pos)).
Qed.

Lemma process_signal_moves request d price st signal :
  rtc (move request d price) st (process_signal request d price st signal).
Proof.
  unfold process_signal.
  destruct (String.eqb (signal_type signal) "buy"
            && bool_decide (position st = None)) eqn:Ebuy.
  - destruct (fge _ _) eqn:Ecap; [|done].
    apply andb_true_iff in Ebuy as [_ Enone%bool_decide_eq_true].
    apply rtc_once. by apply (move_open request d price st (signal_reason signal)).
  - destruct (String.eqb (signal_type signal) "sell"); [|done].
    destruct (position st) as [pos|] eqn:Epos; [|done].
    apply rtc_once.
    by apply (move_close request d price st pos (Position.signal_type pos)).
Qed.

Lemma signal_based_day_moves request eligible_signals st b :
  rtc (move request (date b) (close b)) st
      (signal_based_day request eligible_signals st b).
Proof.
  unfold signal_based_day.
  destruct (filter _ eligible_signals) as [|s0 ss]; [done|].
  etrans; [|apply check_hold_days_moves].
  generalize (s0 :: ss). intros l. revert st.
  induction l as [|s l IH]; intros st; cbn [foldl]; [done|].
  etrans; [apply process_signal_moves|apply IH].
Qed.

Lemma ma_cross_day_moves request st rows :
  rtc (move request (date (snd rows)) (close (snd rows))) st
      (ma_cross_day request st rows).
Proof.
  destruct rows as [prev_row current_row]. unfold ma_cross_day. cbn [snd].
  destruct (isna _ || isna _); [done|].
  destruct (isna _ || isna _); [done|].
  etrans; [|apply check_hold_days_moves].
  destruct (fgt (ma5 current_row) (ma30 current_row)
            && fle (ma5 prev_row) (ma30 prev_row)
            && bool_decide (position st = None)) eqn:Ebuy.
  - destruct (fge _ _) eqn:Ecap; [|done].
    apply andb_true_iff in Ebuy as [_ Enone%bool_decide_eq_true].
    apply rtc_once. by apply (move_open request _ _ st "").
  - destruct (flt _ _ && fge _ _); [|done].
    destruct (position st) as [pos|] eqn:Epos; [|done].
    apply rtc_once. by apply (move_close request _ _ st pos "MA死亡交叉").
Qed.

(** A property the moves keep holds along a sequence of moves. *)
Lemma kept_rtc request Q P r st st' :
  kept request Q P → Q r → P st →
  rtc (move request (date r) (close r)) st st' → P st'.
Proof.
  intros Hk Hq Hp Hm. induction Hm as [|st st1 st2 Hm _ IH]; [done|].
  apply IH. by eapply Hk.
Qed.

(** A loop whose steps are moves on the rows it visits. *)
Lemma kept_loop {A B} (view : A → Sim) (row : B → Row) (f : A → B → A)
    request Q P :
  (∀ a b, rtc (move request (date (row b)) (close (row b)))
              (view a) (view (f a b))) →
  kept request Q P →
  ∀ l a, Forall (λ b, Q (row b)) l → P (view a) → P (view (foldl f a l)).
Proof.
  intros Hf Hk l. induction l as [|b l IH]; intros a Hl Ha; [done|].
  inversion Hl; subst. cbn [foldl]. apply IH; [done|].
  by eapply kept_rtc.
Qed.

Lemma Forall_zip_drop {A} (Q : A → Prop) (df : list A) :
  Forall Q df → Forall (λ rows, Q (snd rows)) (zip df (drop 1 df)).
Proof.
  intros Hq. apply Forall_forall. intros [p c] Hin.
  apply elem_of_zip_r in Hin. cbn.
  apply (Forall_drop _ 1) in Hq. by eapply Forall_forall in Hq.
Qed.

(** What the moves on the rows of the data keep holds when the loop of
    either strategy ends. *)
Lemma signal_based_loop_kept request df signal_data P :
  kept request (λ r, r ∈ df) P → P (initial_sim request) →
  P (signal_based_loop request df signal_data).
Proof.
  intros Hk Hini.
  apply (kept_loop id id (signal_based_day request _) request (λ r, r ∈ df) P);
    [apply signal_based_day_moves|done|by apply Forall_forall|done].
Qed.

Lemma ma_cross_loop_kept request df P :
  kept request (λ r, r ∈ df) P → P (initial_sim request) →
  P (ma_cross_loop request df).
Proof.
  intros Hk Hini.
  apply (kept_loop id snd (ma_cross_day request) request (λ r, r ∈ df) P);
    [apply ma_cross_day_moves|done| |done].
  apply (Forall_zip_drop (λ r, r ∈ df)). by apply Forall_forall.
Qed.

End Moves.

(** ** The capital of a run *)

Section Cash.
Context `{NumLib}.
Import Iloc.

Lemma cash_ok_initial request :
  cash_ok (Request.initial_capital request) (initial_sim request).
Proof. split; [constructor|done]. Qed.

Lemma cash_ok_kept request Q i : kept request Q (cash_ok i).
Proof.
  intros r st st' _ [Hprofit Hcash] Hm.
  destruct Hm as [label Hnone Hcap|pos label Hpos].
  - rewrite Hnone in Hcash. split; [done|]. cbn. by rewrite Hcash.
  - rewrite Hpos in Hcash. split.
    + cbn. apply Forall_app. split; [done|]. by repeat constructor.
    + cbn. rewrite fmap_app, foldl_app. cbn. by rewrite Hcash.
Qed.

(** Closing at the end of the data settles the cash: the position that was
    open is paid for and paid out. *)
Lemma cash_ok_close_at_end i df label st :
  (df = [] → position st = None) →
  cash_ok i st →
  Forall (λ t, Trade.profit t = profit_of fsub fmul of_int (trade_key t))
         (trades (close_at_end df label st))
  ∧ capital (close_at_end df label st)
    = cash_after_trades fadd fsub fmul of_int i
        (trade_key <$> trades (close_at_end df label st)).
Proof.
  intros Hne [Hprofit Hcash]. unfold close_at_end. rewrite at_last.
  destruct (position st) as [pos|] eqn:Epos; cbn zeta in Hcash.
  - destruct (last df) as [final|] eqn:Hlast.
    + split.
      * cbn. apply Forall_app. split; [done|]. by repeat constructor.
      * cbn. rewrite fmap_app, foldl_app. cbn. by rewrite Hcash.
    + apply last_None in Hlast. by specialize (Hne Hlast).
  - done.
Qed.

(** What [_calculate_metrics] reports as final capital, from the prices and
    shares of trades whose profit is the price difference times the
    shares. *)
Lemma final_capital_from_profits trades i curve start_date end_date :
  Forall (λ t, Trade.profit t = profit_of fsub fmul of_int (trade_key t)) trades →
  Metrics.final_capital (_calculate_metrics trades i curve start_date end_date)
  = capital_from_profits fadd fsub fmul of_int i (trade_key <$> trades).
Proof.
  intros Hprofit. unfold capital_from_profits.
  assert (E : profit_of fsub fmul of_int <$> (trade_key <$> trades)
              = Trade.profit <$> trades).
  { rewrite <- list_fmap_compose. apply Forall_fmap_ext_1.
    eapply Forall_impl; [exact Hprofit|]. by intros t ->. }
  rewrite E. destruct trades as [|t l]; [|done].
  cbn. destruct i as [q| | |]; cbn; [|done..].
  f_equal. rewrite Qc_of_Z_0. ring.
Qed.

Lemma close_at_end_appends df label st :
  (position st = None → trades (close_at_end df label st) = trades st)
  ∧ (∀ pos, position st = Some pos → df ≠ [] →
       ∃ final t,
         last df = Some final
         ∧ trades (close_at_end df label st) = trades st ++ [t]
         ∧ Trade.buy_date t = Position.buy_date pos
         ∧ Trade.buy_price t = Position.buy_price pos
         ∧ Trade.shares t = Position.shares pos
         ∧ Trade.sell_date t = date final
         ∧ Trade.sell_price t = close final).
Proof.
  unfold close_at_end. rewrite at_last. split.
  - by intros ->.
  - intros pos -> Hne. destruct (last df) as [final|] eqn:Hlast.
    + exists final. eexists. split; [done|]. split; [reflexivity|]. done.
    + by apply last_None in Hlast.
Qed.

(** C10, as the code has it.  A position the loop of either strategy
    leaves open is closed at the closing price of the last day and recorded
    as a trade.  The running capital then is the initial capital after
    paying, trade by trade, the cost of each recorded trade and collecting
    its proceeds; the [final_capital] [_calculate_metrics] derives from the
    trade list is the initial capital plus the sum of the profits, each the
    price difference times the shares.  Both hold whatever the prices are and
    in the order of operations of the source. *)
Theorem final_capital_from_trades request df signal_data
    curve start_date end_date :
  let i := Request.initial_capital request in
  let closes_position st0 st :=
    (position st0 = None → trades st = trades st0)
    ∧ (∀ pos, position st0 = Some pos →
         ∃ final t,
           last df = Some final
           ∧ trades st = trades st0 ++ [t]
           ∧ Trade.buy_date t = Position.buy_date pos
           ∧ Trade.buy_price t = Position.buy_price pos
           ∧ Trade.shares t = Position.shares pos
           ∧ Trade.sell_date t = date final
           ∧ Trade.sell_price t = close final) in
  let accounts st :=
    capital st
    = cash_after_trades fadd fsub fmul of_int i (trade_key <$> trades st)
    ∧ Metrics.final_capital
        (_calculate_metrics (trades st) i curve start_date end_date)
      = capital_from_profits fadd fsub fmul of_int i (trade_key <$> trades st) in
  closes_position (signal_based_loop request df signal_data)
                  (simulate_signal_based request df signal_data)
  ∧ accounts (simulate_signal_based request df signal_data)
  ∧ closes_position (ma_cross_loop request df) (simulate_ma_cross request df)
  ∧ accounts (simulate_ma_cross request df).
Proof.
  intros i closes_position accounts.
  set (P := λ st, cash_ok i st ∧ (df = [] → position st = None)).
  assert (Hk : kept request (λ r, r ∈ df) P).
  { intros r st st' Hin [Hc _] Hm. split.
    - by eapply (cash_ok_kept request (λ r, r ∈ df)).
    - intros ->. by apply elem_of_nil in Hin. }
  assert (Hini : P (initial_sim request)).
  { split; [apply cash_ok_initial|done]. }
  assert (Hend : ∀ st label, P st →
            closes_position st (close_at_end df label st)
            ∧ accounts (close_at_end df label st)).
  { intros st label [Hc Hne]. split.
    - destruct (close_at_end_appends df label st) as [Hn Hp].
      split; [done|]. intros pos Hpos. apply (Hp pos Hpos).
      intros ->. specialize (Hne eq_refl). congruence.
    - destruct (cash_ok_close_at_end i df label st Hne Hc) as [Hprofit Hcash].
      split; [done|]. by apply final_capital_from_profits. }
  destruct (Hend (signal_based_loop request df signal_data)
              (λ pos, Position.signal_type pos +:+ " (end)")) as [H1 H2];
    [by apply signal_based_loop_kept|].
  destruct (Hend (ma_cross_loop request df) (λ _, "MA金叉(回测结束)"))
    as [H3 H4]; [by apply ma_cross_loop_kept|].
  done.
Qed.

End Cash.

(** In the exact arithmetic of the embedding the two accounts agree on
    finite prices. *)
Lemma exact_accounts_agree i keys :
  is_fin i →
  Forall (λ '(buy_price, sell_price, _), is_fin buy_price ∧ is_fin sell_price)
         keys →
  cash_after_trades fadd fsub fmul of_int i keys
  = capital_from_profits fadd fsub fmul of_int i keys.
Proof.
  intros Hi Hk. destruct i as [c| | |]; try done.
  unfold cash_after_trades, capital_from_profits.
  assert (Hs : ∀ a c, ∃ s,
             foldl fadd (Fin a) (profit_of fsub fmul of_int <$> keys)
             = Fin (a + s)%Qc
             ∧ foldl (settle_trade fadd fsub fmul of_int) (Fin c) keys
               = Fin (c + s)%Qc).
  { induction Hk as [|[[b s] n] keys Hb Hk IH]; intros a c'.
    - exists 0%Qc. cbn. split; f_equal; ring.
    - destruct Hb as [Hb Hs]. destruct b as [b| | |], s as [s| | |]; try done.
      cbn [fmap list_fmap foldl].
      destruct (IH (a + (s - b) * Qc_of_Z n)%Qc
                   (c' - b * Qc_of_Z n + s * Qc_of_Z n)%Qc) as (s' & E1 & E2).
      exists ((s - b) * Qc_of_Z n + s')%Qc. split.
      + etrans; [exact E1|]. f_equal. ring.
      + etrans; [exact E2|]. f_equal. ring. }
  destruct (Hs (Qc_of_Z 0) c) as (s & E1 & E2).
  unfold of_int at 2. rewrite E1, E2. cbn. f_equal. rewrite Qc_of_Z_0. ring.
Qed.

(** The run on the sliding series: 100 shares bought on day 30 at 512.07 and
    closed at the end of the data, on day 31, at 512.04. *)
Lemma final_capital_from_trades_witness :
  let signal_data :=
    @detect_trading_signals_for_backtest plain_numlib sliding_rows 5 in
  let st0 := signal_based_loop sliding_request sliding_rows signal_data in
  let st := simulate_signal_based sliding_request sliding_rows signal_data in
  let i := Request.initial_capital sliding_request in
  is_Some (position st0)
  ∧ trades st0 = []
  ∧ (λ t, (Trade.buy_date t, Trade.sell_date t, trade_key t)) <$> trades st
    = [(30, 31, (lit 51207 100, lit 51204 100, 100))]
  ∧ capital st
    = cash_after_trades fadd fsub fmul of_int i (trade_key <$> trades st)
  ∧ Metrics.final_capital
      (@_calculate_metrics plain_numlib (trades st) i [] 0 31)
    = capital_from_profits fadd fsub fmul of_int i (trade_key <$> trades st).
Proof.
  intros signal_data st0 st i.
  destruct (@final_capital_from_trades plain_numlib sliding_request
              sliding_rows signal_data [] 0 31) as (_ & [Hcash Hfinal] & _).
  split; [apply (bool_decide_unpack _); vm_compute; exact I|].
  split; [vm_compute; reflexivity|].
  split; [apply (bool_decide_unpack _); vm_compute; exact I|].
  exact (conj Hcash Hfinal).
Defined.

(** C10, as the claim states it, fails in IEEE binary64, the arithmetic of
    the code.  The signal-based backtest of the default request on the
    sliding series records one trade, 100 shares bought at 512.07 and sold
    at 512.04; the running capital after it is 99997.0 and the initial
    capital plus the profit is 99996.99999999999. *)
Lemma running_capital_differs_in_binary64 :
  ∃ r,
    @backtest_signal_based_strategy plain_numlib sliding_request sliding_frame
    = Ok r
    ∧ (λ t, (Trade.buy_date t, Trade.sell_date t, trade_key t))
        <$> Result.trades r
      = [(30, 31, (lit 51207 100, lit 51204 100, 100))]
    ∧ let i := b64_of_pyfloat (Request.initial_capital sliding_request) in
      let recorded := b64_trade <$> (trade_key <$> Result.trades r) in
      let running :=
        cash_after_trades PrimFloat.add PrimFloat.sub PrimFloat.mul b64_of_Z
          i recorded in
      let reported :=
        capital_from_profits PrimFloat.add PrimFloat.sub PrimFloat.mul
          b64_of_Z i recorded in
      running = (99997)%float
      ∧ reported = (0x1.869cfffffffffp+16)%float
      ∧ PrimFloat.ltb reported running = true
      ∧ running ≠ reported.
Proof.
  eexists. split; [vm_compute; reflexivity|].
  split; [apply (bool_decide_unpack _); vm_compute; exact I|].
  intros i recorded running reported.
  assert (Hlt : PrimFloat.ltb reported running = true)
    by (vm_compute; reflexivity).
  split; [vm_compute; reflexivity|]. split; [vm_compute; reflexivity|].
  split; [exact Hlt|].
  intros E. rewrite E in Hlt. vm_compute in Hlt. discriminate.
Qed.

(** ** One position at a time *)

Section OnePosition.
Context `{NumLib}.

Lemma flt_notna x y : flt x y = true → notna x = true ∧ notna y = true.
Proof. by destruct x, y. Qed.

Lemma fle_notna x y : fle x y = true → notna x = true ∧ notna y = true.
Proof. by destruct x, y. Qed.

Lemma check_hold_days_closed request d price label st :
  position st = None → check_hold_days request d price label st = st.
Proof. intros Hp. unfold check_hold_days. by rewrite Hp. Qed.

Lemma process_signal_buy_while_open request d price st signal pos :
  position st = Some pos → signal_type signal = "buy" →
  process_signal request d price st signal = st.
Proof.
  intros Hp Hs. unfold process_signal. rewrite Hs, Hp.
  by rewrite bool_decide_eq_false_2.
Qed.

Lemma process_signal_sell_while_closed request d price st signal :
  position st = None → signal_type signal = "sell" →
  process_signal request d price st signal = st.
Proof. intros Hp Hs. unfold process_signal. by rewrite Hs, Hp. Qed.

Lemma ma_cross_day_golden_while_open request st prev_row current_row pos :
  position st = Some pos →
  fgt (ma5 current_row) (ma30 current_row) = true →
  fle (ma5 prev_row) (ma30 prev_row) = true →
  ma_cross_day request st (prev_row, current_row)
  = check_hold_days request (date current_row) (close current_row)
      (λ _, "MA金叉(持有到期)") st.
Proof.
  intros Hp Hg Hl. unfold ma_cross_day.
  destruct (flt_notna _ _ Hg) as [Hn30 Hn5].
  destruct (fle_notna _ _ Hl) as [Hp5 Hp30].
  unfold isna. rewrite Hn5, Hn30, Hp5, Hp30. cbn [negb orb].
  rewrite Hg, Hl, Hp. rewrite bool_decide_eq_false_2 by done. cbn [andb].
  unfold fgt in Hg. by rewrite (flt_asym _ _ Hg).
Qed.

Lemma ma_cross_day_death_while_closed request st prev_row current_row :
  position st = None →
  flt (ma5 current_row) (ma30 current_row) = true →
  fge (ma5 prev_row) (ma30 prev_row) = true →
  ma_cross_day request st (prev_row, current_row) = st.
Proof.
  intros Hp Hd Hg. unfold ma_cross_day.
  destruct (flt_notna _ _ Hd) as [Hn5 Hn30].
  destruct (fle_notna _ _ Hg) as [Hp30 Hp5].
  unfold isna. rewrite Hn5, Hn30, Hp5, Hp30. cbn [negb orb].
  unfold fgt at 1. rewrite (flt_asym _ _ Hd). cbn [andb].
  rewrite Hd, Hg, Hp. cbn [andb].
  by apply check_hold_days_closed.
Qed.

(** C5.  One position at a time.  In the signal-based strategy a buy signal
    met while a position is open, and a sell signal met while none is, leave
    the whole state (position, capital, trades) as it was.  In the MA-cross
    strategy a golden cross met while a position is open leaves the day to
    the hold-days check alone, and a death cross met while no position is
    open leaves the state as it was.  On a series in ascending date order
    the trades of either strategy never overlap: each is sold before the
    next is bought, or on that day. *)
Theorem one_position_at_a_time request :
  (∀ d price st signal pos,
     position st = Some pos → signal_type signal = "buy" →
     process_signal request d price st signal = st)
  ∧ (∀ d price st signal,
       position st = None → signal_type signal = "sell" →
       process_signal request d price st signal = st)
  ∧ (∀ st prev_row current_row pos,
       position st = Some pos →
       fgt (ma5 current_row) (ma30 current_row) = true →
       fle (ma5 prev_row) (ma30 prev_row) = true →
       ma_cross_day request st (prev_row, current_row)
       = check_hold_days request (date current_row) (close current_row)
           (λ _, "MA金叉(持有到期)") st)
  ∧ (∀ st prev_row current_row,
       position st = None →
       flt (ma5 current_row) (ma30 current_row) = true →
       fge (ma5 prev_row) (ma30 prev_row) = true →
       ma_cross_day request st (prev_row, current_row) = st)
  ∧ (∀ fetched r,
       StronglySorted Z.le (df_date fetched) →
       backtest_signal_based_strategy request fetched = Ok r
       ∨ backtest_ma_cross_strategy request fetched = Ok r →
       StronglySorted
         (λ t u, Trade.sell_date t ≤ Trade.buy_date u) (Result.trades r)).
Proof.
  split; [intros; by eapply process_signal_buy_while_open|].
  split; [intros; by apply process_signal_sell_while_closed|].
  split; [intros; by eapply ma_cross_day_golden_while_open|].
  split; [intros; by apply ma_cross_day_death_while_closed|].
  intros fetched r Hs [Hrun|Hrun];
    apply with_indicators_rows in Hrun as (df & -> & Hd); rewrite <- Hd in Hs.
  - by apply signal_based_on_rows_well_dated.
  - by apply ma_cross_on_rows_well_dated.
Qed.

End OnePosition.

Lemma one_position_at_a_time_witness :
  let pos := {| Position.buy_date := 30; Position.buy_price := of_int 70;
                Position.shares := 100; Position.signal_type := "RSI" |} in
  let held := {| capital := of_int 93000; position := Some pos;
                 trades := []; trade_id := 1 |} in
  let flat := {| capital := of_int 100000; position := None;
                 trades := []; trade_id := 1 |} in
  let signal kind := {| signal_type := kind; signal_strength := lit 9 10;
                        signal_reason := "RSI"; signal_date := 31;
                        indicators_used := ["RSI"] |} in
  process_signal sample_request 31 (of_int 71) held (signal "buy") = held
  ∧ process_signal sample_request 31 (of_int 71) flat (signal "sell") = flat
  ∧ ∃ r, @backtest_signal_based_strategy plain_numlib sample_request falling_frame
         = Ok r
         ∧ StronglySorted (λ t u, Trade.sell_date t ≤ Trade.buy_date u)
             (Result.trades r).
Proof.
  intros pos held flat signal.
  destruct (@one_position_at_a_time plain_numlib sample_request)
    as (Hbuy & Hsell & _ & _ & Hseq).
  split; [by apply (Hbuy _ _ held (signal "buy") pos)|].
  split; [by apply (Hsell _ _ flat (signal "sell"))|].
  eexists. split; [by vm_compute|].
  apply (Hseq falling_frame).
  - apply (bool_decide_unpack _). by vm_compute.
  - left. by vm_compute.
Defined.

(** ** Orders below the lot size *)

Section SmallOrders.
Context `{NumLib}.
Import Iloc.

Lemma zero_lot_close i0 st pos d sp label :
  zero_lot i0 st → position st = Some pos →
  zero_lot i0
    {| capital := fst (close_trade st pos d (Fin sp) label);
       position := None;
       trades := trades st ++ [snd (close_trade st pos d (Fin sp) label)];
       trade_id := trade_id st + 1 |}.
Proof.
  intros (Hc & Htr & Hpos) Epos. destruct (Hpos pos Epos) as [Hsh Hfin].
  destruct (Position.buy_price pos) as [bp| | |] eqn:Ebp; try done.
  unfold close_trade. cbn [fst snd].
  split; [|split; [|done]]; cbn [capital trades].
  - by rewrite Hc, Hsh, zero_cost, fadd_zero.
  - apply Forall_app. split; [done|].
    repeat constructor; cbn [Trade.shares Trade.profit]; [done|].
    rewrite Hsh, Ebp. unfold fsub. cbn [fopp fadd]. apply zero_cost.
Qed.

Lemma zero_lot_open request i0 st d pr label :
  0 ≤ Request.shares_per_trade request < 100 → (0 ≤ i0)%Qc →
  zero_lot i0 st →
  let shares := Request.shares_per_trade request / 100 * 100 in
  let cost := fmul (Fin pr) (of_int shares) in
  shares = 0
  ∧ fge (capital st) cost = true
  ∧ fsub (capital st) cost = capital st
  ∧ zero_lot i0
      {| capital := fsub (capital st) cost;
         position := Some {| Position.buy_date := d;
                             Position.buy_price := Fin pr;
                             Position.shares := shares;
                             Position.signal_type := label |};
         trades := trades st;
         trade_id := trade_id st |}.
Proof.
  intros Hspt Hi (Hc & Htr & Hpos). cbn zeta.
  rewrite Z.div_small by done. change (0 * 100) with 0.
  rewrite zero_cost, Hc, fsub_zero.
  split; [done|]. split; [by apply fge_zero|]. split; [done|].
  split; [done|]. split; [done|]. cbn. by intros p [= <-].
Qed.

Lemma zero_lot_process_signal request i0 d pr st signal :
  0 ≤ Request.shares_per_trade request < 100 → (0 ≤ i0)%Qc →
  zero_lot i0 st → zero_lot i0 (process_signal request d (Fin pr) st signal).
Proof.
  intros Hspt Hi Hz. unfold process_signal.
  destruct (String.eqb (signal_type signal) "buy"
            && bool_decide (position st = None)).
  - destruct (zero_lot_open request i0 st d pr (signal_reason signal) Hspt Hi Hz)
      as (_ & -> & _ & Hz'). exact Hz'.
  - destruct (String.eqb (signal_type signal) "sell"); [|done].
    destruct (position st) as [pos|] eqn:Epos; [|done].
    by apply (zero_lot_close i0 st pos d pr (Position.signal_type pos)).
Qed.

Lemma zero_lot_check_hold_days request i0 d pr label st :
  zero_lot i0 st → zero_lot i0 (check_hold_days request d (Fin pr) label st).
Proof.
  intros Hz. unfold check_hold_days.
  destruct (position st) as [pos|] eqn:Epos; [|done].
  destruct (Request.hold_days request) as [hd|]; [|done].
  destruct (hd <=? _); [|done].
  by apply (zero_lot_close i0 st pos d pr (label pos)).
Qed.

Lemma zero_lot_signal_based_day request i0 eligible_signals st b :
  0 ≤ Request.shares_per_trade request < 100 → (0 ≤ i0)%Qc →
  is_fin (close b) → zero_lot i0 st →
  zero_lot i0 (signal_based_day request eligible_signals st b).
Proof.
  intros Hspt Hi Hfin Hz. unfold signal_based_day.
  destruct (close b) as [pr| | |]; try done.
  destruct (filter _ eligible_signals) as [|s0 ss]; [done|].
  apply zero_lot_check_hold_days.
  apply (foldl_invariant (zero_lot i0)); [|done].
  intros a s Ha. by apply zero_lot_process_signal.
Qed.

Lemma zero_lot_ma_cross_day request i0 st rows :
  0 ≤ Request.shares_per_trade request < 100 → (0 ≤ i0)%Qc →
  is_fin (close (snd rows)) → zero_lot i0 st →
  zero_lot i0 (ma_cross_day request st rows).
Proof.
  intros Hspt Hi Hfin Hz. destruct rows as [prev_row current_row].
  unfold ma_cross_day. cbn [snd] in Hfin.
  destruct (close current_row) as [pr| | |]; try done.
  destruct (isna _ || isna _); [done|].
  destruct (isna _ || isna _); [done|].
  apply zero_lot_check_hold_days.
  destruct (fgt _ _ && fle _ _ && bool_decide (position st = None)).
  - destruct (zero_lot_open request i0 st (date current_row) pr "" Hspt Hi Hz)
      as (_ & -> & _ & Hz'). exact Hz'.
  - destruct (flt _ _ && fge _ _); [|done].
    destruct (position st) as [pos|] eqn:Epos; [|done].
    by apply (zero_lot_close i0 st pos _ pr "MA死亡交叉").
Qed.

Lemma zero_lot_close_at_end i0 df label st :
  Forall (λ r, is_fin (close r)) df →
  zero_lot i0 st → zero_lot i0 (close_at_end df label st).
Proof.
  intros Hfin Hz. unfold close_at_end. rewrite at_last.
  destruct (position st) as [pos|] eqn:Epos; [|done].
  destruct (last df) as [final|] eqn:Hlast; [|done].
  assert (Hf : is_fin (close final)).
  { apply last_Some_elem_of in Hlast. by eapply Forall_forall in Hfin. }
  destruct (close final) as [pr| | |] eqn:Ecl; try done.
  destruct (zero_lot_close i0 st pos (date final) pr (label pos) Hz Epos)
    as (Hc & Htr & _).
  split; [exact Hc|]. split; [exact Htr|].
  cbn [position]. intros p [= <-]. destruct Hz as (_ & _ & Hpos). by apply Hpos.
Qed.

Lemma zero_lot_initial request i0 :
  Request.initial_capital request = Fin i0 →
  zero_lot i0 {| capital := Request.initial_capital request;
                 position := None; trades := []; trade_id := 1 |}.
Proof. intros ->. split; [done|]. split; [constructor|done]. Qed.

Lemma zero_lot_simulate_signal_based request i0 df signal_data :
  0 ≤ Request.shares_per_trade request < 100 →
  Request.initial_capital request = Fin i0 → (0 ≤ i0)%Qc →
  Forall (λ r, is_fin (close r)) df →
  zero_lot i0 (simulate_signal_based request df signal_data).
Proof.
  intros Hspt Ei Hi Hfin. unfold simulate_signal_based.
  apply zero_lot_close_at_end; [done|]. unfold signal_based_loop.
  generalize (zero_lot_initial request i0 Ei).
  generalize {| capital := Request.initial_capital request;
                position := None; trades := []; trade_id := 1 |}.
  induction Hfin as [|b df Hb Hfin IH]; intros st Hst; cbn; [done|].
  apply IH. by apply zero_lot_signal_based_day.
Qed.

Lemma zero_lot_simulate_ma_cross request i0 df :
  0 ≤ Request.shares_per_trade request < 100 →
  Request.initial_capital request = Fin i0 → (0 ≤ i0)%Qc →
  Forall (λ r, is_fin (close r)) df →
  zero_lot i0 (simulate_ma_cross request df).
Proof.
  intros Hspt Ei Hi Hfin. unfold simulate_ma_cross.
  apply zero_lot_close_at_end; [done|]. unfold ma_cross_loop.
  assert (Hz : Forall (λ rows, is_fin (close (snd rows))) (zip df (drop 1 df))).
  { apply Forall_forall. intros [p c] Hin.
    apply elem_of_zip_r in Hin. cbn.
    apply (Forall_drop _ 1) in Hfin. by eapply Forall_forall in Hfin. }
  generalize (zero_lot_initial request i0 Ei).
  generalize {| capital := Request.initial_capital request;
                position := None; trades := []; trade_id := 1 |}.
  induction Hz as [|rows l Hb Hz IH]; intros st Hst; cbn; [done|].
  apply IH. by apply zero_lot_ma_cross_day.
Qed.

(** C9, as the code has it.  When [shares_per_trade] is at least 0 and below
    the lot size 100, the initial capital is a finite number that is not
    negative and the closing prices are finite, the lot is 0 shares and every
    buy condition is accepted: it opens a position of 0 shares and leaves the
    capital as it was.  Every trade of a signal-based or MA-cross run then
    has 0 shares and 0 profit, and the run ends with its initial capital. *)
Theorem small_order_trades_zero_shares request i0 :
  0 ≤ Request.shares_per_trade request < 100 →
  Request.initial_capital request = Fin i0 → (0 ≤ i0)%Qc →
  Request.shares_per_trade request / 100 * 100 = 0
  ∧ (∀ d pr st signal,
       capital st = Fin i0 → position st = None →
       signal_type signal = "buy" →
       process_signal request d (Fin pr) st signal
       = {| capital := capital st;
            position := Some {| Position.buy_date := d;
                                Position.buy_price := Fin pr;
                                Position.shares := 0;
                                Position.signal_type := signal_reason signal |};
            trades := trades st;
            trade_id := trade_id st |})
  ∧ (∀ st prev_row current_row pr,
       capital st = Fin i0 → position st = None →
       close current_row = Fin pr →
       fgt (ma5 current_row) (ma30 current_row) = true →
       fle (ma5 prev_row) (ma30 prev_row) = true →
       ma_cross_day request st (prev_row, current_row)
       = check_hold_days request (date current_row) (Fin pr)
           (λ _, "MA金叉(持有到期)")
           {| capital := capital st;
              position := Some {| Position.buy_date := date current_row;
                                  Position.buy_price := Fin pr;
                                  Position.shares := 0;
                                  Position.signal_type := "" |};
              trades := trades st;
              trade_id := trade_id st |})
  ∧ (∀ df signal_data,
       Forall (λ r, is_fin (close r)) df →
       let st := simulate_signal_based request df signal_data in
       Forall (λ t, Trade.shares t = 0 ∧ Trade.profit t = of_int 0) (trades st)
       ∧ capital st = Request.initial_capital request)
  ∧ (∀ df,
       Forall (λ r, is_fin (close r)) df →
       let st := simulate_ma_cross request df in
       Forall (λ t, Trade.shares t = 0 ∧ Trade.profit t = of_int 0) (trades st)
       ∧ capital st = Request.initial_capital request).
Proof.
  intros Hspt Ei Hi.
  assert (Hsh : Request.shares_per_trade request / 100 * 100 = 0)
    by (by rewrite Z.div_small).
  split; [done|]. split; [|split; [|split]].
  - intros d pr st signal Hc Hp Hs. unfold process_signal.
    rewrite Hs, Hp, Hsh, zero_cost, Hc, fsub_zero. cbn [String.eqb Ascii.eqb Bool.eqb andb].
    rewrite bool_decide_eq_true_2 by done.
    by rewrite fge_zero.
  - intros st prev_row current_row pr Hc Hp Ecl Hg Hl. unfold ma_cross_day.
    destruct (flt_notna _ _ Hg) as [Hn30 Hn5].
    destruct (fle_notna _ _ Hl) as [Hp5 Hp30].
    unfold isna. rewrite Hn5, Hn30, Hp5, Hp30. cbn [negb orb].
    rewrite Hg, Hl, Hp, Ecl, Hsh, zero_cost, Hc, fsub_zero.
    rewrite bool_decide_eq_true_2 by done. cbn [andb].
    by rewrite fge_zero.
  - intros df signal_data Hfin st.
    destruct (zero_lot_simulate_signal_based request i0 df signal_data
                Hspt Ei Hi Hfin) as (Hc & Htr & _).
    split; [done|]. by rewrite Ei.
  - intros df Hfin st.
    destruct (zero_lot_simulate_ma_cross request i0 df Hspt Ei Hi Hfin)
      as (Hc & Htr & _).
    split; [done|]. by rewrite Ei.
Qed.

End SmallOrders.

(** C9, as the claim states it, fails for a negative [shares_per_trade]:
    Python's floor division makes the lot [-1 // 100 * 100 = -100], and the
    run on the falling series records a trade of -100 shares. *)
Lemma negative_order_trades_negative_lot :
  Request.shares_per_trade negative_request < 100
  ∧ Request.shares_per_trade negative_request / 100 * 100 = -100
  ∧ ∃ r, @backtest_signal_based_strategy plain_numlib negative_request
           falling_frame = Ok r
         ∧ Trade.shares <$> Result.trades r = [-100].
Proof.
  split; [done|]. split; [done|].
  eexists. split; [by vm_compute|]. done.
Qed.

Lemma small_order_trades_zero_shares_witness :
  Request.shares_per_trade small_request / 100 * 100 = 0
  ∧ let st :=
      simulate_signal_based small_request falling_rows
        (@detect_trading_signals_for_backtest plain_numlib falling_rows 5) in
    Forall (λ t, Trade.shares t = 0 ∧ Trade.profit t = of_int 0) (trades st)
    ∧ capital st = Request.initial_capital small_request.
Proof.
  assert (H1 : 0 ≤ Request.shares_per_trade small_request < 100) by (cbn; lia).
  assert (H2 : Request.initial_capital small_request = Fin (Qc_of_Z 100000))
    by reflexivity.
  assert (H3 : (0 ≤ Qc_of_Z 100000)%Qc) by (by vm_compute).
  destruct (small_order_trades_zero_shares small_request
              (Qc_of_Z 100000) H1 H2 H3) as (Hlot & _ & _ & Hrun & _).
  split; [exact Hlot|].
  apply Hrun. apply (bool_decide_unpack _). by vm_compute.
Defined.

(** ** The two scan modes of the signal detector *)

Section ScanModes.
Context `{NumLib}.
Import Iloc.

Lemma at_nonneg {A} (l : list A) i : 0 ≤ i → at_ l i = l !! Z.to_nat i.
Proof. intros Hi. unfold at_. by rewrite (proj2 (Z.ltb_ge i 0)). Qed.

(** The series truncated at index [i]: [df.iloc[:i+1]]. *)
Lemma slice_prefix {A} (l : list A) i :
  0 ≤ i → i < len l → slice None (Some (i + 1)) l = take (S (Z.to_nat i)) l.
Proof.
  intros H0 Hi. unfold slice, clamp, len in *. cbn [from_option].
  rewrite (proj2 (Z.ltb_ge (i + 1) 0)) by lia.
  rewrite Z.min_l by lia. rewrite drop_0. f_equal. lia.
Qed.

Lemma len_prefix {A} (l : list A) i :
  0 ≤ i → i < len l → len (slice None (Some (i + 1)) l) = i + 1.
Proof.
  intros H0 Hi. rewrite slice_prefix by done. unfold len in *.
  rewrite length_take. lia.
Qed.

Lemma at_prefix_last {A} (l : list A) i :
  0 ≤ i → i < len l → at_ (slice None (Some (i + 1)) l) (-1) = at_ l i.
Proof.
  intros H0 Hi. rewrite at_last, at_nonneg, slice_prefix by done.
  rewrite last_lookup, length_take. unfold len in Hi.
  rewrite lookup_take_lt by lia. f_equal. lia.
Qed.

Lemma at_prefix_before_last {A} (l : list A) i :
  1 ≤ i → i < len l → at_ (slice None (Some (i + 1)) l) (-2) = at_ l (i - 1).
Proof.
  intros H0 Hi. rewrite (at_nonneg l) by lia. unfold at_.
  rewrite len_prefix by lia.
  rewrite (proj2 (Z.ltb_lt (-2) 0)) by lia.
  rewrite (proj2 (Z.leb_le _ _)) by lia.
  rewrite slice_prefix by lia. rewrite lookup_take_lt by lia. f_equal. lia.
Qed.

Lemma take_drop_take {A} (l : list A) (a b m : nat) :
  (a + b ≤ m)%nat → take b (drop a (take m l)) = take b (drop a l).
Proof.
  intros Hab. apply list_eq. intros k.
  rewrite !lookup_take, !lookup_drop. case_decide; [|done].
  by rewrite lookup_take_lt by lia.
Qed.

(** The recent window of the latest-day detector on the truncated series is
    the recent window of the scan at index [i]. *)
Lemma recent_window_agree (df : list Row) window i :
  0 ≤ window → 0 ≤ i → i < len df →
  (if window + 1 <=? len (slice None (Some (i + 1)) df)
   then slice (Some (- window - 1)) None (slice None (Some (i + 1)) df)
   else slice None (Some (i + 1)) df)
  = slice (Some (Z.max 0 (i - window))) (Some (i + 1)) df.
Proof.
  intros Hw H0 Hi. rewrite len_prefix by done.
  destruct (window + 1 <=? i + 1) eqn:E.
  - apply Z.leb_le in E. unfold slice at 1 3. cbn [from_option].
    rewrite len_prefix by done. unfold clamp.
    rewrite (proj2 (Z.ltb_lt (- window - 1) 0)) by lia.
    rewrite (proj2 (Z.ltb_ge (Z.max 0 (i - window)) 0)) by lia.
    rewrite (proj2 (Z.ltb_ge (i + 1) 0)) by lia.
    rewrite slice_prefix by done. unfold len in *.
    rewrite (Z.max_l (i + 1 + (- window - 1))) by lia.
    rewrite (Z.max_r 0 (i - window)) by lia.
    rewrite !Z.min_l by lia.
    replace (i + 1 + (- window - 1)) with (i - window) by lia.
    apply take_drop_take. lia.
  - apply Z.leb_gt in E. unfold slice at 2. cbn [from_option]. unfold clamp.
    rewrite (proj2 (Z.ltb_ge (Z.max 0 (i - window)) 0)) by lia.
    rewrite (proj2 (Z.ltb_ge (i + 1) 0)) by lia.
    unfold len in *.
    rewrite (Z.max_l 0 (i - window)) by lia.
    rewrite !Z.min_l by lia. rewrite drop_0, slice_prefix by done.
    f_equal. lia.
Qed.

Lemma len_recent_window (df : list Row) window i :
  1 ≤ window → 1 ≤ i → i < len df →
  (1 <? len (slice (Some (Z.max 0 (i - window))) (Some (i + 1)) df)) = true.
Proof.
  intros Hw H0 Hi. apply Z.ltb_lt. unfold slice, clamp, len in *.
  cbn [from_option].
  rewrite (proj2 (Z.ltb_ge (Z.max 0 (i - window)) 0)) by lia.
  rewrite (proj2 (Z.ltb_ge (i + 1) 0)) by lia.
  rewrite length_take, length_drop. lia.
Qed.

Lemma ma_cross_agree df window i latest prev recent_window :
  (1 <? len recent_window) = true →
  latest_golden_cross (slice None (Some (i + 1)) df) window latest prev
    recent_window
  ++ latest_death_cross (slice None (Some (i + 1)) df) window latest prev
       recent_window
  = scan_ma_cross df window i latest prev recent_window.
Proof.
  intros Hlen.
  assert (Hlen0 : (0 <? len recent_window) = true).
  { apply Z.ltb_lt. apply Z.ltb_lt in Hlen. lia. }
  unfold latest_golden_cross, latest_death_cross, scan_ma_cross.
  rewrite Hlen, Hlen0, andb_true_r. cbn [andb].
  destruct (notna (ma5 latest) && notna (ma30 latest)); [|done].
  destruct (fgt (ma5 latest) (ma30 latest)) eqn:G.
  - (* MA5 above MA30 today: no death cross *)
    unfold fgt in G. rewrite (flt_asym _ _ G). cbn [andb].
    rewrite app_nil_r.
    destruct (fle (ma5 prev) (ma30 prev)) eqn:L.
    + destruct (fle_notna _ _ L) as [-> ->]. done.
    + by destruct (notna (ma5 prev) && notna (ma30 prev)).
  - cbn [andb app].
    destruct (flt (ma5 latest) (ma30 latest)); cbn [andb].
    + destruct (fge (ma5 prev) (ma30 prev)) eqn:L.
      * destruct (fle_notna _ _ L) as [-> ->]. done.
      * by destruct (notna (ma5 prev) && notna (ma30 prev)).
    + by destruct (notna (ma5 prev) && notna (ma30 prev)).
Qed.

Lemma rsi_agree df window i latest :
  latest_rsi (slice None (Some (i + 1)) df) window latest
  = scan_rsi df window i latest.
Proof. reflexivity. Qed.

Lemma macd_agree dfT latest prev :
  (1 <? len dfT) = true →
  latest_macd dfT latest prev = scan_macd latest prev.
Proof.
  intros Hlen. unfold latest_macd, scan_macd. rewrite Hlen. cbn [andb].
  destruct (notna (macd latest) && notna (macd_signal latest)); [|done].
  destruct (fgt (macd latest) (macd_signal latest)) eqn:G.
  - unfold fgt in G. rewrite (flt_asym _ _ G). cbn [andb].
    destruct (fle (macd prev) (macd_signal prev)) eqn:L.
    + destruct (fle_notna _ _ L) as [-> ->]. done.
    + by destruct (notna (macd prev) && notna (macd_signal prev)).
  - cbn [andb].
    destruct (flt (macd latest) (macd_signal latest)); cbn [andb].
    + destruct (fge (macd prev) (macd_signal prev)) eqn:L.
      * destruct (fle_notna _ _ L) as [-> ->]. done.
      * by destruct (notna (macd prev) && notna (macd_signal prev)).
    + by destruct (notna (macd prev) && notna (macd_signal prev)).
Qed.

Lemma filter_all {A} (P : A → Prop) `{∀ x, Decision (P x)} (l : list A) :
  Forall P l → filter P l = l.
Proof.
  induction 1 as [|x l Hx Hl IH]; [done|].
  by rewrite filter_cons_True, IH.
Qed.

Lemma scan_ma_cross_not_hold df window i cur prev rw :
  Forall not_hold (scan_ma_cross df window i cur prev rw).
Proof.
  unfold scan_ma_cross. repeat case_match; by repeat constructor.
Qed.

Lemma scan_rsi_not_hold df window i cur :
  Forall not_hold (scan_rsi df window i cur).
Proof.
  unfold scan_rsi. repeat case_match; by repeat constructor.
Qed.

Lemma scan_macd_not_hold cur prev : Forall not_hold (scan_macd cur prev).
Proof.
  unfold scan_macd. repeat case_match; by repeat constructor.
Qed.

Lemma scan_day_not_hold df window i : Forall not_hold (scan_day df window i).
Proof.
  unfold scan_day.
  destruct (at_ df i) as [cur|]; [|constructor].
  destruct (if 0 <? i then at_ df (i - 1) else Some cur) as [prev|];
    [|constructor].
  cbn [app]. repeat apply Forall_app_2;
    auto using scan_ma_cross_not_hold, scan_rsi_not_hold, scan_macd_not_hold.
Qed.

Lemma latest_hold_is_hold df latest : ¬ not_hold (latest_hold df latest).
Proof.
  unfold not_hold, latest_hold. repeat case_match; cbn; by intros [].
Qed.

(** On the series truncated at an index [i] from 30 on, the latest-day
    detector finds what the scan finds at [i], and adds a hold signal when
    that is nothing. *)
Lemma truncated_latest df window i :
  1 ≤ window → 30 ≤ i → i < len df →
  filter not_hold (detect_trading_signals (slice None (Some (i + 1)) df) window)
  = scan_day df window i.
Proof.
  intros Hw Hi Hlen.
  pose proof (scan_day_not_hold df window i) as Hnh. revert Hnh.
  unfold detect_trading_signals, scan_day.
  rewrite len_prefix by lia.
  rewrite (proj2 (Z.ltb_ge (i + 1) 30)) by lia.
  rewrite (proj2 (Z.ltb_lt 1 (i + 1))) by lia.
  rewrite (proj2 (Z.ltb_lt 0 i)) by lia.
  rewrite at_prefix_last, at_prefix_before_last by lia.
  destruct (at_ df i) as [cur|] eqn:Ecur; [|done].
  destruct (at_ df (i - 1)) as [prev|] eqn:Eprev; [|done].
  pose proof (recent_window_agree df window i) as Hrw.
  rewrite len_prefix in Hrw by lia. rewrite Hrw by lia. clear Hrw.
  cbn [app]. rewrite app_assoc, ma_cross_agree by (apply len_recent_window; lia).
  rewrite rsi_agree, macd_agree.
  2:{ rewrite len_prefix by lia. apply Z.ltb_lt. lia. }
  rewrite <- app_assoc.
  set (signals := scan_ma_cross _ _ _ _ _ _ ++ scan_rsi _ _ _ _ ++ scan_macd _ _).
  intros Hnh. destruct signals as [|s0 ss] eqn:E.
  - cbn [app]. rewrite filter_cons_False; [done|]. apply latest_hold_is_hold.
  - by apply filter_all.
Qed.

Lemma foldl_extend {A B} (f : B → list A) (l : list B) (acc : list A) :
  foldl (λ all x, all ++ f x) acc l = acc ++ concat (f <$> l).
Proof.
  revert acc. induction l as [|x l IH]; intros acc; cbn.
  - by rewrite app_nil_r.
  - by rewrite IH, app_assoc.
Qed.

(** C1, as the code has it.  The full-history scan returns exactly the buy
    and sell signals the latest-day detector returns on the series truncated
    at every index from 30 on, concatenated in date order: the hold signal
    the latest-day detector adds when no rule fires is not part of the scan.
    The window is any number of days from 1 on (5 by default). *)
Theorem scan_is_latest_without_hold (df : list Row) (window : Z) :
  1 ≤ window →
  detect_trading_signals_for_backtest df window
  = concat
      ((λ i, filter not_hold
               (detect_trading_signals (slice None (Some (i + 1)) df) window))
       <$> py_range 30 (len df)).
Proof.
  intros Hw. unfold detect_trading_signals_for_backtest.
  destruct (len df <? 30) eqn:E.
  - apply Z.ltb_lt in E. unfold py_range. by rewrite seqZ_nil by lia.
  - rewrite foldl_extend. cbn [app]. f_equal.
    apply Forall_fmap_ext, Forall_forall. intros i Hi.
    unfold py_range in Hi. apply elem_of_seqZ in Hi.
    symmetry. apply truncated_latest; lia.
Qed.

End ScanModes.

(** C1, as the claim states it, fails: on a flat series no rule fires on day
    30, so the scan returns nothing while the latest-day detector returns a
    hold signal. *)
Lemma scan_drops_the_hold_signal :
  Iloc.len flat_rows = 31
  ∧ @detect_trading_signals_for_backtest plain_numlib flat_rows 5 = []
  ∧ signal_type
      <$> concat
            ((λ i, @detect_trading_signals plain_numlib
                     (Iloc.slice None (Some (i + 1)) flat_rows) 5)
             <$> py_range 30 (Iloc.len flat_rows))
    = ["hold"]
  ∧ @detect_trading_signals_for_backtest plain_numlib flat_rows 5
    ≠ concat
        ((λ i, @detect_trading_signals plain_numlib
                 (Iloc.slice None (Some (i + 1)) flat_rows) 5)
         <$> py_range 30 (Iloc.len flat_rows)).
Proof.
  split; [by vm_compute|]. split; [by vm_compute|]. split; [by vm_compute|].
  intros Heq. apply (f_equal length) in Heq. by vm_compute in Heq.
Qed.

Lemma scan_is_latest_without_hold_witness :
  @detect_trading_signals_for_backtest plain_numlib falling_rows 5
  = concat
      ((λ i, filter not_hold
               (@detect_trading_signals plain_numlib
                  (Iloc.slice None (Some (i + 1)) falling_rows) 5))
       <$> py_range 30 (Iloc.len falling_rows)).
Proof. apply (@scan_is_latest_without_hold plain_numlib falling_rows 5). lia. Defined.

(** * Further properties of the strategies *)

(** ** The four strategies *)

Section FourStrategies.
Context `{NumLib}.
Import Iloc.

Lemma rsi_day_moves request acc b :
  rtc (move request (date b) (close b)) (fst acc) (fst (rsi_day request acc b)).
Proof.
  destruct acc as [st v]. unfold rsi_day. cbn [fst].
  destruct (isna (rsi b)); [done|].
  destruct (flt (rsi b) (of_int 30) && bool_decide (position st = None)) eqn:Ebuy.
  - destruct (fge _ _) eqn:Ecap; cbn [fst];
      (etrans; [|apply check_hold_days_moves]); [|done].
    apply andb_true_iff in Ebuy as [_ Enone%bool_decide_eq_true].
    apply rtc_once. by apply (move_open request _ _ st "").
  - destruct (fgt (rsi b) (of_int 70)).
    + destruct (position st) as [pos|] eqn:Epos; cbn [fst];
        (etrans; [|apply check_hold_days_moves]); [|done].
      apply rtc_once. by apply (move_close request _ _ st pos).
    + cbn [fst]. apply check_hold_days_moves.
Qed.

Lemma macd_day_moves request acc rows :
  rtc (move request (date (snd rows)) (close (snd rows)))
      (fst acc) (fst (macd_day request acc rows)).
Proof.
  destruct acc as [st v], rows as [prev_row current_row].
  unfold macd_day. cbn [fst snd].
  destruct (isna _ || isna _); [done|].
  destruct (isna _ || isna _); [done|].
  destruct (fgt (macd current_row) (macd_signal current_row)
            && fle (macd prev_row) (macd_signal prev_row)
            && bool_decide (position st = None)) eqn:Ebuy.
  - destruct (fge _ _) eqn:Ecap; cbn [fst];
      (etrans; [|apply check_hold_days_moves]); [|done].
    apply andb_true_iff in Ebuy as [_ Enone%bool_decide_eq_true].
    apply rtc_once. by apply (move_open request _ _ st "").
  - destruct (flt _ _ && fge _ _).
    + destruct (position st) as [pos|] eqn:Epos; cbn [fst];
        (etrans; [|apply check_hold_days_moves]); [|done].
      apply rtc_once. by apply (move_close request _ _ st pos).
    + cbn [fst]. apply check_hold_days_moves.
Qed.

Lemma rsi_loop_kept request df P :
  kept request (λ r, r ∈ df) P → P (initial_sim request) →
  P (fst (rsi_loop request df)).
Proof.
  intros Hk Hini.
  apply (kept_loop fst id (rsi_day request) request (λ r, r ∈ df) P);
    [apply rsi_day_moves|done|by apply Forall_forall|done].
Qed.

Lemma macd_loop_kept request df P :
  kept request (λ r, r ∈ df) P → P (initial_sim request) →
  P (fst (macd_loop request df)).
Proof.
  intros Hk Hini.
  apply (kept_loop fst snd (macd_day request) request (λ r, r ∈ df) P);
    [apply macd_day_moves|done| |done].
  apply (Forall_zip_drop (λ r, r ∈ df)). by apply Forall_forall.
Qed.

(** What holds of the initial state and is kept by the moves on the rows of
    the data holds, after the position left open is closed on the last row,
    of the four simulations. *)
Lemma simulations_invariant request df P (Pend : Sim → Prop) :
  P (initial_sim request) →
  kept request (λ r, r ∈ df) P →
  (∀ st label, P st → Pend (close_at_end df label st)) →
  Forall Pend (simulations request df).
Proof.
  intros Hini Hk Hend.
  repeat apply Forall_cons_2; [..|constructor]; apply Hend.
  - by apply signal_based_loop_kept.
  - by apply ma_cross_loop_kept.
  - by apply rsi_loop_kept.
  - by apply macd_loop_kept.
Qed.

(** What a successful run of a strategy returns. *)
Lemma strategies_inv request fetched run r :
  run ∈ strategies → run request fetched = Ok r →
  ∃ c, df_cols fetched !! "close" = Some c
       ∧ df_date fetched ≠ []
       ∧ (r = empty_result request
          ∨ ∃ st, st ∈ simulations request (frame_rows (indicator_frame fetched c))
                  ∧ r = finish request st).
Proof.
  intros Hrun Hok.
  assert (Hw : ∃ strategy, with_indicators request fetched strategy = Ok r
               ∧ ∀ df, strategy request df = empty_result request
                       ∨ ∃ st, st ∈ simulations request df
                               ∧ strategy request df = finish request st).
  { unfold strategies in Hrun.
    repeat (apply elem_of_cons in Hrun as [->|Hrun]);
      [..|by apply elem_of_nil in Hrun].
    - exists signal_based_on_rows. split; [done|]. intros df.
      unfold signal_based_on_rows. destruct (len df <? 30); [by left|].
      destruct (detect_trading_signals_for_backtest df 5) eqn:E; [by left|].
      right. eexists. split; [|done]. rewrite <- E. unfold simulations.
      apply elem_of_cons. by left.
    - exists ma_cross_on_rows. split; [done|]. intros df.
      unfold ma_cross_on_rows. destruct (len df <? 30); [by left|].
      right. eexists. split; [|done]. unfold simulations.
      do 1 (apply elem_of_cons; right). apply elem_of_cons. by left.
    - exists rsi_on_rows. split; [done|]. intros df.
      unfold rsi_on_rows. destruct (len df <? 30); [by left|].
      right. eexists. split; [|done]. unfold simulations.
      do 2 (apply elem_of_cons; right). apply elem_of_cons. by left.
    - exists macd_on_rows. split; [done|]. intros df.
      unfold macd_on_rows. destruct (len df <? 30); [by left|].
      right. eexists. split; [|done]. unfold simulations.
      do 3 (apply elem_of_cons; right). apply elem_of_cons. by left. }
  destruct Hw as (strategy & Hw & Hs).
  unfold with_indicators in Hw. case_bool_decide as Hne; [done|].
  destruct (indicators_of fetched) as [df|] eqn:E; [|done].
  apply indicators_of_inv in E as (c & Hc & ->).
  injection Hw as <-. exists c. split; [done|]. split; [done|].
  destruct (Hs (frame_rows (indicator_frame fetched c))) as [->|(st & Hin & ->)];
    [by left|right; eauto].
Qed.

(** A property of trade lists that the empty list has and the four
    simulations establish holds of the trades of every result. *)
Lemma strategies_trades request fetched run r (T : list Trade.t → Prop) :
  T [] →
  (∀ df, Forall (λ st, T (trades st)) (simulations request df)) →
  run ∈ strategies → run request fetched = Ok r → T (Result.trades r).
Proof.
  intros Hnil Hsim Hrun Hok.
  destruct (strategies_inv request fetched run r Hrun Hok)
    as (c & _ & _ & [->|(st & Hin & ->)]); [done|].
  cbn. specialize (Hsim (frame_rows (indicator_frame fetched c))).
  by eapply Forall_forall in Hsim.
Qed.

End FourStrategies.

(** ** Trade dates of the RSI and the MACD strategy *)

Section IndicatorStrategyDates.
Context `{NumLib}.
Import Iloc.

Lemma dates_ok_move request D d price st st' :
  dates_ok D d st → move request d price st st' → dates_ok D d st'.
Proof.
  intros Hok [label Hnone Hcap|pos label Hpos].
  - by apply dates_ok_open.
  - by apply dates_ok_close.
Qed.

Lemma dates_ok_moves request D d price st st' :
  dates_ok D d st → rtc (move request d price) st st' → dates_ok D d st'.
Proof.
  intros Hok Hm. induction Hm as [|st st1 st2 Hm _ IH]; [done|].
  apply IH. by eapply dates_ok_move.
Qed.

(** A loop over the days on a state that holds a simulation state. *)
Lemma dates_loop_view {A B} (view : A → Sim) (dt : B → Z) (f : A → B → A) D :
  (∀ a b, dates_ok D (dt b) (view a) → dates_ok D (dt b) (view (f a b))) →
  ∀ l a, dates_between D (view a) (dt <$> l) →
         ∃ d, dates_ok D d (view (foldl f a l)).
Proof.
  intros Hstep l. induction l as [|b l IH]; intros a (Hs & HD & d & Hd & Hok).
  - by exists d.
  - cbn [foldl]. apply IH. rewrite fmap_cons in Hs, HD, Hd.
    apply StronglySorted_inv in Hs as [Hs Hb].
    inversion HD; subst. inversion Hd; subst.
    split; [done|]. split; [done|]. exists (dt b). split; [done|].
    apply Hstep. by apply (dates_ok_mono D d).
Qed.

Lemma simulate_rsi_well_dated request df :
  StronglySorted Z.le (date <$> df) →
  well_dated (trades (simulate_rsi request df)).
Proof.
  intros Hs. unfold simulate_rsi.
  destruct (last df) as [final|] eqn:Hlast.
  - set (D := date final).
    assert (HD : Forall (λ x, x ≤ D) (date <$> df)).
    { apply sorted_le_last; [done|]. by rewrite fmap_last, Hlast. }
    destruct (dates_loop_view fst date (rsi_day request) D) with
      (l := df) (a := (initial_sim request, NaN)) as [d Hok].
    { intros a b Ha. eapply dates_ok_moves; [done|apply rsi_day_moves]. }
    { by apply dates_between_initial. }
    by apply (well_dated_close_at_end D d _ _ _ final).
  - apply last_None in Hlast. subst df. split; constructor.
Qed.

Lemma simulate_macd_well_dated request df :
  StronglySorted Z.le (date <$> df) →
  well_dated (trades (simulate_macd request df)).
Proof.
  intros Hs. unfold simulate_macd.
  destruct (last df) as [final|] eqn:Hlast.
  - set (D := date final).
    assert (HD : Forall (λ x, x ≤ D) (date <$> df)).
    { apply sorted_le_last; [done|]. by rewrite fmap_last, Hlast. }
    assert (Hdt : (date ∘ snd) <$> zip df (drop 1 df) = drop 1 (date <$> df)).
    { rewrite list_fmap_compose, snd_zip, fmap_drop; [done|].
      rewrite length_drop. lia. }
    destruct (dates_loop_view fst (date ∘ snd) (macd_day request) D) with
      (l := zip df (drop 1 df)) (a := (initial_sim request, NaN)) as [d Hok].
    { intros a b Ha. eapply dates_ok_moves; [done|apply macd_day_moves]. }
    { rewrite Hdt. apply dates_between_initial;
        [by apply sorted_drop|by apply Forall_drop]. }
    by apply (well_dated_close_at_end D d _ _ _ final).
  - apply last_None in Hlast. subst df. split; constructor.
Qed.

(** X1.  On a series in ascending date order, every trade of the RSI
    strategy and of the MACD strategy is sold on or after the day it was
    bought, and the trades follow one another: each is sold before or on
    the day the next is bought, so no two positions are open at once. *)
Theorem indicator_strategy_trades_in_order request fetched r :
  StronglySorted Z.le (df_date fetched) →
  backtest_rsi_strategy request fetched = Ok r
  ∨ backtest_macd_strategy request fetched = Ok r →
  Forall (λ t, Trade.buy_date t ≤ Trade.sell_date t) (Result.trades r)
  ∧ StronglySorted (λ t u, Trade.sell_date t ≤ Trade.buy_date u)
      (Result.trades r).
Proof.
  intros Hs [Hrun|Hrun];
    apply with_indicators_rows in Hrun as (df & -> & Hd); rewrite <- Hd in Hs.
  - unfold rsi_on_rows. destruct (len df <? 30); [split; constructor|].
    by apply simulate_rsi_well_dated.
  - unfold macd_on_rows. destruct (len df <? 30); [split; constructor|].
    by apply simulate_macd_well_dated.
Qed.

End IndicatorStrategyDates.

(** The RSI strategy on the forty days, positions held for at most five
    days. *)
Lemma indicator_strategy_trades_in_order_witness :
  ∃ r, @backtest_rsi_strategy plain_numlib vee_hold_request vee_frame = Ok r
       ∧ (λ t, (Trade.buy_date t, Trade.sell_date t)) <$> Result.trades r
         = [(13, 18); (19, 24)]
       ∧ Forall (λ t, Trade.buy_date t ≤ Trade.sell_date t) (Result.trades r)
       ∧ StronglySorted (λ t u, Trade.sell_date t ≤ Trade.buy_date u)
           (Result.trades r).
Proof.
  eexists. split; [vm_compute; reflexivity|]. split; [vm_compute; reflexivity|].
  apply (@indicator_strategy_trades_in_order plain_numlib vee_hold_request
           vee_frame).
  - apply (bool_decide_unpack _). vm_compute. exact I.
  - left. vm_compute. reflexivity.
Defined.

(** ** The capital of the RSI and the MACD strategy *)

Section IndicatorStrategyCash.
Context `{NumLib}.
Import Iloc.

(** X2.  A position the loop of the RSI strategy or of the MACD strategy
    leaves open is closed at the closing price of the last day and recorded
    as a trade.  The running capital then is the initial capital after
    paying, trade by trade, the cost of each recorded trade and collecting
    its proceeds, and the [final_capital] of the metrics is the initial
    capital plus the sum of the profits, each the price difference times the
    shares; both in the order of operations of the source. *)
Theorem indicator_strategy_capital request df curve start_date end_date :
  let i := Request.initial_capital request in
  let closes_position st0 st :=
    (position st0 = None → trades st = trades st0)
    ∧ (∀ pos, position st0 = Some pos →
         ∃ final t,
           last df = Some final
           ∧ trades st = trades st0 ++ [t]
           ∧ Trade.buy_date t = Position.buy_date pos
           ∧ Trade.buy_price t = Position.buy_price pos
           ∧ Trade.shares t = Position.shares pos
           ∧ Trade.sell_date t = date final
           ∧ Trade.sell_price t = close final) in
  let accounts st :=
    capital st
    = cash_after_trades fadd fsub fmul of_int i (trade_key <$> trades st)
    ∧ Metrics.final_capital
        (_calculate_metrics (trades st) i curve start_date end_date)
      = capital_from_profits fadd fsub fmul of_int i (trade_key <$> trades st) in
  closes_position (fst (rsi_loop request df)) (simulate_rsi request df)
  ∧ accounts (simulate_rsi request df)
  ∧ closes_position (fst (macd_loop request df)) (simulate_macd request df)
  ∧ accounts (simulate_macd request df).
Proof.
  intros i closes_position accounts.
  set (P := λ st, cash_ok i st ∧ (df = [] → position st = None)).
  assert (Hk : kept request (λ r, r ∈ df) P).
  { intros r st st' Hin [Hc _] Hm. split.
    - by eapply (cash_ok_kept request (λ r, r ∈ df)).
    - intros ->. by apply elem_of_nil in Hin. }
  assert (Hini : P (initial_sim request)).
  { split; [apply cash_ok_initial|done]. }
  assert (Hend : ∀ st label, P st →
            closes_position st (close_at_end df label st)
            ∧ accounts (close_at_end df label st)).
  { intros st label [Hc Hne]. split.
    - destruct (close_at_end_appends df label st) as [Hn Hp].
      split; [done|]. intros pos Hpos. apply (Hp pos Hpos).
      intros ->. specialize (Hne eq_refl). congruence.
    - destruct (cash_ok_close_at_end i df label st Hne Hc) as [Hprofit Hcash].
      split; [done|]. by apply final_capital_from_profits. }
  destruct (Hend (fst (rsi_loop request df))
              (λ _, "RSI超卖(回测结束"
                    +:+ final_info df rsi ", RSI: " format_1f +:+ ")"))
    as [H1 H2]; [by apply rsi_loop_kept|].
  destruct (Hend (fst (macd_loop request df))
              (λ _, "MACD金叉(回测结束"
                    +:+ final_info df macd ", MACD: " format_4f +:+ ")"))
    as [H3 H4]; [by apply macd_loop_kept|].
  done.
Qed.

End IndicatorStrategyCash.

(** ** Trade numbers, trade records and trade prices *)

Section TradeRecords.
Context `{NumLib}.
Import Iloc.

Lemma seqZ_snoc (n : nat) :
  seqZ 1 (Z.of_nat (S n)) = seqZ 1 (Z.of_nat n) ++ [1 + Z.of_nat n].
Proof.
  replace (Z.of_nat (S n)) with (Z.of_nat n + 1) by lia.
  rewrite seqZ_app by lia.
  by rewrite (seqZ_cons _ 1), (seqZ_nil _ (Z.pred 1)) by lia.
Qed.

Lemma ids_ok_snoc st t :
  ids_ok st → Trade.trade_id t = trade_id st →
  Trade.trade_id <$> (trades st ++ [t])
  = seqZ 1 (len (trades st ++ [t])).
Proof.
  intros [Hids Hnext] Ht. unfold len in *.
  rewrite fmap_app, length_app, Hids. cbn [fmap list_fmap length].
  rewrite Ht, Hnext. replace (length (trades st) + 1)%nat
    with (S (length (trades st))) by lia.
  by rewrite seqZ_snoc.
Qed.

Lemma ids_ok_kept request Q : kept request Q ids_ok.
Proof.
  intros r st st' _ Hok Hm.
  destruct Hm as [label Hnone Hcap|pos label Hpos]; [done|].
  split; [by apply ids_ok_snoc|].
  destruct Hok as [_ Hnext]. cbn. rewrite Hnext. unfold len.
  rewrite length_app. cbn. lia.
Qed.

Lemma ids_ok_close_at_end df label st :
  ids_ok st →
  Trade.trade_id <$> trades (close_at_end df label st)
  = seqZ 1 (len (trades (close_at_end df label st))).
Proof.
  intros Hok. unfold close_at_end.
  destruct (position st) as [pos|]; [|by destruct Hok].
  destruct (at_ df (-1)) as [final|]; [|by destruct Hok].
  by apply ids_ok_snoc.
Qed.

(** X3.  The trades of every result of the four strategies are numbered
    1, 2, ... in the order they were recorded. *)
Theorem trade_ids_count_from_one request fetched run r :
  run ∈ strategies → run request fetched = Ok r →
  Trade.trade_id <$> Result.trades r = seqZ 1 (len (Result.trades r)).
Proof.
  apply (strategies_trades request fetched run r
           (λ l, Trade.trade_id <$> l = seqZ 1 (len l))); [done|].
  intros df. apply (simulations_invariant request df ids_ok).
  - split; done.
  - apply ids_ok_kept.
  - intros st label. apply ids_ok_close_at_end.
Qed.

Lemma close_trade_well_recorded request st pos d price label :
  Position.shares pos = Request.shares_per_trade request / 100 * 100 →
  well_recorded request (snd (close_trade st pos d price label)).
Proof. intros Hlot. split; [done|]. by split. Qed.

(** X4.  Every trade of every result of the four strategies has the lot of
    the request as its shares, a multiple of 100, and derived fields that
    agree with its dates and prices: the days held are the days between the
    two dates, the profit is the price difference times the shares, and the
    return rate is the relative price difference in percent (zero when the
    buy price is not positive). *)
Theorem trade_records_consistent request fetched run r :
  run ∈ strategies → run request fetched = Ok r →
  Forall (λ t, well_recorded request t ∧ (100 | Trade.shares t))
         (Result.trades r).
Proof.
  apply (strategies_trades request fetched run r
           (Forall (λ t, well_recorded request t ∧ (100 | Trade.shares t))));
    [constructor|].
  intros df.
  apply (simulations_invariant request df
           (λ st, Forall (well_recorded request) (trades st)
                  ∧ ∀ p, position st = Some p →
                         Position.shares p
                         = Request.shares_per_trade request / 100 * 100)).
  - split; [constructor|done].
  - intros r' st st' _ [Hall Hpos] Hm.
    destruct Hm as [label Hnone Hcap|pos label Hp].
    + split; [done|]. by intros p [= <-].
    + split; [|done]. cbn. apply Forall_app. split; [done|].
      repeat constructor. by apply close_trade_well_recorded, Hpos.
  - intros st label [Hall Hpos].
    assert (Hend : Forall (well_recorded request)
                     (trades (close_at_end df label st))).
    { unfold close_at_end.
      destruct (position st) as [pos|] eqn:Epos; [|done].
      destruct (at_ df (-1)) as [final|]; [|done].
      cbn. apply Forall_app. split; [done|].
      repeat constructor. by apply close_trade_well_recorded, Hpos. }
    eapply Forall_impl; [exact Hend|].
    intros t Ht. split; [done|]. destruct Ht as [-> _].
    apply Z.divide_factor_r.
Qed.

Lemma quoted_frame_rows fetched c d price :
  df_cols fetched !! "close" = Some c →
  length c = length (df_date fetched) →
  quoted (frame_rows (indicator_frame fetched c)) d price →
  ∃ i : nat, df_date fetched !! i = Some d ∧ c !! i = Some price.
Proof.
  intros Hc Hlen (r & Hin & <- & <-).
  apply list_elem_of_lookup in Hin as [i Hi]. exists i.
  unfold frame_rows in Hi. apply list_lookup_imap_Some in Hi as (dt & Hdt & ->).
  change (df_date (indicator_frame fetched c)) with (df_date fetched) in Hdt.
  split; [done|]. cbn [close]. unfold cell, indicator_frame.
  repeat (rewrite col_set_ne by done). rewrite Hc. cbn [mbind option_bind].
  apply lookup_lt_Some in Hdt. rewrite <- Hlen in Hdt.
  destruct (lookup_lt_is_Some_2 c i Hdt) as [x Hx]. by rewrite Hx.
Qed.

(** X5.  Every trade of every result of the four strategies was bought on
    a day of the fetched series at the closing price of that day and sold on
    a day of the series at the closing price of that day. *)
Theorem trades_at_closing_prices request fetched c run r :
  df_cols fetched !! "close" = Some c →
  length c = length (df_date fetched) →
  run ∈ strategies → run request fetched = Ok r →
  Forall (λ t,
            (∃ i : nat, df_date fetched !! i = Some (Trade.buy_date t)
                        ∧ c !! i = Some (Trade.buy_price t))
            ∧ (∃ j : nat, df_date fetched !! j = Some (Trade.sell_date t)
                          ∧ c !! j = Some (Trade.sell_price t)))
         (Result.trades r).
Proof.
  intros Hc Hlen Hrun Hok.
  destruct (strategies_inv request fetched run r Hrun Hok)
    as (c' & Hc' & _ & [->|(st & Hin & ->)]); [constructor|].
  assert (c' = c) as -> by congruence. cbn.
  set (df := frame_rows (indicator_frame fetched c)) in *.
  assert (Hall : Forall (λ st, Forall (λ t,
              quoted df (Trade.buy_date t) (Trade.buy_price t)
              ∧ quoted df (Trade.sell_date t) (Trade.sell_price t)) (trades st))
            (simulations request df)).
  { apply (simulations_invariant request df
             (λ st, Forall (λ t,
                quoted df (Trade.buy_date t) (Trade.buy_price t)
                ∧ quoted df (Trade.sell_date t) (Trade.sell_price t)) (trades st)
              ∧ ∀ p, position st = Some p →
                     quoted df (Position.buy_date p) (Position.buy_price p))).
    - split; [constructor|done].
    - intros r' st' st'' Hr [Hall Hpos] Hm.
      destruct Hm as [label Hnone Hcap|pos label Hp].
      + split; [done|]. intros p [= <-]. by exists r'.
      + split; [|done]. cbn. apply Forall_app. split; [done|].
        repeat constructor; cbn; [by apply Hpos|by exists r'].
    - intros st' label [Hall Hpos]. unfold close_at_end. rewrite at_last.
      destruct (position st') as [pos|] eqn:Epos; [|done].
      destruct (last df) as [final|] eqn:Hlast; [|done].
      cbn. apply Forall_app. split; [done|].
      repeat constructor; cbn; [by apply Hpos|].
      exists final. split; [by apply last_Some_elem_of|done]. }
  eapply Forall_forall in Hall; [|exact Hin].
  eapply Forall_impl; [exact Hall|].
  intros t [Hb Hs]. split; by eapply quoted_frame_rows.
Qed.

End TradeRecords.

Lemma rsi_is_a_strategy :
  @backtest_rsi_strategy plain_numlib ∈ @strategies plain_numlib.
Proof.
  unfold strategies. do 2 (apply elem_of_cons; right).
  apply elem_of_cons. by left.
Qed.

Lemma macd_is_a_strategy :
  @backtest_macd_strategy plain_numlib ∈ @strategies plain_numlib.
Proof.
  unfold strategies. do 3 (apply elem_of_cons; right).
  apply elem_of_cons. by left.
Qed.

(** The MACD strategy on the forty days: one trade, bought at 71 on day 23
    and closed at the end of the data at 119; the capital rises by the
    profit of 9600. *)
Lemma indicator_strategy_capital_witness :
  let st := @simulate_macd plain_numlib vee_request
              (frame_rows (@indicator_frame plain_numlib vee_frame
                             (of_int <$> vee_closes))) in
  let i := Request.initial_capital vee_request in
  (λ t, (Trade.buy_date t, Trade.sell_date t)) <$> trades st = [(23, 39)]
  ∧ feqb (capital st) (of_int 109600) = true
  ∧ capital st
    = cash_after_trades fadd fsub fmul of_int i (trade_key <$> trades st)
  ∧ Metrics.final_capital
      (@_calculate_metrics plain_numlib (trades st) i [] 0 39)
    = capital_from_profits fadd fsub fmul of_int i (trade_key <$> trades st).
Proof.
  intros st i.
  destruct (@indicator_strategy_capital plain_numlib vee_request
              (frame_rows (@indicator_frame plain_numlib vee_frame
                             (of_int <$> vee_closes))) [] 0 39)
    as (_ & _ & _ & [Hcash Hfinal]).
  split; [vm_compute; reflexivity|]. split; [vm_compute; reflexivity|].
  exact (conj Hcash Hfinal).
Defined.

(** The RSI strategy on the forty days, positions held for at most five
    days: two trades, numbered 1 and 2. *)
Lemma trade_ids_count_from_one_witness :
  ∃ r, @backtest_rsi_strategy plain_numlib vee_hold_request vee_frame = Ok r
       ∧ Trade.trade_id <$> Result.trades r = [1; 2]
       ∧ Trade.trade_id <$> Result.trades r
         = seqZ 1 (Iloc.len (Result.trades r)).
Proof.
  eexists. split; [vm_compute; reflexivity|]. split; [vm_compute; reflexivity|].
  apply (@trade_ids_count_from_one plain_numlib vee_hold_request vee_frame
           (@backtest_rsi_strategy plain_numlib)).
  - exact rsi_is_a_strategy.
  - vm_compute. reflexivity.
Defined.

(** The same run: the order of 250 shares trades lots of 200. *)
Lemma trade_records_consistent_witness :
  ∃ r, @backtest_rsi_strategy plain_numlib vee_hold_request vee_frame = Ok r
       ∧ (λ t, (Trade.shares t, Trade.hold_days t)) <$> Result.trades r
         = [(200, 5); (200, 5)]
       ∧ Forall (λ t, well_recorded vee_hold_request t ∧ (100 | Trade.shares t))
           (Result.trades r).
Proof.
  eexists. split; [vm_compute; reflexivity|]. split; [vm_compute; reflexivity|].
  apply (@trade_records_consistent plain_numlib vee_hold_request vee_frame
           (@backtest_rsi_strategy plain_numlib)).
  - exact rsi_is_a_strategy.
  - vm_compute. reflexivity.
Defined.

(** The MACD strategy on the forty days: bought at the close of day 23 and
    sold at the close of day 39. *)
Lemma trades_at_closing_prices_witness :
  ∃ r, @backtest_macd_strategy plain_numlib vee_request vee_frame = Ok r
       ∧ (λ t, (Trade.buy_date t, Trade.sell_date t)) <$> Result.trades r
         = [(23, 39)]
       ∧ Forall (λ t,
            (∃ i : nat, df_date vee_frame !! i = Some (Trade.buy_date t)
                        ∧ (of_int <$> vee_closes) !! i
                          = Some (Trade.buy_price t))
            ∧ (∃ j : nat, df_date vee_frame !! j = Some (Trade.sell_date t)
                          ∧ (of_int <$> vee_closes) !! j
                            = Some (Trade.sell_price t)))
           (Result.trades r).
Proof.
  eexists. split; [vm_compute; reflexivity|]. split; [vm_compute; reflexivity|].
  apply (@trades_at_closing_prices plain_numlib vee_request vee_frame
           (of_int <$> vee_closes) (@backtest_macd_strategy plain_numlib)).
  - apply lookup_insert_eq.
  - vm_compute. reflexivity.
  - exact macd_is_a_strategy.
  - vm_compute. reflexivity.
Defined.

(** * Further properties of the metrics *)

(** ** The maximum drawdown *)

Ltac qc_lra := qc_to_q; lra.

Section MaxDrawdown.
Context `{NumLib}.
Import Iloc.

Lemma Qc_ratio_bounds (x p : Qc) :
  (0 < p)%Qc → (0 ≤ x)%Qc → (x ≤ p)%Qc → (0 ≤ x / p)%Qc ∧ (x / p ≤ 1)%Qc.
Proof.
  intros Hp Hx Hxp.
  assert (Hne : p ≠ Q2Qc 0) by apply not_eq_sym, Qclt_not_eq, Hp.
  pose proof (test_field x p Hne) as E.
  split; apply (Qcmult_lt_0_le_reg_r _ _ p Hp); rewrite E.
  - by rewrite Qcmult_0_l.
  - by rewrite Qcmult_1_l.
Qed.

Lemma Qc_ratio_pos (x p : Qc) :
  (0 < p)%Qc → (0 < x)%Qc → (0 < x / p)%Qc.
Proof.
  intros Hp Hx.
  assert (Hne : p ≠ Q2Qc 0) by apply not_eq_sym, Qclt_not_eq, Hp.
  pose proof (test_field x p Hne) as E.
  apply Qcnot_le_lt. intros Hle.
  apply (Qcmult_le_compat_r _ _ p) in Hle; [|by apply Qclt_le_weak].
  rewrite E, Qcmult_0_l in Hle. by apply Qcle_not_lt in Hle.
Qed.

Lemma foldl_pointwise {A B} (f g : A → B → A) l a :
  (∀ a b, f a b = g a b) → foldl f a l = foldl g a l.
Proof.
  intros Hfg. revert a. induction l as [|b l IH]; intros a; cbn; [done|].
  by rewrite Hfg, IH.
Qed.

Lemma max_drawdown_unfold curve c0 rest :
  EquityPoint.capital <$> curve = c0 :: rest → (2 ≤ length curve)%nat →
  _calculate_max_drawdown curve
  = fmul (snd (foldl drawdown_step (c0, of_int 0) (c0 :: rest))) (of_int 100).
Proof.
  intros E Hlen. unfold _calculate_max_drawdown, len.
  rewrite (proj2 (Z.ltb_ge _ _)) by lia. rewrite E.
  rewrite (foldl_pointwise _ drawdown_step) by by intros [??] ?.
  by destruct (foldl _ _ _).
Qed.

Lemma drawdown_step_bounds p m c :
  (0 ≤ c)%Qc → (0 ≤ m)%Qc → (m ≤ 1)%Qc →
  ∃ p' m', drawdown_step (Fin p, Fin m) (Fin c) = (Fin p', Fin m')
           ∧ (0 ≤ m')%Qc ∧ (m' ≤ 1)%Qc ∧ (c ≤ p')%Qc ∧ (p ≤ p')%Qc
           ∧ (m ≤ m')%Qc
           ∧ ((c < p')%Qc → (0 < p')%Qc ∧ (0 < m')%Qc).
Proof.
  intros Hc Hm0 Hm1. unfold drawdown_step.
  set (p' := if fgt (Fin c) (Fin p) then Fin c else Fin p).
  assert (Hp' : ∃ q, p' = Fin q ∧ (c ≤ q)%Qc ∧ (p ≤ q)%Qc) .
  { subst p'. cbn. destruct (Qc_ltb p c) eqn:E.
    - apply Qc_ltb_true in E. exists c. split; [done|].
      split; [apply Qcle_refl|by apply Qclt_le_weak].
    - apply Qc_ltb_false in E. exists p. split; [done|].
      split; [done|apply Qcle_refl]. }
  destruct Hp' as (q & -> & Hcq & Hpq).
  assert (Hdd : ∃ d, (if fgt (Fin q) (of_int 0)
                      then fdiv (fsub (Fin q) (Fin c)) (Fin q) else of_int 0)
                     = Fin d ∧ (0 ≤ d)%Qc ∧ (d ≤ 1)%Qc
                     ∧ ((c < q)%Qc → (0 < q)%Qc ∧ (0 < d)%Qc)).
  { cbn. rewrite Qc_of_Z_0. destruct (Qc_ltb 0 q) eqn:E.
    - apply Qc_ltb_true in E.
      assert (Qc_eqb q 0 = false) as ->.
      { apply bool_decide_eq_false. apply not_eq_sym, Qclt_not_eq, E. }
      exists ((q + - c) / q)%Qc. split; [done|].
      assert (H0 : (0 ≤ q + - c)%Qc) by qc_lra.
      assert (H1 : (q + - c ≤ q)%Qc) by qc_lra.
      destruct (Qc_ratio_bounds _ _ E H0 H1) as [? ?].
      split; [done|]. split; [done|]. intros Hlt. split; [done|].
      apply Qc_ratio_pos; [done|]. qc_lra.
    - apply Qc_ltb_false in E. exists 0%Qc.
      split; [unfold of_int; by rewrite ?Qc_of_Z_0|].
      split; [apply Qcle_refl|]. split; [qc_lra|].
      intros Hlt. exfalso. apply (Qclt_not_le _ _ Hlt).
      by apply (Qcle_trans _ 0%Qc). }
  destruct Hdd as (d & -> & Hd0 & Hd1 & Hpos).
  cbn. destruct (Qc_ltb m d) eqn:E.
  - apply Qc_ltb_true in E. exists q, d.
    split; [done|]. do 4 (split; [assumption|]).
    split; [by apply Qclt_le_weak|assumption].
  - apply Qc_ltb_false in E. exists q, m.
    split; [done|]. do 4 (split; [assumption|]).
    split; [apply Qcle_refl|].
    intros Hlt. destruct (Hpos Hlt) as [? Hd]. split; [assumption|].
    by apply (Qclt_le_trans _ d).
Qed.

(** The fold over a list of amounts. *)
Lemma drawdown_fold_bounds capitals p m :
  Forall is_amount capitals → (0 ≤ m)%Qc → (m ≤ 1)%Qc →
  ∃ p' m', foldl drawdown_step (Fin p, Fin m) capitals = (Fin p', Fin m')
           ∧ (0 ≤ m')%Qc ∧ (m' ≤ 1)%Qc ∧ (p ≤ p')%Qc ∧ (m ≤ m')%Qc
           ∧ Forall (λ x, fle x (Fin p') = true) capitals.
Proof.
  intros Hall. revert p m.
  induction Hall as [|x capitals Hx Hall IH]; intros p m Hm0 Hm1.
  - exists p, m. split; [done|]. do 2 (split; [assumption|]).
    split; [apply Qcle_refl|]. split; [apply Qcle_refl|constructor].
  - destruct x as [c| | |]; try done. cbn [foldl].
    destruct (drawdown_step_bounds p m c Hx Hm0 Hm1)
      as (p1 & m1 & -> & H0 & H1 & Hc & Hp & Hm & _).
    destruct (IH p1 m1 H0 H1) as (p2 & m2 & -> & ? & ? & Hp2 & Hm2 & Hle).
    exists p2, m2. split; [done|]. do 2 (split; [assumption|]).
    split; [by apply (Qcle_trans _ p1)|].
    split; [by apply (Qcle_trans _ m1)|].
    constructor; [|done]. cbn. apply Qc_leb_true.
    by apply (Qcle_trans _ p1).
Qed.

(** X6.  On an equity curve of finite, non-negative capitals the maximum
    drawdown is a percentage: a finite number between 0 and 100. *)
Theorem max_drawdown_is_a_percentage curve :
  Forall (λ point, is_amount (EquityPoint.capital point)) curve →
  ∃ d, _calculate_max_drawdown curve = Fin d
       ∧ (0 ≤ d)%Qc ∧ (d ≤ Qc_of_Z 100)%Qc.
Proof.
  intros Hall. apply Forall_fmap in Hall.
  destruct (decide (2 ≤ length curve)%nat) as [Hlen|Hlen].
  - destruct (EquityPoint.capital <$> curve) as [|c0 rest] eqn:E.
    { apply fmap_nil_inv in E. subst curve. cbn in Hlen. lia. }
    rewrite (max_drawdown_unfold curve c0 rest E Hlen).
    inversion Hall as [|? ? Hc0 _]; subst.
    destruct c0 as [c| | |]; try done.
    destruct (drawdown_fold_bounds (Fin c :: rest) c (Qc_of_Z 0) Hall)
      as (p' & m' & Efold & Hm0 & Hm1 & _).
    { rewrite Qc_of_Z_0. apply Qcle_refl. }
    { rewrite Qc_of_Z_0. qc_lra. }
    change (of_int 0) with (Fin (Qc_of_Z 0)). rewrite Efold.
    exists (m' * Qc_of_Z 100)%Qc. split; [done|].
    assert (H100 : (0 ≤ Qc_of_Z 100)%Qc) by qc_lra.
    split.
    + apply (Qcmult_le_compat_r _ _ _ Hm0) in H100.
      by rewrite Qcmult_0_l in H100.
    + apply (Qcmult_le_compat_r _ _ _ Hm1) in H100.
      by rewrite Qcmult_1_l in H100.
  - exists 0%Qc. unfold _calculate_max_drawdown, len.
    rewrite (proj2 (Z.ltb_lt _ _)) by lia.
    split; [unfold of_int; by rewrite Qc_of_Z_0|]. split; qc_lra.
Qed.

End MaxDrawdown.

Section MaxDrawdownZero.
Context `{NumLib}.
Import Iloc.

Lemma Qc_zero_ratio (q : Qc) : ((q + - q) / q)%Qc = 0%Qc.
Proof. rewrite Qcplus_opp_r. unfold Qcdiv. apply Qcmult_0_l. Qed.

(** A step on a capital at or above the peak leaves no drawdown. *)
Lemma drawdown_step_at_peak p c :
  (p ≤ c)%Qc → drawdown_step (Fin p, Fin 0) (Fin c) = (Fin c, Fin 0).
Proof.
  intros Hpc. unfold drawdown_step.
  assert (Hpeak : (if fgt (Fin c) (Fin p) then Fin c else Fin p) = Fin c).
  { cbn. destruct (Qc_ltb p c) eqn:E; [done|].
    apply Qc_ltb_false in E. f_equal. by apply Qcle_antisym. }
  rewrite Hpeak. f_equal.
  assert (Hdd : (if fgt (Fin c) (of_int 0)
                 then fdiv (fsub (Fin c) (Fin c)) (Fin c) else of_int 0)
                = Fin 0).
  { cbn. rewrite Qc_of_Z_0. destruct (Qc_ltb 0 c) eqn:E;
      [|unfold of_int; by rewrite ?Qc_of_Z_0].
    apply Qc_ltb_true in E.
    assert (Qc_eqb c 0 = false) as ->.
    { apply bool_decide_eq_false. apply not_eq_sym, Qclt_not_eq, E. }
    by rewrite Qc_zero_ratio. }
  rewrite Hdd. cbn. by rewrite (proj2 (Qc_ltb_false 0 0)) by apply Qcle_refl.
Qed.

Lemma drawdown_fold_zero capitals p :
  Forall is_amount capitals →
  ∃ p' m',
    foldl drawdown_step (Fin p, Fin 0) capitals = (Fin p', Fin m')
    ∧ (m' = 0%Qc
       ↔ Forall (λ x, fle (Fin p) x = true) capitals
         ∧ StronglySorted (λ a b, fle a b = true) capitals).
Proof.
  intros Hall. revert p.
  induction Hall as [|x capitals Hx Hall IH]; intros p.
  - exists p, 0%Qc. split; [done|]. split; [|done].
    intros _. split; constructor.
  - destruct x as [c| | |]; try done. cbn [foldl].
    destruct (Qc_leb p c) eqn:Epc.
    + apply Qc_leb_true in Epc. rewrite (drawdown_step_at_peak p c Epc).
      destruct (IH c) as (p' & m' & -> & Hiff).
      exists p', m'. split; [done|]. rewrite Hiff. split.
      * intros [Hc Hs]. split.
        -- constructor; [cbn; by apply Qc_leb_true|].
           eapply Forall_impl; [exact Hc|].
           intros [y| | |]; cbn; try done.
           rewrite !Qc_leb_true. apply Qcle_trans. done.
        -- by constructor.
      * intros [Hp Hs]. apply StronglySorted_inv in Hs as [Hs Hc]. done.
    + assert (Hlt : (c < p)%Qc).
      { apply Qcnot_le_lt. intros Hle. apply Qc_leb_true in Hle. congruence. }
      destruct (drawdown_step_bounds p 0 c Hx)
        as (p1 & m1 & -> & H0 & H1 & Hc & Hp & Hm & Hpos);
        [apply Qcle_refl|qc_lra|].
      destruct (Hpos (Qclt_le_trans _ _ _ Hlt Hp)) as [_ Hm1].
      destruct (drawdown_fold_bounds capitals p1 m1 Hall H0 H1)
        as (p2 & m2 & -> & _ & _ & _ & Hm2 & _).
      exists p2, m2. split; [done|]. split.
      * intros ->. exfalso. apply (Qclt_not_le _ _ Hm1 Hm2).
      * intros [Hp' _]. inversion Hp' as [|? ? Hpc _]; subst.
        cbn in Hpc. congruence.
Qed.

(** X7.  On an equity curve of finite, non-negative capitals the maximum
    drawdown is zero exactly when the capital never falls from one point of
    the curve to a later one. *)
Theorem max_drawdown_zero_iff_never_falls curve :
  Forall (λ point, is_amount (EquityPoint.capital point)) curve →
  (2 ≤ length curve)%nat →
  feqb (_calculate_max_drawdown curve) (of_int 0) = true ↔ never_falls curve.
Proof.
  intros Hall Hlen. apply Forall_fmap in Hall. unfold never_falls.
  destruct (EquityPoint.capital <$> curve) as [|c0 rest] eqn:E.
  { apply fmap_nil_inv in E. subst curve. cbn in Hlen. lia. }
  rewrite (max_drawdown_unfold curve c0 rest E Hlen).
  inversion Hall as [|? ? Hc0 _]; subst.
  destruct c0 as [c| | |]; try done.
  change (of_int 0) with (Fin (Qc_of_Z 0)) at 1. rewrite Qc_of_Z_0.
  destruct (drawdown_fold_zero (Fin c :: rest) c Hall)
    as (p' & m' & -> & Hiff).
  cbn [snd fmul feqb of_int]. rewrite Qc_of_Z_0.
  unfold Qc_eqb. rewrite bool_decide_eq_true.
  assert (Hz : (m' * Qc_of_Z 100)%Qc = 0%Qc ↔ m' = 0%Qc).
  { split; [|intros ->; apply Qcmult_0_l].
    intros Hm. apply Qcmult_integral in Hm as [Hm|Hm]; [done|].
    exfalso. revert Hm. by apply (bool_decide_unpack _). }
  rewrite Hz, Hiff. split; [by intros [_ Hs]|].
  intros Hs. split; [|done].
  apply StronglySorted_inv in Hs as [_ Hc].
  constructor; [|done]. cbn. apply Qc_leb_true, Qcle_refl.
Qed.

End MaxDrawdownZero.

(** The dipping curve: the fall from 120 to 90 is a drawdown of 25 percent. *)
Lemma max_drawdown_is_a_percentage_witness :
  feqb (_calculate_max_drawdown dipping_curve) (of_int 25) = true
  ∧ ∃ d, _calculate_max_drawdown dipping_curve = Fin d
         ∧ (0 ≤ d)%Qc ∧ (d ≤ Qc_of_Z 100)%Qc.
Proof.
  split; [vm_compute; reflexivity|].
  apply (max_drawdown_is_a_percentage dipping_curve).
  apply (bool_decide_unpack _). vm_compute. exact I.
Defined.

Lemma max_drawdown_zero_iff_never_falls_witness :
  feqb (_calculate_max_drawdown rising_curve) (of_int 0) = true
  ∧ ¬ never_falls dipping_curve.
Proof.
  split.
  - apply (max_drawdown_zero_iff_never_falls rising_curve).
    + apply (bool_decide_unpack _). vm_compute. exact I.
    + vm_compute. lia.
    + apply (bool_decide_unpack _). vm_compute. exact I.
  - intros Hs. apply (max_drawdown_zero_iff_never_falls dipping_curve) in Hs.
    + vm_compute in Hs. discriminate.
    + apply (bool_decide_unpack _). vm_compute. exact I.
    + vm_compute. lia.
Defined.

(** ** Trade counts, win rate and profit factor *)

Section TradeStatistics.
Context `{NumLib}.
Import Iloc.

Lemma Qc_of_Z_le (a b : Z) : a ≤ b → (Qc_of_Z a ≤ Qc_of_Z b)%Qc.
Proof. intros Hab. qc_to_q. cbn. unfold Qle. cbn. lia. Qed.

Lemma Qc_of_Z_lt (a b : Z) : a < b → (Qc_of_Z a < Qc_of_Z b)%Qc.
Proof. intros Hab. qc_to_q. cbn. unfold Qlt. cbn. lia. Qed.

Lemma length_filter_split {A} (P : A → bool) (l : list A) :
  (length (filter (λ x, P x = true) l) + length (filter (λ x, P x = false) l)
   = length l)%nat.
Proof.
  induction l as [|x l IH]; [done|].
  rewrite !filter_cons. destruct (P x) eqn:E.
  - rewrite decide_True, decide_False by done. cbn. lia.
  - rewrite decide_False, decide_True by done. cbn. lia.
Qed.

Lemma Qc_of_Z_inj (a b : Z) : Qc_of_Z a = Qc_of_Z b → a = b.
Proof.
  intros E. destruct (Z.lt_trichotomy a b) as [Hlt|[->|Hlt]]; [|done|];
    apply Qc_of_Z_lt in Hlt; rewrite E in Hlt;
    by apply Qclt_not_eq in Hlt.
Qed.

Lemma Qc_ratio_zero (x p : Qc) : p ≠ Q2Qc 0 → (x / p)%Qc = Q2Qc 0 ↔ x = Q2Qc 0.
Proof.
  intros Hne. pose proof (test_field x p Hne) as E. split.
  - intros E0. rewrite E0, Qcmult_0_l in E. by symmetry.
  - intros ->. unfold Qcdiv. apply Qcmult_0_l.
Qed.

Lemma Qc_ratio_one (x p : Qc) : p ≠ Q2Qc 0 → (x / p)%Qc = 1%Qc ↔ x = p.
Proof.
  intros Hne. pose proof (test_field x p Hne) as E. split.
  - intros E1. rewrite E1, Qcmult_1_l in E. by symmetry.
  - intros ->. unfold Qcdiv. by apply Qcmult_inv_r.
Qed.

(** X8.  The metrics count every trade, as successful when its profit is
    positive and as failed otherwise, a break-even trade included; the win
    rate is a number between 0 and 1, 0 exactly when no trade is successful
    and 1 exactly when there are trades and none has failed. *)
Theorem metrics_count_every_trade trades initial_capital curve
    start_date end_date :
  let m := _calculate_metrics trades initial_capital curve start_date end_date in
  Metrics.total_trades m = len trades
  ∧ Metrics.successful_trades m
    = len (filter (λ t, fgt (Trade.profit t) (of_int 0) = true) trades)
  ∧ Metrics.failed_trades m
    = len (filter (λ t, fgt (Trade.profit t) (of_int 0) = false) trades)
  ∧ Metrics.successful_trades m + Metrics.failed_trades m
    = Metrics.total_trades m
  ∧ ∃ w, Metrics.win_rate m = Fin w
         ∧ (0 ≤ w)%Qc ∧ (w ≤ 1)%Qc
         ∧ (w = 0%Qc ↔ Metrics.successful_trades m = 0)
         ∧ (w = 1%Qc ↔ 0 < Metrics.total_trades m
                        ∧ Metrics.failed_trades m = 0).
Proof.
  intros m. subst m.
  pose proof (length_filter_split
                (λ t, fgt (Trade.profit t) (of_int 0)) trades) as Hsplit.
  destruct trades as [|t l].
  { cbn. repeat (split; [done|]). exists 0%Qc.
    split; [unfold of_int; by rewrite Qc_of_Z_0|].
    split; [apply Qcle_refl|]. split; [qc_to_q; lra|].
    split; [done|]. split; [intros E; discriminate E|lia]. }
  unfold _calculate_metrics.
  cbn [Metrics.total_trades Metrics.successful_trades Metrics.failed_trades
       Metrics.win_rate].
  set (trades := t :: l) in *.
  assert (Hpos : 0 < len trades) by (unfold len; cbn; lia).
  set (s := len (filter (λ x, fgt (Trade.profit x) (of_int 0) = true) trades))
    in *.
  set (f := len (filter (λ x, fgt (Trade.profit x) (of_int 0) = false) trades)).
  assert (Hsf : s + f = len trades) by (unfold s, f, len in *; lia).
  assert (Hs : 0 ≤ s) by (unfold s, len; lia).
  assert (Hf : 0 ≤ f) by (unfold f, len; lia).
  split; [done|]. split; [done|]. split; [lia|]. split; [lia|].
  apply Z.ltb_lt in Hpos as Hb. rewrite Hb.
  pose proof (Qc_of_Z_lt _ _ Hpos) as Hn. rewrite Qc_of_Z_0 in Hn.
  assert (Hne : Qc_of_Z (len trades) ≠ Q2Qc 0)
    by apply not_eq_sym, Qclt_not_eq, Hn.
  exists (Qc_of_Z s / Qc_of_Z (len trades))%Qc. split.
  { unfold fdiv, of_int, Qc_eqb. by rewrite bool_decide_eq_false_2. }
  destruct (Qc_ratio_bounds (Qc_of_Z s) (Qc_of_Z (len trades))) as [H0 H1];
    [done| rewrite <- Qc_of_Z_0; apply Qc_of_Z_le, Hs
    | apply Qc_of_Z_le; lia |].
  split; [done|]. split; [done|]. split.
  - rewrite Qc_ratio_zero by done. rewrite <- Qc_of_Z_0. split.
    + apply Qc_of_Z_inj.
    + by intros ->.
  - rewrite Qc_ratio_one by done. split.
    + intros E%Qc_of_Z_inj. lia.
    + intros [_ E]. f_equal. lia.
Qed.

Lemma is_negative_fadd x y :
  flt x (of_int 0) = true → flt y (of_int 0) = true →
  flt (fadd x y) (of_int 0) = true.
Proof.
  destruct x as [a| | |], y as [b| | |]; cbn; try done.
  unfold Qc_ltb. rewrite !bool_decide_eq_true, Qc_of_Z_0.
  intros Ha Hb. qc_lra.
Qed.

Lemma is_negative_foldl l acc :
  flt acc (of_int 0) = true →
  Forall (λ p, flt p (of_int 0) = true) l →
  flt (foldl fadd acc l) (of_int 0) = true.
Proof.
  revert acc. induction l as [|p l IH]; intros acc Hacc Hl; [done|].
  inversion Hl; subst. cbn. apply IH; [by apply is_negative_fadd|done].
Qed.

Lemma fadd_zero_l p : flt p (of_int 0) = true → fadd (of_int 0) p = p.
Proof.
  destruct p as [a| | |]; cbn; try done. intros _. f_equal.
  rewrite Qc_of_Z_0. apply Qcplus_0_l.
Qed.

Lemma is_negative_py_sum l :
  Forall (λ p, flt p (of_int 0) = true) l →
  fgt (fabs (py_sum l)) (of_int 0) = bool_decide (l ≠ []).
Proof.
  intros Hl. destruct l as [|p l].
  { by vm_compute. }
  rewrite bool_decide_eq_true_2 by done.
  inversion Hl; subst. unfold py_sum. cbn [foldl].
  rewrite fadd_zero_l by done.
  pose proof (is_negative_foldl l p ltac:(done) ltac:(done)) as Hneg.
  destruct (foldl fadd p l) as [a| | |]; cbn in *; try done.
  unfold Qc_ltb in *. rewrite Qc_of_Z_0 in *.
  apply bool_decide_eq_true in Hneg.
  rewrite (bool_decide_eq_true_2 _ Hneg). apply bool_decide_eq_true.
  qc_lra.
Qed.

Lemma is_nonneg_of_gt p : fgt p (of_int 0) = true → is_nonneg p.
Proof.
  destruct p as [a| | |]; cbn; try done. unfold Qc_ltb.
  rewrite bool_decide_eq_true, Qc_of_Z_0. apply Qclt_le_weak.
Qed.

Lemma is_nonneg_py_sum l :
  Forall (λ p, fgt p (of_int 0) = true) l → is_nonneg (py_sum l).
Proof.
  intros Hl. unfold py_sum.
  assert (Hz : is_nonneg (of_int 0))
    by (cbn; rewrite Qc_of_Z_0; apply Qcle_refl).
  revert Hz. generalize (of_int 0) as acc.
  induction l as [|p l IH]; intros acc Hacc; [done|].
  inversion Hl; subst. cbn. apply IH; [done|].
  by apply is_nonneg_fadd, is_nonneg_of_gt.
Qed.

Lemma ratio_not_negative x y :
  is_nonneg x → fgt y (of_int 0) = true → flt (fdiv x y) (of_int 0) = false.
Proof.
  destruct x as [a| | |], y as [b| | |]; cbn; try done.
  - unfold Qc_ltb, Qc_eqb. rewrite bool_decide_eq_true, Qc_of_Z_0.
    intros Ha Hb.
    rewrite bool_decide_eq_false_2 by apply not_eq_sym, Qclt_not_eq, Hb.
    cbn. unfold Qc_ltb. apply bool_decide_eq_false_2, Qcle_not_lt.
    rewrite Qc_of_Z_0.
    destruct (Qcle_lt_or_eq _ _ Ha) as [Hlt| <-].
    + by apply Qclt_le_weak, Qc_ratio_pos.
    + unfold Qcdiv. rewrite Qcmult_0_l. apply Qcle_refl.
  - unfold Qc_ltb. rewrite bool_decide_eq_true, Qc_of_Z_0. intros _ Hb.
    rewrite bool_decide_eq_false_2; [done|].
    apply Qcle_not_lt. by apply Qclt_le_weak.
Qed.

(** X9.  The profit factor is absent exactly when no trade has a negative
    profit, and when it is present it is not negative. *)
Theorem profit_factor_needs_a_loss trades initial_capital curve
    start_date end_date :
  let m := _calculate_metrics trades initial_capital curve start_date end_date in
  (Metrics.profit_factor m = None
   ↔ Forall (λ t, flt (Trade.profit t) (of_int 0) = false) trades)
  ∧ ∀ pf, Metrics.profit_factor m = Some pf → flt pf (of_int 0) = false.
Proof.
  intros m. subst m. destruct trades as [|t l]; [by split|].
  unfold _calculate_metrics. cbn [Metrics.profit_factor].
  set (trades := t :: l). set (profits := Trade.profit <$> trades).
  pose proof (is_negative_py_sum
                (filter (λ p, flt p (of_int 0) = true) profits)) as Hloss.
  rewrite Hloss by (apply Forall_forall; intros p Hp;
                    by apply list_elem_of_filter in Hp as [? _]).
  clear Hloss. split.
  - case_bool_decide as Hne; split; try done.
    + intros Hall. destruct Hne.
      apply elem_of_nil_inv.
      intros p [Hp (tr & -> & Htr)%list_elem_of_fmap]%list_elem_of_filter.
      rewrite Forall_forall in Hall. by rewrite (Hall tr Htr) in Hp.
    + intros _. apply Forall_forall. intros tr Htr.
      destruct (flt (Trade.profit tr) (of_int 0)) eqn:E; [|done].
      assert (Hin : Trade.profit tr
                    ∈ filter (λ p, flt p (of_int 0) = true) profits).
      { apply list_elem_of_filter. split; [done|].
        apply list_elem_of_fmap. by exists tr. }
      rewrite Hne in Hin. by apply elem_of_nil in Hin.
  - intros pf. case_bool_decide as Hne; [|done]. intros [= <-].
    apply ratio_not_negative.
    + apply is_nonneg_py_sum, Forall_forall. intros p Hp.
      by apply list_elem_of_filter in Hp as [? _].
    + rewrite is_negative_py_sum; [by apply bool_decide_eq_true_2|].
      apply Forall_forall; intros p Hp.
      by apply list_elem_of_filter in Hp as [? _].
Qed.

End TradeStatistics.

(** Three trades with the profits 500, 0 and -200: one is successful, the
    break-even trade and the loss are failed, and the win rate is a third. *)
Lemma metrics_count_every_trade_witness :
  let m := @_calculate_metrics plain_numlib mixed_trades (of_int 100000) []
             0 365 in
  (Metrics.total_trades m = 3 ∧ Metrics.successful_trades m = 1
   ∧ Metrics.failed_trades m = 2
   ∧ feqb (Metrics.win_rate m) (lit 1 3) = true)
  ∧ ∃ w, Metrics.win_rate m = Fin w ∧ (0 ≤ w)%Qc ∧ (w ≤ 1)%Qc.
Proof.
  split; [vm_compute; repeat split; reflexivity|].
  destruct (@metrics_count_every_trade plain_numlib mixed_trades
              (of_int 100000) [] 0 365) as (_ & _ & _ & _ & w & Hw & H0 & H1 & _).
  exists w. exact (conj Hw (conj H0 H1)).
Defined.

(** With the loss of 200 the profit factor is 500 / 200; without it there is
    none. *)
Lemma profit_factor_needs_a_loss_witness :
  (λ pf, feqb pf (lit 5 2))
    <$> Metrics.profit_factor
          (@_calculate_metrics plain_numlib mixed_trades (of_int 100000) []
             0 365)
  = Some true
  ∧ Metrics.profit_factor
      (@_calculate_metrics plain_numlib winning_trades (of_int 100000) [] 0 365)
    = None.
Proof.
  split; [vm_compute; reflexivity|].
  apply (@profit_factor_needs_a_loss plain_numlib winning_trades
           (of_int 100000) [] 0 365).
  apply (bool_decide_unpack _). vm_compute. exact I.
Defined.
